(** * Copilot metrics dashboard: seat aggregation, metrics fan-out and the
      client-side filter state

    A shallow embedding of
    - [aggregateSeatsData] (copilot-seat-service),
    - [getCopilotTeamsMetricsFromApi] (copilot-metrics-service),
    - [refreshMetricsData] / [refreshSeatsData] (dashboard-actions),
    - the [DashboardState] class (dashboard-state.tsx),
    together with the properties of the specification that concern them.

    JavaScript numbers that hold counts and instants are integers here ([Z]);
    arrays are lists; a [Map] is an association list kept in insertion order,
    because the code reads it back with [Array.from(map.values())]. *)

From Stdlib Require Import List String ZArith Bool Lia Permutation Sorted.
From Stdlib Require Import Ascii.
Import ListNotations.
Open Scope string_scope.
Open Scope Z_scope.

Set Implicit Arguments.

(** ** JavaScript helpers shared by the modules *)

(** Truthiness of a string: the empty string is falsy. *)
Definition truthy (s : string) : bool :=
  negb (String.eqb s "").

(** [array.includes(x)] on an array of strings. *)
Definition includes (l : list string) (x : string) : bool :=
  existsb (String.eqb x) l.

(** [array.length] as a JavaScript number. *)
Definition len {A : Type} (l : list A) : Z := Z.of_nat (List.length l).

(** [array.sort(cmp)]: a stable sort; [gt a b] says that the comparator
    answers a number above zero on [(a, b)], so that [a] goes after [b].  A
    comparator answer of [NaN] counts as zero.  Every stable sort returns
    this list when the comparator is a consistent ordering. *)
Section JsSort.
Variable A : Type.
Variable gt : A -> A -> bool.

Fixpoint sort_insert (x : A) (l : list A) : list A :=
  match l with
  | [] => [x]
  | y :: l' => if gt x y then y :: sort_insert x l' else x :: y :: l'
  end.

Definition js_sort (l : list A) : list A :=
  fold_right sort_insert [] l.
End JsSort.

(** The order of the keys, for lists that are sorted by a key. *)
Definition key_le {A : Type} (key : A -> Z) (a b : A) : Prop := key a <= key b.

(** Exceptions are identified by their message. *)
Definition Exn := string.

(** A settled promise.  A rejection carries the instant at which it
    happened, which is what [Promise.all] goes by when several reject. *)
Inductive Promise (A : Type) : Type :=
| Fulfilled (a : A)
| Rejected (when : nat) (reason : Exn).

Arguments Fulfilled {A} a.
Arguments Rejected {A} when reason.

Definition promise_bind {A B : Type} (p : Promise A) (k : A -> Promise B) : Promise B :=
  match p with
  | Fulfilled a => k a
  | Rejected t e => Rejected t e
  end.

(** The earliest rejection of a list of settled promises; among rejections
    of the same instant the one of the lowest index. *)
Fixpoint first_rejection {A : Type} (ps : list (Promise A)) : option (nat * Exn) :=
  match ps with
  | [] => None
  | Fulfilled _ :: ps' => first_rejection ps'
  | Rejected t e :: ps' =>
      match first_rejection ps' with
      | Some (t', e') => if Nat.leb t t' then Some (t, e) else Some (t', e')
      | None => Some (t, e)
      end
  end.

Fixpoint fulfilled_values {A : Type} (ps : list (Promise A)) : list A :=
  match ps with
  | [] => []
  | Fulfilled a :: ps' => a :: fulfilled_values ps'
  | Rejected _ _ :: ps' => fulfilled_values ps'
  end.

(** [Promise.all(ps)] *)
Definition Promise_all {A : Type} (ps : list (Promise A)) : Promise (list A) :=
  match first_rejection ps with
  | Some (t, e) => Rejected t e
  | None => Fulfilled (fulfilled_values ps)
  end.

(** [Promise.all([p, q])] for two promises of different types. *)
Definition Promise_all2 {A B : Type} (p : Promise A) (q : Promise B) : Promise (A * B) :=
  match p, q with
  | Fulfilled a, Fulfilled b => Fulfilled (a, b)
  | Rejected t e, Fulfilled _ => Rejected t e
  | Fulfilled _, Rejected t e => Rejected t e
  | Rejected t e, Rejected t' e' =>
      if Nat.leb t t' then Rejected t e else Rejected t' e'
  end.

(** ** Data model *)

Module Models.

(** [GitHubTeam]: the id may be missing, and so may the name. *)
Record GitHubTeam := mkTeam {
  team_id : option Z;
  team_name : option string
}.

Record SeatAssignment := mkSeat {
  assignee_login : string;
  assigning_team : option GitHubTeam;
  last_activity_at : option string
}.

(** One page (or one stored snapshot) of seats.  The fields that
    [aggregateSeatsData] leaves undefined in its zero-input answer are
    optional. *)
Record CopilotSeatsData := mkSeatsData {
  enterprise : option string;
  organization : option string;
  seats : list SeatAssignment;
  total_seats : Z;
  total_active_seats : option Z;
  page : option Z;
  has_next_page : option bool;
  last_update : option string;
  date : option string;
  id : option string
}.

(** What the dashboard stores as seat summary: a document, or the empty
    object [{} as CopilotSeatsData]. *)
Inductive SeatsValue :=
| empty_object
| seats_doc (d : CopilotSeatsData).

(** Modelled from the spec: the type declarations of features/common/models
    are not among the sources.  A breakdown entry carries its language, its
    editor and the suggestion, acceptance and chat counts. *)
Record Breakdown := mkBreakdown {
  language : string;
  editor : string;
  suggestions_count : Z;
  acceptances_count : Z;
  chat_count : Z
}.

(** Modelled from the spec: one day of usage, with the three labels that the
    time-bucket labeler attaches. *)
Record CopilotUsageOutput := mkUsage {
  day : string;
  breakdown : list Breakdown;
  time_frame_week : string;
  time_frame_month : string;
  time_frame_display : string
}.

(** A failing status: "ERROR", which the sources write, or another status
    that is not "OK", which the error constructors outside the sources may
    answer. *)
Inductive ErrorStatus := ERROR | OTHER (name : string).

Record ServerActionError := mkError { message : string }.

(** [ServerActionResponse<T>]: status "OK" with a response, or a failing
    status with its errors. *)
Inductive ServerActionResponse (T : Type) : Type :=
| OK (response : T)
| Failed (status : ErrorStatus) (errors : list ServerActionError).

Arguments OK {T} response.
Arguments Failed {T} status errors.

Definition is_OK {T : Type} (r : ServerActionResponse T) : bool :=
  match r with
  | OK _ => true
  | Failed _ _ => false
  end.

End Models.

Import Models.

(** ** Seat aggregation *)

Module Seats.

(** Insertion-ordered [Map<string, V>]. *)
Section JsMap.
Variable V : Type.

Definition JsMap := list (string * V).

Definition map_has (m : JsMap) (k : string) : bool :=
  existsb (fun kv => String.eqb (fst kv) k) m.

(** [map.set(k, v)]: an existing key keeps its position, a new key goes
    last. *)
Fixpoint map_set (m : JsMap) (k : string) (v : V) : JsMap :=
  match m with
  | [] => [(k, v)]
  | (k', v') :: m' =>
      if String.eqb k' k then (k', v) :: m' else (k', v') :: map_set m' k v
  end.

Definition map_values (m : JsMap) : list V := map snd m.
End JsMap.

Section Aggregate.
(** [new Date(s)] as an instant in milliseconds; [None] is an invalid date,
    whose comparisons are all false. *)
Variable Date_parse : string -> option Z.

(** The instant "now minus 30 days" at the two places where the code reads
    the clock: the backward-compatibility branch and the recomputation. *)
Variable thirtyDaysAgo0 : Z.
Variable thirtyDaysAgo : Z.

(** The predicate of the three [filter] calls that count active seats. *)
Definition is_active (since : Z) (seat : SeatAssignment) : bool :=
  match last_activity_at seat with
  | None => false
  | Some s =>
      if truthy s then
        match Date_parse s with
        | Some t => since <=? t
        | None => false
        end
      else false
  end.

(** [seat.assigning_team?.name && teamFilter.includes(seat.assigning_team.name)] *)
Definition in_team_filter (teamFilter : list string) (seat : SeatAssignment) : bool :=
  match assigning_team seat with
  | Some t =>
      match team_name t with
      | Some n => truthy n && includes teamFilter n
      | None => false
      end
  | None => false
  end.

(** [if (teamFilter && teamFilter.length > 0) filtered = all.filter(...)] *)
Definition apply_team_filter (teamFilter : option (list string))
    (all : list SeatAssignment) : list SeatAssignment :=
  match teamFilter with
  | Some ((_ :: _) as tf) => filter (in_team_filter tf) all
  | _ => all
  end.

(** The [forEach] that fills [uniqueSeatsMap]. *)
Definition unique_step (m : JsMap SeatAssignment) (seat : SeatAssignment) :=
  if map_has m (assignee_login seat) then m
  else map_set m (assignee_login seat) seat.

Definition uniqueSeats (l : list SeatAssignment) : list SeatAssignment :=
  map_values (fold_left unique_step l []).

(** The backward-compatibility write to [data[0].total_active_seats]. *)
Definition compat_first (d0 : CopilotSeatsData) : CopilotSeatsData :=
  match total_active_seats d0 with
  | Some _ => d0
  | None =>
      mkSeatsData (enterprise d0) (organization d0) (seats d0) (total_seats d0)
        (Some (len (filter (is_active thirtyDaysAgo0) (seats d0))))
        (page d0) (has_next_page d0) (last_update d0) (date d0) (id d0)
  end.

Definition aggregateSeatsData (data : list CopilotSeatsData)
    (teamFilter : option (list string)) : CopilotSeatsData :=
  match data with
  | [] =>
      mkSeatsData None None [] 0 (Some 0) None None None None None
  | d0 :: rest =>
      let d0 := compat_first d0 in
      match rest with
      | [] =>
          let filteredSeats := apply_team_filter teamFilter (seats d0) in
          let activeSeatsCount := len (filter (is_active thirtyDaysAgo) filteredSeats) in
          mkSeatsData (enterprise d0) (organization d0) filteredSeats
            (len filteredSeats) (Some activeSeatsCount)
            (page d0) (has_next_page d0) (last_update d0) (date d0) (id d0)
      | _ :: _ =>
          let allSeats := flat_map seats (d0 :: rest) in
          let filteredSeats := apply_team_filter teamFilter allSeats in
          let seats := uniqueSeats filteredSeats in
          let activeSeatsCount := len (filter (is_active thirtyDaysAgo) seats) in
          mkSeatsData (enterprise d0) (organization d0) seats
            (len seats) (Some activeSeatsCount)
            (page d0) (Some false) (last_update d0) (date d0) (id d0)
      end
  end.

(** The order of steps as the specification words it: flatten, deduplicate
    by login, then filter by team, then recompute.  Written from the
    specification, to be compared with [aggregateSeatsData]. *)
Definition aggregate_dedup_then_filter (data : list CopilotSeatsData)
    (teamFilter : option (list string)) : list SeatAssignment * Z * Z :=
  let allSeats := flat_map seats data in
  let deduped := uniqueSeats allSeats in
  let surviving := apply_team_filter teamFilter deduped in
  (surviving, len surviving, len (filter (is_active thirtyDaysAgo) surviving)).

(** The number stored in [total_active_seats] ([0] when absent). *)
Definition active_count (d : CopilotSeatsData) : Z :=
  match total_active_seats d with
  | Some n => n
  | None => 0
  end.

End Aggregate.

(** Deduplication written directly: a seat stays when its login has not been
    seen earlier in the list. *)
Fixpoint first_occurrences (seen : list string) (l : list SeatAssignment) :
    list SeatAssignment :=
  match l with
  | [] => []
  | s :: l' =>
      if includes seen (assignee_login s) then first_occurrences seen l'
      else s :: first_occurrences (seen ++ [assignee_login s])%list l'
  end.

End Seats.

(** ** Metrics fetcher: the per-team fan-out *)

Module Metrics.

Record IFilter := mkFilter {
  startDate : option Z;
  endDate : option Z;
  enterprise : string;
  organization : string;
  team : list string
}.

(** What [ensureGitHubEnvConfig] answers when the environment is complete. *)
Record GitHubConfig := mkConfig {
  token : string;
  version : string
}.

Record HttpResponse := mkResponse {
  ok : bool;
  http_status : Z;
  body : string
}.

Definition failed {T : Type} (f : ErrorStatus * list ServerActionError) :
    ServerActionResponse T :=
  Failed (fst f) (snd f).

(** [array.map((x, i) => f(i, x))], counting from [i]. *)
Fixpoint mapi_from {A B : Type} (f : nat -> A -> B) (i : nat) (l : list A) : list B :=
  match l with
  | [] => []
  | x :: l' => f i x :: mapi_from f (S i) l'
  end.

(** The records of the responses with status "OK", in order: the [forEach]
    that pushes into [allMetrics]. *)
Definition combine_ok {T : Type} (results : list (ServerActionResponse (list T))) : list T :=
  flat_map (fun r => match r with OK x => x | Failed _ _ => [] end) results.

Section Fetcher.
(** The parsed body of a metrics response, before labelling. *)
Variable RawMetrics : Type.

(** The network: request number, url, token and API version give a
    response, or the request throws. *)
Variable fetch : nat -> string -> string -> string -> Promise HttpResponse.
(** [response.json()], which rejects on a malformed body. *)
Variable json : HttpResponse -> Promise RawMetrics.

(** Helpers of the repository that are outside the sources: the time-bucket
    labeler and the two error constructors, which answer a failing status
    with its errors. *)
Variable applyTimeFrameLabel : RawMetrics -> list CopilotUsageOutput.
Variable formatResponseError : string -> HttpResponse -> ErrorStatus * list ServerActionError.
Variable unknownResponseError : Exn -> ErrorStatus * list ServerActionError.

(** date-fns [format(d, "yyyy-MM-dd")] and [new Date(day).getTime()]
    ([None] is [NaN]). *)
Variable format : Z -> string.
Variable Date_getTime : string -> option Z.

Definition fetchCopilotMetrics (i : nat) (url token version entityName : string) :
    Promise (ServerActionResponse (list CopilotUsageOutput)) :=
  promise_bind (fetch i url token version) (fun response =>
    if negb (ok response) then
      Fulfilled (failed (formatResponseError entityName response))
    else
      promise_bind (json response) (fun data =>
        Fulfilled (OK (applyTimeFrameLabel data)))).

Definition queryString (filter : IFilter) : string :=
  let since :=
    match startDate filter with
    | Some d => ["since=" ++ format d]
    | None => []
    end in
  let until :=
    match endDate filter with
    | Some d => ["until=" ++ format d]
    | None => []
    end in
  let queryParams := String.concat "&" (since ++ until) in
  if truthy queryParams then "?" ++ queryParams else "".

(** The callback of [filter.team.map]. *)
Definition teamRequest (cfg : GitHubConfig) (filter : IFilter)
    (i : nat) (teamSlug : string) :
    Promise (ServerActionResponse (list CopilotUsageOutput)) :=
  if truthy (enterprise filter) then
    fetchCopilotMetrics i
      ("https://api.github.com/enterprises/" ++ enterprise filter ++ "/team/"
         ++ teamSlug ++ "/copilot/metrics" ++ queryString filter)
      (token cfg) (version cfg)
      (enterprise filter ++ "/team/" ++ teamSlug)
  else
    fetchCopilotMetrics i
      ("https://api.github.com/orgs/" ++ organization filter ++ "/team/"
         ++ teamSlug ++ "/copilot/metrics" ++ queryString filter)
      (token cfg) (version cfg)
      (organization filter ++ "/team/" ++ teamSlug).

Definition teamMetricsPromises (cfg : GitHubConfig) (filter : IFilter) :=
  mapi_from (teamRequest cfg filter) 0 (team filter).

(** The comparator of the final sort answers a number above zero. *)
Definition later_day (a b : CopilotUsageOutput) : bool :=
  match Date_getTime (day a), Date_getTime (day b) with
  | Some ta, Some tb => 0 <? ta - tb
  | _, _ => false
  end.

Definition getCopilotTeamsMetricsFromApi
    (env : ServerActionResponse GitHubConfig) (filter : IFilter) :
    ServerActionResponse (list CopilotUsageOutput) :=
  match env with
  | Failed st errs => Failed st errs
  | OK cfg =>
      match team filter with
      | [] => OK []
      | _ :: _ =>
          match Promise_all (teamMetricsPromises cfg filter) with
          | Rejected _ e => failed (unknownResponseError e)
          | Fulfilled teamMetricsResults =>
              match List.filter (fun result => negb (is_OK result)) teamMetricsResults with
              | first_failed :: _ => first_failed
              | [] => OK (js_sort later_day (combine_ok teamMetricsResults))
              end
          end
      end
  end.

(** A per-team request fails when it throws or answers a failing status. *)
Definition request_fails (p : Promise (ServerActionResponse (list CopilotUsageOutput))) : bool :=
  match p with
  | Fulfilled r => negb (is_OK r)
  | Rejected _ _ => true
  end.

Definition day_time (r : CopilotUsageOutput) : Z :=
  match Date_getTime (day r) with
  | Some t => t
  | None => 0
  end.

Definition valid_day (r : CopilotUsageOutput) : Prop :=
  Date_getTime (day r) <> None.

End Fetcher.

End Metrics.

(** ** Server actions used by the refresh (dashboard-actions) *)

Module Actions.

(** The object a server action answers: [{ success, data?, error? }]. *)
Record RefreshResult (A : Type) := mkResult {
  success : bool;
  data : option A;
  error : option string
}.

(** [errors[0]?.message || fallback] *)
Definition first_message (errors : list ServerActionError) (fallback : string) : string :=
  match errors with
  | e :: _ => if truthy (message e) then message e else fallback
  | [] => fallback
  end.

Definition or_empty (s : option string) : string :=
  match s with
  | Some s => s
  | None => ""
  end.

(** The body shared by the two actions: the awaited service answer is turned
    into a result object, and a throw is caught. *)
Definition action_result {A : Type} (service : Promise (ServerActionResponse A))
    (fallback : string) : RefreshResult A :=
  match service with
  | Fulfilled (OK response) => mkResult true (Some response) None
  | Fulfilled (Failed _ errors) =>
      mkResult false None (Some (first_message errors fallback))
  | Rejected _ _ => mkResult false None (Some "An unexpected error occurred")
  end.

(** [getCopilotSeatsManagement] (copilot-seat-service), given what
    [ensureGitHubEnvConfig] answers and what the seat backend
    ([getCopilotSeatsFromDatabase] or [getCopilotSeatsFromApi], which catch
    their own exceptions) answers: an answer of the backend that is not "OK"
    becomes "OK" with the empty object. *)
Definition getCopilotSeatsManagement {Config : Type}
    (env : ServerActionResponse Config)
    (backend : ServerActionResponse CopilotSeatsData) :
    ServerActionResponse SeatsValue :=
  match env with
  | Failed st errs => Failed st errs
  | OK _ =>
      match backend with
      | OK seatsData => OK (seats_doc seatsData)
      | Failed _ _ => OK empty_object
      end
  end.

Section ServerActions.
Variable getCopilotMetrics :
  Metrics.IFilter -> Promise (ServerActionResponse (list CopilotUsageOutput)).
Variable getCopilotSeatsManagement :
  option Z -> string -> string -> list string -> Promise (ServerActionResponse SeatsValue).

Definition refreshMetricsData (startDate endDate : option Z)
    (enterprise organization : option string) (teams : option (list string)) :
    RefreshResult (list CopilotUsageOutput) :=
  let metricsFilter :=
    Metrics.mkFilter startDate endDate (or_empty enterprise) (or_empty organization)
      (match teams with Some t => t | None => [] end) in
  action_result (getCopilotMetrics metricsFilter) "Failed to fetch metrics".

Definition refreshSeatsData (date : option Z)
    (enterprise organization : option string) (teams : option (list string)) :
    RefreshResult SeatsValue :=
  action_result
    (getCopilotSeatsManagement date (or_empty enterprise) (or_empty organization)
       (match teams with Some t => t | None => [] end))
    "Failed to fetch seats data".
End ServerActions.

End Actions.

(** ** The dashboard filter state (dashboard-state.tsx) *)

Module Dashboard.

Import Actions.

Inductive TimeFrame := daily | weekly | monthly.

Record DropdownFilterItem := mkItem {
  value : string;
  isSelected : bool
}.

Record CurrentFilter := mkCurrentFilter {
  startDate : option Z;
  endDate : option Z;
  enterprise : option string;
  organization : option string
}.

(** The fields of the class.  [R] is what the two usage arrays hold: the
    records themselves where sharing does not matter, references into a
    store of objects in [Store] below. *)
Record DashboardState (R : Type) := mkState {
  filteredData : list R;
  languages : list DropdownFilterItem;
  editors : list DropdownFilterItem;
  teams : list DropdownFilterItem;
  timeFrame : TimeFrame;
  hideWeekends : bool;
  isLoading : bool;
  seatsData : SeatsValue;
  teamsData : list GitHubTeam;
  apiData : list R;
  hasPendingTeamChanges : bool;
  currentFilter : CurrentFilter
}.

Section Setters.
Variable R : Type.
Implicit Type st : DashboardState R.

Definition with_filteredData (v : list R) st :=
  mkState v (languages st) (editors st) (teams st) (timeFrame st) (hideWeekends st)
    (isLoading st) (seatsData st) (teamsData st) (apiData st)
    (hasPendingTeamChanges st) (currentFilter st).
Definition with_languages v st :=
  mkState (filteredData st) v (editors st) (teams st) (timeFrame st) (hideWeekends st)
    (isLoading st) (seatsData st) (teamsData st) (apiData st)
    (hasPendingTeamChanges st) (currentFilter st).
Definition with_editors v st :=
  mkState (filteredData st) (languages st) v (teams st) (timeFrame st) (hideWeekends st)
    (isLoading st) (seatsData st) (teamsData st) (apiData st)
    (hasPendingTeamChanges st) (currentFilter st).
Definition with_teams v st :=
  mkState (filteredData st) (languages st) (editors st) v (timeFrame st) (hideWeekends st)
    (isLoading st) (seatsData st) (teamsData st) (apiData st)
    (hasPendingTeamChanges st) (currentFilter st).
Definition with_timeFrame v st :=
  mkState (filteredData st) (languages st) (editors st) (teams st) v (hideWeekends st)
    (isLoading st) (seatsData st) (teamsData st) (apiData st)
    (hasPendingTeamChanges st) (currentFilter st).
Definition with_hideWeekends v st :=
  mkState (filteredData st) (languages st) (editors st) (teams st) (timeFrame st) v
    (isLoading st) (seatsData st) (teamsData st) (apiData st)
    (hasPendingTeamChanges st) (currentFilter st).
Definition with_isLoading v st :=
  mkState (filteredData st) (languages st) (editors st) (teams st) (timeFrame st)
    (hideWeekends st) v (seatsData st) (teamsData st) (apiData st)
    (hasPendingTeamChanges st) (currentFilter st).
Definition with_seatsData v st :=
  mkState (filteredData st) (languages st) (editors st) (teams st) (timeFrame st)
    (hideWeekends st) (isLoading st) v (teamsData st) (apiData st)
    (hasPendingTeamChanges st) (currentFilter st).
Definition with_teamsData v st :=
  mkState (filteredData st) (languages st) (editors st) (teams st) (timeFrame st)
    (hideWeekends st) (isLoading st) (seatsData st) v (apiData st)
    (hasPendingTeamChanges st) (currentFilter st).
Definition with_apiData (v : list R) st :=
  mkState (filteredData st) (languages st) (editors st) (teams st) (timeFrame st)
    (hideWeekends st) (isLoading st) (seatsData st) (teamsData st) v
    (hasPendingTeamChanges st) (currentFilter st).
Definition with_hasPendingTeamChanges v st :=
  mkState (filteredData st) (languages st) (editors st) (teams st) (timeFrame st)
    (hideWeekends st) (isLoading st) (seatsData st) (teamsData st) (apiData st)
    v (currentFilter st).
Definition with_currentFilter v st :=
  mkState (filteredData st) (languages st) (editors st) (teams st) (timeFrame st)
    (hideWeekends st) (isLoading st) (seatsData st) (teamsData st) (apiData st)
    (hasPendingTeamChanges st) v.

(** The field initialisers of the class. *)
Definition initial : DashboardState R :=
  mkState [] [] [] [] weekly false false empty_object [] [] false
    (mkCurrentFilter None None None None).
End Setters.

(** *** Dropdown items *)

(** [items.find((l) => l.value === v)] *)
Definition find_item (v : string) (items : list DropdownFilterItem) : option DropdownFilterItem :=
  find (fun l => String.eqb (value l) v) items.

(** [item.isSelected = !item.isSelected] on the item that [find] returns: the
    first one with that value, changed in place. *)
Fixpoint toggle_first (v : string) (items : list DropdownFilterItem) : list DropdownFilterItem :=
  match items with
  | [] => []
  | x :: items' =>
      if String.eqb (value x) v then mkItem (value x) (negb (isSelected x)) :: items'
      else x :: toggle_first v items'
  end.

(** [items.forEach((item) => (item.isSelected = false))] *)
Definition clear_all (items : list DropdownFilterItem) : list DropdownFilterItem :=
  map (fun item => mkItem (value item) false) items.

(** [if (findIndex(...) === -1) items.push({ value: v, isSelected: false })] *)
Definition push_unique (items : list DropdownFilterItem) (v : string) : list DropdownFilterItem :=
  if existsb (fun item => String.eqb (value item) v) items then items
  else (items ++ [mkItem v false])%list.

(** The team item with the selection of the previous item of the same value,
    when there is one. *)
Definition restore_selection (previous : list DropdownFilterItem)
    (team : DropdownFilterItem) : DropdownFilterItem :=
  match find_item (value team) previous with
  | Some previousSelection => mkItem (value team) (isSelected previousSelection)
  | None => team
  end.

(** *** Usage records *)

Definition with_breakdown (b : list Breakdown) (item : CopilotUsageOutput) :=
  mkUsage (day item) b (time_frame_week item) (time_frame_month item)
    (time_frame_display item).

Definition with_display (d : string) (item : CopilotUsageOutput) :=
  mkUsage (day item) (breakdown item) (time_frame_week item) (time_frame_month item) d.

(** [Record<string, T[]>] filled by [reduce]: the keys in the order of their
    creation, each with its items in the order they were pushed. *)
Fixpoint group_push {T : Type} (acc : list (string * list T)) (label : string) (item : T) :
    list (string * list T) :=
  match acc with
  | [] => [(label, [item])]
  | (k, v) :: acc' =>
      if String.eqb k label then (k, (v ++ [item])%list) :: acc'
      else (k, v) :: group_push acc' label item
  end.

Definition keep_language (selected : list DropdownFilterItem) (b : Breakdown) : bool :=
  existsb (fun selectedLanguage => String.eqb (value selectedLanguage) (language b)) selected.

Definition keep_editor (selected : list DropdownFilterItem) (b : Breakdown) : bool :=
  existsb (fun editor_ => String.eqb (value editor_) (editor b)) selected.

(** The two [data.forEach] of [applyFilters] and its last [filter], on the
    bucketed rows. *)
Definition narrow (languages editors : list DropdownFilterItem)
    (data : list CopilotUsageOutput) : list CopilotUsageOutput :=
  let selectedLanguages := filter isSelected languages in
  let selectedEditors := filter isSelected editors in
  let data :=
    if negb (len selectedLanguages =? 0) then
      map (fun item =>
             with_breakdown (filter (keep_language selectedLanguages) (breakdown item)) item)
          data
    else data in
  let data :=
    if negb (len selectedEditors =? 0) then
      map (fun item =>
             with_breakdown (filter (keep_editor selectedEditors) (breakdown item)) item)
          data
    else data in
  filter (fun item => 0 <? len (breakdown item)) data.

(** The state of the class, with the usage records held by value. *)
Definition State := DashboardState CopilotUsageOutput.

Section FilterState.
(** Helpers and library calls outside the sources: [formatDate] of
    utils/helpers, [groupByTimeFrame] of utils/data-mapper, which gets the
    groups in creation order, [new Date(day).getDay()] ([None] is [NaN])
    and [a.localeCompare(b)]. *)
Variable formatDate : string -> string.
Variable groupByTimeFrame :
  list (string * list CopilotUsageOutput) -> list CopilotUsageOutput.
Variable Date_getDay : string -> option Z.
Variable localeCompare : string -> string -> Z.

(** [day !== 0 && day !== 6] *)
Definition is_weekday (item : CopilotUsageOutput) : bool :=
  match Date_getDay (day item) with
  | Some d => negb (d =? 0) && negb (d =? 6)
  | None => true
  end.

Definition timeFrameLabel (tf : TimeFrame) (item : CopilotUsageOutput) : string :=
  match tf with
  | weekly => time_frame_week item
  | _ => time_frame_month item
  end.

(** [JSON.parse(JSON.stringify(apiData))] gives records equal to the stored
    ones; on records, the copy is the list itself. *)
Definition aggregatedDataByTimeFrame (hideWeekends_ : bool) (st : State) :
    list CopilotUsageOutput :=
  let items := apiData st in
  let items := if hideWeekends_ then filter is_weekday items else items in
  match timeFrame st with
  | daily => map (fun item => with_display (formatDate (day item)) item) items
  | tf =>
      groupByTimeFrame
        (fold_left (fun acc item => group_push acc (timeFrameLabel tf item) item) items [])
  end.

Definition applyFilters (st : State) : State :=
  let data := aggregatedDataByTimeFrame (hideWeekends st) st in
  with_filteredData (narrow (languages st) (editors st) data) st.

Definition sort_items (items : list DropdownFilterItem) : list DropdownFilterItem :=
  js_sort (fun a b => 0 <? localeCompare (value a) (value b)) items.

Definition extractUniqueLanguages (st : State) : list DropdownFilterItem :=
  sort_items
    (fold_left
       (fun languages_ item =>
          fold_left (fun languages_ b => push_unique languages_ (language b))
            (breakdown item) languages_)
       (apiData st) []).

Definition extractUniqueEditors (st : State) : list DropdownFilterItem :=
  sort_items
    (fold_left
       (fun editors_ item =>
          fold_left (fun editors_ b => push_unique editors_ (editor b))
            (breakdown item) editors_)
       (apiData st) []).

Definition extractUniqueTeams (st : State) : list DropdownFilterItem :=
  sort_items
    (fold_left
       (fun teams_ team =>
          match team_name team with
          | Some teamName => if truthy teamName then push_unique teams_ teamName else teams_
          | None => teams_
          end)
       (teamsData st) []).

(** *** The synchronous operations *)

Definition onTimeFrameChange (tf : TimeFrame) (st : State) : State :=
  applyFilters (with_timeFrame tf st).

Definition initData (data_ : list CopilotUsageOutput) (seatsData_ : SeatsValue)
    (teamsData_ : list GitHubTeam) (filter_ : option CurrentFilter) (st : State) : State :=
  let st := with_apiData data_ st in
  let st := with_filteredData data_ st in
  let st := onTimeFrameChange (timeFrame st) st in
  let st := with_seatsData seatsData_ st in
  let st := with_teamsData teamsData_ st in
  let st := with_languages (extractUniqueLanguages st) st in
  let st := with_editors (extractUniqueEditors st) st in
  let st := with_teams (extractUniqueTeams st) st in
  match filter_ with
  | Some f => with_currentFilter f st
  | None => st
  end.

Definition filterLanguage (language_ : string) (st : State) : State :=
  match find_item language_ (languages st) with
  | Some _ => applyFilters (with_languages (toggle_first language_ (languages st)) st)
  | None => st
  end.

Definition filterEditor (editor_ : string) (st : State) : State :=
  match find_item editor_ (editors st) with
  | Some _ => applyFilters (with_editors (toggle_first editor_ (editors st)) st)
  | None => st
  end.

Definition filterTeam (team : string) (st : State) : State :=
  match find_item team (teams st) with
  | Some _ =>
      with_hasPendingTeamChanges true
        (applyFilters (with_teams (toggle_first team (teams st)) st))
  | None => st
  end.

Definition toggleWeekendFilter (hide : bool) (st : State) : State :=
  applyFilters (with_hideWeekends hide st).

(** [resetAllFilters] up to its [await]. *)
Definition resetAllFilters_sync (st : State) : State :=
  let st := with_languages (clear_all (languages st)) st in
  let st := with_editors (clear_all (editors st)) st in
  let st := with_teams (clear_all (teams st)) st in
  let st := with_hideWeekends false st in
  let st := with_hasPendingTeamChanges false st in
  applyFilters st.

(** What [refreshDataWithTeams] does with a successful metrics result. *)
Definition applyMetricsResult (data_ : list CopilotUsageOutput) (st : State) : State :=
  let st := with_apiData data_ st in
  let st := with_languages (extractUniqueLanguages st) st in
  let st := with_editors (extractUniqueEditors st) st in
  let currentTeamSelections :=
    map (fun t => mkItem (value t) (isSelected t)) (teams st) in
  let st := with_teams (extractUniqueTeams st) st in
  let st := with_teams (map (restore_selection currentTeamSelections) (teams st)) st in
  applyFilters st.

End FilterState.

(** The filtered view is in step with the raw data and the selections when
    a recomputation would leave it as it is. *)
Definition in_sync (formatDate : string -> string)
    (groupByTimeFrame : list (string * list CopilotUsageOutput) -> list CopilotUsageOutput)
    (Date_getDay : string -> option Z) (st : State) : Prop :=
  filteredData st
  = filteredData (applyFilters formatDate groupByTimeFrame Date_getDay st).

(** *** The asynchronous operations

    An asynchronous method is a computation over the state and the list of
    what it did that can be seen from outside (writes of the loading flag,
    calls of server actions, console errors); it completes normally or
    throws.  The server answers in one step: what other calls do to the
    state while a request is in flight is outside this model. *)

Inductive Event :=
| LoadingSet (b : bool)
| RefreshMetricsCalled (filter_ : CurrentFilter) (teams_ : list string)
| RefreshSeatsCalled (date_ : option Z) (enterprise_ organization_ : option string)
    (teams_ : list string)
| ConsoleError (msg : string) (e : Exn).

Record World := mkWorld {
  dash : State;
  events : list Event
}.

Inductive Completion (A : Type) : Type :=
| Normal (a : A)
| Throw (e : Exn).

Arguments Normal {A} a.
Arguments Throw {A} e.

Definition Action (A : Type) : Type := World -> Completion A * World.

Definition ret {A : Type} (a : A) : Action A := fun w => (Normal a, w).

Definition bind {A B : Type} (m : Action A) (k : A -> Action B) : Action B :=
  fun w =>
    match m w with
    | (Normal a, w') => k a w'
    | (Throw e, w') => (Throw e, w')
    end.

Notation "x <- m ;; k" := (bind m (fun x => k))
  (at level 61, m at next level, right associativity).
Notation "m ;; k" := (bind m (fun _ => k))
  (at level 61, right associativity).

Definition get : Action State := fun w => (Normal (dash w), w).

Definition modify (f : State -> State) : Action unit :=
  fun w => (Normal tt, mkWorld (f (dash w)) (events w)).

Definition emit (e : Event) : Action unit :=
  fun w => (Normal tt, mkWorld (dash w) (events w ++ [e])%list).

(** [await p] *)
Definition await {A : Type} (p : Promise A) : Action A :=
  fun w =>
    match p with
    | Fulfilled a => (Normal a, w)
    | Rejected _ e => (Throw e, w)
    end.

(** [try { body } catch (e) { handler(e) }] *)
Definition try_catch {A : Type} (body : Action A) (handler : Exn -> Action A) : Action A :=
  fun w =>
    match body w with
    | (Normal a, w') => (Normal a, w')
    | (Throw e, w') => handler e w'
    end.

(** [try { body } finally { cleanup }]: the cleanup runs after the body
    however it completes, and the completion of the body stands unless the
    cleanup throws. *)
Definition try_finally {A : Type} (body : Action A) (cleanup : Action unit) : Action A :=
  fun w =>
    match body w with
    | (c, w') =>
        match cleanup w' with
        | (Normal _, w'') => (c, w'')
        | (Throw e, w'') => (Throw e, w'')
        end
    end.

(** [this.isLoading = b] *)
Definition setLoading (b : bool) : Action unit :=
  modify (with_isLoading b) ;; emit (LoadingSet b).

(** The values of the [LoadingSet] events, in order. *)
Fixpoint loading_writes (es : list Event) : list bool :=
  match es with
  | [] => []
  | LoadingSet b :: es' => b :: loading_writes es'
  | _ :: es' => loading_writes es'
  end.

(** The team lists of the metrics refresh calls, in order. *)
Fixpoint refresh_calls (es : list Event) : list (list string) :=
  match es with
  | [] => []
  | RefreshMetricsCalled _ t :: es' => t :: refresh_calls es'
  | _ :: es' => refresh_calls es'
  end.


(** The two calls when the transport delivers what the server actions
    answer: [refreshMetricsData({...this.currentFilter, teams})] and
    [refreshSeatsData({date: endDate, enterprise, organization, teams})]. *)
Definition metrics_action
    (getCopilotMetrics :
       Metrics.IFilter -> Promise (ServerActionResponse (list CopilotUsageOutput)))
    (f : CurrentFilter) (selectedTeams : list string) :
    Promise (RefreshResult (list CopilotUsageOutput)) :=
  Fulfilled
    (Actions.refreshMetricsData getCopilotMetrics (startDate f) (endDate f)
       (enterprise f) (organization f) (Some selectedTeams)).

Definition seats_action
    (getCopilotSeatsManagement :
       option Z -> string -> string -> list string -> Promise (ServerActionResponse SeatsValue))
    (date_ : option Z) (enterprise_ organization_ : option string)
    (selectedTeams : list string) : Promise (RefreshResult SeatsValue) :=
  Fulfilled
    (Actions.refreshSeatsData getCopilotSeatsManagement date_ enterprise_ organization_
       (Some selectedTeams)).

Section Refresh.
Variable formatDate : string -> string.
Variable groupByTimeFrame :
  list (string * list CopilotUsageOutput) -> list CopilotUsageOutput.
Variable Date_getDay : string -> option Z.
Variable localeCompare : string -> string -> Z.

(** The two server actions as the client sees them: the result object of
    the action, or a rejected call. *)
Variable refreshMetricsData :
  CurrentFilter -> list string -> Promise (RefreshResult (list CopilotUsageOutput)).
Variable refreshSeatsData :
  option Z -> option string -> option string -> list string ->
  Promise (RefreshResult SeatsValue).

(** The [try { ... } catch (error) { ... }] of [refreshDataWithTeams]: the
    two calls, what is done with their results, and the handler. *)
Definition refresh_try (selectedTeams : list string) : Action unit :=
  try_catch
    (st <- get ;;
     emit (RefreshMetricsCalled (currentFilter st) selectedTeams) ;;
     emit (RefreshSeatsCalled (endDate (currentFilter st))
             (enterprise (currentFilter st)) (organization (currentFilter st))
             selectedTeams) ;;
     results <- await
       (Promise_all2
          (refreshMetricsData (currentFilter st) selectedTeams)
          (refreshSeatsData (endDate (currentFilter st))
             (enterprise (currentFilter st)) (organization (currentFilter st))
             selectedTeams)) ;;
     let (metricsResult, seatsResult) := results in
     match success metricsResult, data metricsResult with
     | true, Some d =>
         modify (applyMetricsResult formatDate groupByTimeFrame Date_getDay
                   localeCompare d)
     | _, _ => ret tt
     end ;;
     match success seatsResult, data seatsResult with
     | true, Some d => modify (with_seatsData d)
     | _, _ => ret tt
     end)
    (fun error_ => emit (ConsoleError "Failed to refresh data:" error_)).

Definition refreshDataWithTeams (selectedTeams : list string) : Action unit :=
  setLoading true ;;
  try_finally (refresh_try selectedTeams) (setLoading false).

Definition refreshTeamDataIfNeeded : Action unit :=
  st <- get ;;
  if hasPendingTeamChanges st then
    let selectedTeams := map value (filter isSelected (teams st)) in
    refreshDataWithTeams selectedTeams ;;
    modify (with_hasPendingTeamChanges false)
  else ret tt.

Definition resetAllFilters : Action unit :=
  modify (resetAllFilters_sync formatDate groupByTimeFrame Date_getDay) ;;
  try_catch
    (refreshDataWithTeams [])
    (fun error_ => emit (ConsoleError "Failed to refresh data with teams:" error_)).

End Refresh.

End Dashboard.

(** ** The usage records as shared objects

    In the class the usage records are objects, and [applyFilters] writes
    fields of objects ([item.breakdown = ...], [item.time_frame_display =
    ...]).  Here the records live in a store and the two arrays of the state
    hold references, so that a write through one array is seen through every
    other reference to the same object. *)

Module Store.

Import Dashboard.

Definition loc := nat.

(** The objects allocated so far; a reference is the index of its object. *)
Definition Heap := list CopilotUsageOutput.

Definition read (h : Heap) (l : loc) : option CopilotUsageOutput := nth_error h l.

Fixpoint write (h : Heap) (l : loc) (o : CopilotUsageOutput) : Heap :=
  match h, l with
  | [], _ => []
  | _ :: h', O => o :: h'
  | x :: h', S l' => x :: write h' l' o
  end.

Definition alloc (h : Heap) (o : CopilotUsageOutput) : loc * Heap :=
  (List.length h, (h ++ [o])%list).

Fixpoint alloc_all (os : list CopilotUsageOutput) (h : Heap) : list loc * Heap :=
  match os with
  | [] => ([], h)
  | o :: os' =>
      let (l, h1) := alloc h o in
      let (ls, h2) := alloc_all os' h1 in
      (l :: ls, h2)
  end.

(** The objects behind a list of references (a reference to nothing, which
    the class never holds, is skipped). *)
Fixpoint read_all (h : Heap) (ls : list loc) : list CopilotUsageOutput :=
  match ls with
  | [] => []
  | l :: ls' =>
      match read h l with
      | Some o => o :: read_all h ls'
      | None => read_all h ls'
      end
  end.

(** [item.field = ...] on the object behind [l]. *)
Definition update (f : CopilotUsageOutput -> CopilotUsageOutput) (h : Heap) (l : loc) : Heap :=
  match read h l with
  | Some o => write h l (f o)
  | None => h
  end.

(** [items.forEach((item) => { item.field = ... })] *)
Definition forEach_update (f : CopilotUsageOutput -> CopilotUsageOutput)
    (items : list loc) (h : Heap) : Heap :=
  fold_left (update f) items h.

(** [items.filter((item) => p(item))] *)
Definition filter_refs (p : CopilotUsageOutput -> bool) (h : Heap) (items : list loc) : list loc :=
  filter (fun l => match read h l with Some o => p o | None => false end) items.

(** [JSON.parse(JSON.stringify(items))]: a new object for every element. *)
Definition deep_copy (h : Heap) (items : list loc) : list loc * Heap :=
  alloc_all (read_all h items) h.

Definition RefState := DashboardState loc.

(** The references are new with respect to a store of [n] objects. *)
Definition fresh_from (n : nat) (items : list loc) : Prop :=
  Forall (fun l => (n <= l)%nat) items.

(** The state with the records behind its references. *)
Definition view (h : Heap) (st : RefState) : State :=
  mkState (read_all h (filteredData st)) (languages st) (editors st) (teams st)
    (timeFrame st) (hideWeekends st) (isLoading st) (seatsData st) (teamsData st)
    (read_all h (apiData st)) (hasPendingTeamChanges st) (currentFilter st).

Section Aliasing.
Variable formatDate : string -> string.
(** [groupByTimeFrame] lives outside the sources.  It gets the groups of
    copies and answers the bucket rows; the rows are taken to be objects of
    their own. *)
Variable groupByTimeFrame :
  list (string * list CopilotUsageOutput) -> list CopilotUsageOutput.
Variable Date_getDay : string -> option Z.

Definition label_of (h : Heap) (tf : TimeFrame) (l : loc) : string :=
  match read h l with
  | Some o => timeFrameLabel tf o
  | None => ""
  end.

Definition aggregatedDataByTimeFrame (hideWeekends_ : bool) (st : RefState) (h : Heap) :
    list loc * Heap :=
  let (items, h) := deep_copy h (apiData st) in
  let items := if hideWeekends_ then filter_refs (is_weekday Date_getDay) h items else items in
  match timeFrame st with
  | daily =>
      (items, forEach_update (fun o => with_display (formatDate (day o)) o) items h)
  | tf =>
      let groupedByTimeFrame :=
        fold_left (fun acc l => group_push acc (label_of h tf l) l) items [] in
      alloc_all
        (groupByTimeFrame
           (map (fun kv => (fst kv, read_all h (snd kv))) groupedByTimeFrame))
        h
  end.

Definition applyFilters (st : RefState) (h : Heap) : RefState * Heap :=
  let (data, h) := aggregatedDataByTimeFrame (hideWeekends st) st h in
  let selectedLanguages := filter isSelected (languages st) in
  let selectedEditors := filter isSelected (editors st) in
  let h :=
    if negb (len selectedLanguages =? 0) then
      forEach_update
        (fun o => with_breakdown (filter (keep_language selectedLanguages) (breakdown o)) o)
        data h
    else h in
  let h :=
    if negb (len selectedEditors =? 0) then
      forEach_update
        (fun o => with_breakdown (filter (keep_editor selectedEditors) (breakdown o)) o)
        data h
    else h in
  (with_filteredData (filter_refs (fun o => 0 <? len (breakdown o)) h data) st, h).

Definition onTimeFrameChange (tf : TimeFrame) (st : RefState) (h : Heap) :=
  applyFilters (with_timeFrame tf st) h.

Definition filterLanguage (language_ : string) (st : RefState) (h : Heap) :=
  match find_item language_ (languages st) with
  | Some _ => applyFilters (with_languages (toggle_first language_ (languages st)) st) h
  | None => (st, h)
  end.

Definition filterEditor (editor_ : string) (st : RefState) (h : Heap) :=
  match find_item editor_ (editors st) with
  | Some _ => applyFilters (with_editors (toggle_first editor_ (editors st)) st) h
  | None => (st, h)
  end.

Definition filterTeam (team : string) (st : RefState) (h : Heap) :=
  match find_item team (teams st) with
  | Some _ =>
      let (st', h') := applyFilters (with_teams (toggle_first team (teams st)) st) h in
      (with_hasPendingTeamChanges true st', h')
  | None => (st, h)
  end.

Definition toggleWeekendFilter (hide : bool) (st : RefState) (h : Heap) :=
  applyFilters (with_hideWeekends hide st) h.

Definition resetAllFilters_sync (st : RefState) (h : Heap) :=
  let st := with_languages (clear_all (languages st)) st in
  let st := with_editors (clear_all (editors st)) st in
  let st := with_teams (clear_all (teams st)) st in
  let st := with_hideWeekends false st in
  let st := with_hasPendingTeamChanges false st in
  applyFilters st h.

(** The local filter operations. *)
Inductive LocalOp :=
| FilterLanguage (language_ : string)
| FilterEditor (editor_ : string)
| FilterTeam (team : string)
| ToggleWeekendFilter (hide : bool)
| OnTimeFrameChange (tf : TimeFrame)
| ResetAllFiltersSync.

Definition run (op : LocalOp) (st : RefState) (h : Heap) : RefState * Heap :=
  match op with
  | FilterLanguage v => filterLanguage v st h
  | FilterEditor v => filterEditor v st h
  | FilterTeam v => filterTeam v st h
  | ToggleWeekendFilter b => toggleWeekendFilter b st h
  | OnTimeFrameChange tf => onTimeFrameChange tf st h
  | ResetAllFiltersSync => resetAllFilters_sync st h
  end.

(** The same operations on the state that holds the records by value. *)
Definition run_value (op : LocalOp) (st : State) : State :=
  match op with
  | FilterLanguage v => Dashboard.filterLanguage formatDate groupByTimeFrame Date_getDay v st
  | FilterEditor v => Dashboard.filterEditor formatDate groupByTimeFrame Date_getDay v st
  | FilterTeam v => Dashboard.filterTeam formatDate groupByTimeFrame Date_getDay v st
  | ToggleWeekendFilter b =>
      Dashboard.toggleWeekendFilter formatDate groupByTimeFrame Date_getDay b st
  | OnTimeFrameChange tf =>
      Dashboard.onTimeFrameChange formatDate groupByTimeFrame Date_getDay tf st
  | ResetAllFiltersSync =>
      Dashboard.resetAllFilters_sync formatDate groupByTimeFrame Date_getDay st
  end.

(** Every reference to raw data points to an object. *)
Definition well_formed (st : RefState) (h : Heap) : Prop :=
  Forall (fun l => (l < List.length h)%nat) (apiData st).

End Aliasing.

End Store.

(** ** The Link header of a paginated answer (copilot-seat-service) *)

Module LinkHeader.

(** The double quote, by its code. *)
Definition dquote : ascii := "034"%char.

(** White space as the regular expression class of JavaScript has it, on
    code units below 256: tab to carriage return, space and the no-break
    space. *)
Definition is_space (c : ascii) : bool :=
  let n := nat_of_ascii c in
  (Nat.leb 9 n && Nat.leb n 13) || Nat.eqb n 32 || Nat.eqb n 160.

Definition is_not (c : ascii) (d : ascii) : bool := negb (Ascii.eqb d c).

(** The longest prefix whose characters satisfy [p], and the rest. *)
Fixpoint span (p : ascii -> bool) (s : string) : string * string :=
  match s with
  | EmptyString => (EmptyString, EmptyString)
  | String c s' =>
      if p c then
        let (taken, rest) := span p s' in (String c taken, rest)
      else (EmptyString, s)
  end.

Fixpoint strip_prefix (prefix s : string) : option string :=
  match prefix with
  | EmptyString => Some s
  | String c prefix' =>
      match s with
      | String d s' => if Ascii.eqb c d then strip_prefix prefix' s' else None
      | EmptyString => None
      end
  end.

(** The text [rel=] followed by a double quote. *)
Definition rel_open : string := "rel=" ++ String dquote EmptyString.

(** The regular expression of [getNextUrlFromLinkHeader] matched at the
    start of [s]: an opening angle bracket, one or more characters other
    than the closing one, the closing one and a semicolon, any white space,
    [rel_open], one or more characters other than a double quote, and a
    double quote.  Each repetition is followed by a character that it
    excludes, so the longest run is the only one that can match; the answer
    is the two groups. *)
Definition match_here (s : string) : option (string * string) :=
  match s with
  | String c s1 =>
      if Ascii.eqb c "<" then
        let (url, s2) := span (is_not ">") s1 in
        match url with
        | EmptyString => None
        | String _ _ =>
            match strip_prefix ">;" s2 with
            | Some s3 =>
                let (_, s4) := span is_space s3 in
                match strip_prefix rel_open s4 with
                | Some s5 =>
                    let (rel, s6) := span (is_not dquote) s5 in
                    match rel, s6 with
                    | String _ _, String q _ =>
                        if Ascii.eqb q dquote then Some (url, rel) else None
                    | _, _ => None
                    end
                | None => None
                end
            | None => None
            end
        end
      else None
  | EmptyString => None
  end.

(** [link.match(re)]: the leftmost match. *)
Fixpoint regex_match (s : string) : option (string * string) :=
  match match_here s with
  | Some groups => Some groups
  | None =>
      match s with
      | EmptyString => None
      | String _ s' => regex_match s'
      end
  end.

(** [linkHeader.split(",")] *)
Fixpoint split_comma (s : string) : list string :=
  match s with
  | EmptyString => [EmptyString]
  | String c s' =>
      if Ascii.eqb c "," then EmptyString :: split_comma s'
      else
        match split_comma s' with
        | piece :: rest => String c piece :: rest
        | [] => [String c EmptyString]
        end
  end.

(** The [for] loop over the links. *)
Fixpoint first_next (links : list string) : option string :=
  match links with
  | [] => None
  | link :: rest =>
      match regex_match link with
      | Some (url, rel) => if String.eqb rel "next" then Some url else first_next rest
      | None => first_next rest
      end
  end.

Definition getNextUrlFromLinkHeader (linkHeader : option string) : option string :=
  match linkHeader with
  | None => None
  | Some h => if truthy h then first_next (split_comma h) else None
  end.

(** A header as servers write it: each link as its target in angle
    brackets, a semicolon, a space and its relation in double quotes; the
    links separated by a comma and a space. *)
Definition format_link (l : string * string) : string :=
  String "<" (fst l ++ ">; " ++ rel_open ++ snd l ++ String dquote EmptyString).

Definition format_header (links : list (string * string)) : string :=
  String.concat ", " (map format_link links).

Fixpoint no_char (c : ascii) (s : string) : bool :=
  match s with
  | EmptyString => true
  | String d s' => negb (Ascii.eqb d c) && no_char c s'
  end.

(** A target that is not empty and has no closing angle bracket and no
    comma, with a relation that is not empty and has no double quote and no
    comma. *)
Definition plain_link (l : string * string) : bool :=
  truthy (fst l) && no_char ">" (fst l) && no_char "," (fst l)
  && truthy (snd l) && no_char dquote (snd l) && no_char "," (snd l).

End LinkHeader.

(** ** The seat service: pages from the API (copilot-seat-service) *)

Module SeatService.

Import Seats.

(** [IFilter] of the seat service. *)
Record IFilter := mkFilter {
  date : option Z;
  enterprise : string;
  organization : string;
  team : list string;
  page : Z
}.

(** What [ensureGitHubEnvConfig] answers when the environment is complete. *)
Record Env := mkEnv {
  token : string;
  version : string;
  env_enterprise : string;
  env_organization : string
}.

(** The parsed body of a seat listing. *)
Record SeatsBody := mkBody {
  body_seats : list SeatAssignment;
  body_total_seats : Z
}.

(** A response: its [ok] flag, its status, its Link header and what
    [response.json()] settles to. *)
Record Response := mkResponse {
  ok : bool;
  status : Z;
  link : option string;
  json : Promise SeatsBody
}.

(** How a pagination loop ended. *)
Inductive Paged (A : Type) : Type :=
| Done (result : A)
| NotOk (response : Response)
| Threw (e : Exn).

Arguments Done {A} result.
Arguments NotOk {A} response.
Arguments Threw {A} e.

Definition failed {T : Type} (f : ErrorStatus * list ServerActionError) :
    ServerActionResponse T :=
  Failed (fst f) (snd f).

(** [getNextUrlFromLinkHeader(linkHeader) || ""] *)
Definition next_url (r : Response) : string :=
  match LinkHeader.getNextUrlFromLinkHeader (link r) with
  | Some url => if truthy url then url else ""
  | None => ""
  end.

(** The record of one page, for an enterprise or for an organization; the
    count of active seats is written after the loop. *)
Definition seat_page (for_enterprise : bool) (name : string) (body : SeatsBody)
    (pageCount : Z) (has_next : bool) : CopilotSeatsData :=
  mkSeatsData
    (if for_enterprise then Some name else None)
    (if for_enterprise then None else Some name)
    (body_seats body) (body_total_seats body) (Some 0)
    (Some pageCount) (Some has_next) None (Some "") (Some "").

Definition set_active (n : Z) (d : CopilotSeatsData) : CopilotSeatsData :=
  mkSeatsData (Models.enterprise d) (Models.organization d) (seats d) (total_seats d)
    (Some n) (Models.page d) (has_next_page d) (last_update d) (Models.date d) (id d).

Section Api.
(** The network, by url, token and API version. *)
Variable fetch : string -> string -> string -> Promise Response.

(** Helpers of the repository that are outside the sources. *)
Variable stringIsNullOrEmpty : string -> bool.
Variable formatResponseError : string -> Response -> ErrorStatus * list ServerActionError.
Variable unknownResponseError : Exn -> ErrorStatus * list ServerActionError.

Variable Date_parse : string -> option Z.
(** The instant thirty days before the clock is read; the clock is taken
    not to move while the seats are counted. *)
Variable thirtyDaysAgo : Z.

(** The [do ... while (!stringIsNullOrEmpty(url))] loop of [getDataFromApi].
    The loop runs as long as the pages link on; [fuel] bounds the number of
    requests of a run, and [None] is a run that needs more. *)
Fixpoint fetchSeatPages (fuel : nat) (for_enterprise : bool) (name token_ version_ : string)
    (url : string) (pageCount : Z) (pages : list CopilotSeatsData) :
    option (Paged (list CopilotSeatsData)) :=
  match fuel with
  | O => None
  | S fuel' =>
      match fetch url token_ version_ with
      | Rejected _ e => Some (Threw e)
      | Fulfilled response =>
          if negb (ok response) then Some (NotOk response)
          else
            match json response with
            | Rejected _ e => Some (Threw e)
            | Fulfilled body =>
                let url' := next_url response in
                let seat :=
                  seat_page for_enterprise name body pageCount
                    (negb (stringIsNullOrEmpty url')) in
                let pages' := (pages ++ [seat])%list in
                if negb (stringIsNullOrEmpty url') then
                  fetchSeatPages fuel' for_enterprise name token_ version_ url'
                    (pageCount + 1) pages'
                else Some (Done pages')
            end
      end
  end.

Definition seats_url (for_enterprise : bool) (name : string) : string :=
  if for_enterprise then
    "https://api.github.com/enterprises/" ++ name ++ "/copilot/billing/seats?per_page=100"
  else
    "https://api.github.com/orgs/" ++ name ++ "/copilot/billing/seats?per_page=100".

(** The count of active seats over all pages. *)
Definition allActiveSeatsCount (pages : list CopilotSeatsData) : Z :=
  len (filter (is_active Date_parse thirtyDaysAgo) (flat_map seats pages)).

Definition getDataFromApi (fuel : nat) (env : ServerActionResponse Env) (filter_ : IFilter) :
    option (ServerActionResponse (list CopilotSeatsData)) :=
  match env with
  | Failed st errs => Some (Failed st errs)
  | OK cfg =>
      let for_enterprise := truthy (enterprise filter_) in
      let name := if for_enterprise then enterprise filter_ else organization filter_ in
      match
        fetchSeatPages fuel for_enterprise name (token cfg) (version cfg)
          (seats_url for_enterprise name) 1 []
      with
      | None => None
      | Some (Threw e) => Some (failed (unknownResponseError e))
      | Some (NotOk response) => Some (failed (formatResponseError name response))
      | Some (Done pages) =>
          Some (OK (map (set_active (allActiveSeatsCount pages)) pages))
      end
  end.

(** The clock of the aggregation is read after the pages are there. *)
Variable thirtyDaysAgo0 thirtyDaysAgo1 : Z.

Definition getCopilotSeatsFromApi (fuel : nat) (env : ServerActionResponse Env)
    (filter_ : IFilter) : option (ServerActionResponse CopilotSeatsData) :=
  match getDataFromApi fuel env filter_ with
  | None => None
  | Some (OK response) =>
      Some (OK (aggregateSeatsData Date_parse thirtyDaysAgo0 thirtyDaysAgo1 response
                  (Some (team filter_))))
  | Some (Failed _ _) => Some (Failed ERROR [mkError "No data found"])
  end.

(** The pages that a run of the loop from [url] meets: every page is
    answered, is ok and parses, every page but the last links on, and the
    last one does not. *)
Fixpoint chain (token_ version_ : string) (url : string)
    (rs : list (Response * SeatsBody)) : Prop :=
  match rs with
  | [] => False
  | (r, body) :: rest =>
      fetch url token_ version_ = Fulfilled r /\
      ok r = true /\
      json r = Fulfilled body /\
      match rest with
      | [] => stringIsNullOrEmpty (next_url r) = true
      | _ :: _ =>
          stringIsNullOrEmpty (next_url r) = false /\
          chain token_ version_ (next_url r) rest
      end
  end.

(** The same with a last response that is not ok, after pages that are. *)
Fixpoint broken_chain (token_ version_ : string) (url : string)
    (rs : list (Response * SeatsBody)) (bad : Response) : Prop :=
  match rs with
  | [] => fetch url token_ version_ = Fulfilled bad /\ ok bad = false
  | (r, body) :: rest =>
      fetch url token_ version_ = Fulfilled r /\
      ok r = true /\
      json r = Fulfilled body /\
      stringIsNullOrEmpty (next_url r) = false /\
      broken_chain token_ version_ (next_url r) rest bad
  end.

End Api.

(** The page records that the loop makes of the pages of a chain, numbered
    from [pageCount]. *)
Fixpoint chain_pages (for_enterprise : bool) (name : string) (pageCount : Z)
    (rs : list (Response * SeatsBody)) : list CopilotSeatsData :=
  match rs with
  | [] => []
  | (r, body) :: rest =>
      seat_page for_enterprise name body pageCount
        (match rest with [] => false | _ :: _ => true end)
      :: chain_pages for_enterprise name (pageCount + 1) rest
  end.

(** The page numbers [from], [from + 1], ... of [n] pages. *)
Fixpoint page_numbers (from : Z) (n : nat) : list Z :=
  match n with
  | O => []
  | S n' => from :: page_numbers (from + 1) n'
  end.

(** [true] for every page but the last of [n]. *)
Fixpoint next_flags (n : nat) : list bool :=
  match n with
  | O => []
  | S O => [false]
  | S n' => true :: next_flags n'
  end.

Section Service.
Variable fetch : string -> string -> string -> Promise Response.
Variable stringIsNullOrEmpty : string -> bool.
Variable formatResponseError : string -> Response -> ErrorStatus * list ServerActionError.
Variable unknownResponseError : Exn -> ErrorStatus * list ServerActionError.
Variable Date_parse : string -> option Z.
Variable thirtyDaysAgo thirtyDaysAgo0 thirtyDaysAgo1 : Z.

(** [process.env.GITHUB_API_SCOPE] and what [cosmosConfiguration()] answers. *)
Variable GITHUB_API_SCOPE : option string.
Variable cosmosConfiguration : bool.
(** The answer of the database path, which catches its own exceptions. *)
Variable getCopilotSeatsFromDatabase : IFilter -> ServerActionResponse CopilotSeatsData.

(** The [switch] on the scope: the filter takes the enterprise, or the
    organization, of the environment when it names none. *)
Definition with_scope_defaults (cfg : Env) (filter_ : IFilter) : IFilter :=
  if match GITHUB_API_SCOPE with
     | Some scope => String.eqb scope "enterprise"
     | None => false
     end
  then
    if stringIsNullOrEmpty (enterprise filter_) then
      mkFilter (date filter_) (env_enterprise cfg) (organization filter_) (team filter_)
        (page filter_)
    else filter_
  else
    if stringIsNullOrEmpty (organization filter_) then
      mkFilter (date filter_) (enterprise filter_) (env_organization cfg) (team filter_)
        (page filter_)
    else filter_.

(** What the backend of the seats answers for a filter: the database when
    it is configured, the API otherwise. *)
Definition seats_backend (fuel : nat) (env : ServerActionResponse Env) (filter_ : IFilter) :
    option (ServerActionResponse CopilotSeatsData) :=
  if cosmosConfiguration then Some (getCopilotSeatsFromDatabase filter_)
  else
    getCopilotSeatsFromApi fetch stringIsNullOrEmpty formatResponseError
      unknownResponseError Date_parse thirtyDaysAgo thirtyDaysAgo0 thirtyDaysAgo1
      fuel env filter_.

Definition getCopilotSeats (fuel : nat) (env : ServerActionResponse Env) (filter_ : IFilter) :
    option (ServerActionResponse CopilotSeatsData) :=
  match env with
  | Failed st errs => Some (Failed st errs)
  | OK cfg => seats_backend fuel env (with_scope_defaults cfg filter_)
  end.

Definition getCopilotSeatsManagement (fuel : nat) (env : ServerActionResponse Env)
    (filter_ : IFilter) : option (ServerActionResponse SeatsValue) :=
  match env with
  | Failed st errs => Some (Failed st errs)
  | OK cfg =>
      match seats_backend fuel env (with_scope_defaults cfg filter_) with
      | None => None
      | Some (OK seatsData) => Some (OK (seats_doc seatsData))
      | Some (Failed _ _) => Some (OK empty_object)
      end
  end.

End Service.

End SeatService.

(** ** The teams of the seats (copilot-seat-service) *)

Module TeamService.

(** Truthiness of an id: a missing id and the id 0 are falsy. *)
Definition id_truthy (i : option Z) : bool :=
  match i with
  | Some n => negb (n =? 0)
  | None => false
  end.

(** [===] on ids and on names; a missing field equals a missing field. *)
Definition id_eq (a b : option Z) : bool :=
  match a, b with
  | Some x, Some y => x =? y
  | None, None => true
  | _, _ => false
  end.

Definition name_eq (a b : option string) : bool :=
  match a, b with
  | Some x, Some y => String.eqb x y
  | None, None => true
  | _, _ => false
  end.

(** [seats.map(seat => seat.assigning_team).filter(team => !!team)] *)
Definition pageTeams (seats : list SeatAssignment) : list GitHubTeam :=
  flat_map (fun seat => match assigning_team seat with Some t => [t] | None => [] end) seats.

(** The test of [findIndex] for [team]:
    [t.id ? t.id === team.id : t.name === team.name]. *)
Definition same_team (team t : GitHubTeam) : bool :=
  if id_truthy (team_id t) then id_eq (team_id t) (team_id team)
  else name_eq (team_name t) (team_name team).

(** [findIndex], counting from [i]; -1 when no element passes. *)
Fixpoint findIndex_from {A : Type} (i : Z) (p : A -> bool) (l : list A) : Z :=
  match l with
  | [] => -1
  | x :: rest => if p x then i else findIndex_from (i + 1) p rest
  end.

Definition findIndex {A : Type} (p : A -> bool) (l : list A) : Z :=
  findIndex_from 0 p l.

(** [filter] with the index of the element, counting from [i]. *)
Fixpoint filter_from {A : Type} (i : Z) (p : A -> Z -> bool) (l : list A) : list A :=
  match l with
  | [] => []
  | x :: rest =>
      if p x i then x :: filter_from (i + 1) p rest else filter_from (i + 1) p rest
  end.

(** [teams.filter((team, index, self) => index === self.findIndex(...))] *)
Definition uniqueTeams (teams : list GitHubTeam) : list GitHubTeam :=
  filter_from 0 (fun team index => index =? findIndex (same_team team) teams) teams.

(** The teams of [rest] that no team of [seen] and no earlier team of [rest]
    passes the test for. *)
Fixpoint unique_after (seen rest : list GitHubTeam) : list GitHubTeam :=
  match rest with
  | [] => []
  | x :: rest' =>
      if existsb (same_team x) seen then unique_after (seen ++ [x]) rest'
      else x :: unique_after (seen ++ [x]) rest'
  end.

End TeamService.

(** ** Sample instances of the helpers that live outside the sources

    They serve the examples and the concrete instances of the theorems. *)

Module Sample.

(** Instants by table: a date string that is not listed does not parse. *)
Fixpoint lookup_date (table : list (string * Z)) (s : string) : option Z :=
  match table with
  | [] => None
  | (k, t) :: table' => if String.eqb k s then Some t else lookup_date table' s
  end.

(** Days are counted from 2024-01-01, a Monday; instants are in days. *)
Definition calendar : list (string * Z) :=
  [("2024-01-01", 0); ("2024-01-02", 1); ("2024-01-06", 5); ("2024-01-07", 6);
   ("2024-01-08", 7); ("2024-02-10", 40); ("2024-02-19", 49)].

Definition Date_parse : string -> option Z := lookup_date calendar.

(** [getDay]: Sunday is [0], Saturday is [6]. *)
Definition Date_getDay (s : string) : option Z :=
  match lookup_date calendar s with
  | Some t => Some ((t + 1) mod 7)
  | None => None
  end.

Definition formatDate (s : string) : string := s.

(** A comparison of strings by character codes stands in for
    [localeCompare]. *)
Definition localeCompare (a b : string) : Z :=
  match String.compare a b with
  | Lt => -1
  | Eq => 0
  | Gt => 1
  end.

(** Modelled from the spec: [groupByTimeFrame] of utils/data-mapper is
    not among the sources.  One row per bucket, in the order of the groups;
    the row is the newest-dated member of the bucket, its breakdown re-used
    as it is and its display label set to the bucket label. *)
Definition newest (items : list CopilotUsageOutput) : option CopilotUsageOutput :=
  fold_left
    (fun best item =>
       match best with
       | None => Some item
       | Some b =>
           match Date_parse (day b), Date_parse (day item) with
           | Some tb, Some ti => if tb <? ti then Some item else Some b
           | _, _ => Some b
           end
       end)
    items None.

Definition groupByTimeFrame (groups : list (string * list CopilotUsageOutput)) :
    list CopilotUsageOutput :=
  flat_map
    (fun kv =>
       match newest (snd kv) with
       | Some o =>
           [mkUsage (day o) (breakdown o) (time_frame_week o) (time_frame_month o) (fst kv)]
       | None => []
       end)
    groups.

(** Two pages that both list the login "a", first under the team "x" and
    then under the team "y", asked for the team "y". *)
Definition page1 : CopilotSeatsData :=
  mkSeatsData None (Some "org")
    [mkSeat "a" (Some (mkTeam (Some 1) (Some "x"))) (Some "2024-02-19")]
    1 (Some 1) (Some 1) (Some true) None (Some "2024-02-19") (Some "p1").

Definition page2 : CopilotSeatsData :=
  mkSeatsData None (Some "org")
    [mkSeat "a" (Some (mkTeam (Some 2) (Some "y"))) (Some "2024-02-19")]
    1 (Some 1) (Some 2) (Some false) None (Some "2024-02-19") (Some "p2").


(** A network for two teams: the body of a good answer names the team, and
    the labeler knows the records of each body. *)
Definition usage (d : string) (b : list Breakdown) : CopilotUsageOutput :=
  mkUsage d b "2024-W01" "2024-01" "".

Definition python_vscode : Breakdown := mkBreakdown "python" "vscode" 10 5 1.
Definition go_vim : Breakdown := mkBreakdown "go" "vim" 4 2 0.

Definition applyTimeFrameLabel (body_ : string) : list CopilotUsageOutput :=
  if String.eqb body_ "alpha" then
    [usage "2024-01-02" [python_vscode]; usage "2024-01-08" [go_vim]]
  else if String.eqb body_ "beta" then
    [usage "2024-01-01" [go_vim]]
  else [].

Definition json (r : Metrics.HttpResponse) : Promise string :=
  Fulfilled (Metrics.body r).

Definition fetch_ok (i : nat) (url token_ version_ : string) : Promise Metrics.HttpResponse :=
  Fulfilled (Metrics.mkResponse true 200 (nth i ["alpha"; "beta"] "")).

(** The same network with a second request that is answered 500. *)
Definition fetch_second_fails (i : nat) (url token_ version_ : string) :
    Promise Metrics.HttpResponse :=
  match i with
  | 1%nat => Fulfilled (Metrics.mkResponse false 500 "")
  | _ => fetch_ok i url token_ version_
  end.

Definition formatResponseError (entityName : string) (r : Metrics.HttpResponse) :
    ErrorStatus * list ServerActionError :=
  (ERROR, [mkError ("Failed to fetch data for " ++ entityName)]).

Definition unknownResponseError (e : Exn) : ErrorStatus * list ServerActionError :=
  (ERROR, [mkError e]).

Definition format (d : Z) : string := "2024-01-01".

Definition two_teams : Metrics.IFilter :=
  Metrics.mkFilter None None "" "org" ["alpha"; "beta"].

Definition config : Metrics.GitHubConfig := Metrics.mkConfig "token" "2022-11-28".


(** Two days of usage, the second without any breakdown entry. *)
Definition quiet_data : list CopilotUsageOutput :=
  [usage "2024-01-01" [python_vscode]; usage "2024-01-02" []].

Definition jan_data : list CopilotUsageOutput :=
  [usage "2024-01-01" [python_vscode; go_vim]; usage "2024-01-02" [go_vim]].

Definition feb_data : list CopilotUsageOutput :=
  [usage "2024-02-10" [go_vim]].

Definition teams_xy : list GitHubTeam :=
  [mkTeam (Some 2) (Some "y"); mkTeam (Some 1) (Some "x")].

Definition load (d : list CopilotUsageOutput) (st : Dashboard.State) : Dashboard.State :=
  Dashboard.initData formatDate groupByTimeFrame Date_getDay localeCompare
    d empty_object teams_xy None st.

Definition to_daily : Dashboard.State -> Dashboard.State :=
  Dashboard.onTimeFrameChange formatDate groupByTimeFrame Date_getDay Dashboard.daily.

(** The page loaded with [quiet_data], shown by day. *)
Definition quiet : Dashboard.State := to_daily (load quiet_data (Dashboard.initial _)).

(** The page loaded with [jan_data], shown by day. *)
Definition loaded : Dashboard.State := to_daily (load jan_data (Dashboard.initial _)).

(** The same page after "python" was selected and the provider initialised
    the store once more with the same data. *)
Definition reloaded : Dashboard.State :=
  load jan_data
    (Dashboard.filterLanguage formatDate groupByTimeFrame Date_getDay "python" loaded).

(** The page with the team "x" selected. *)
Definition team_x_selected : Dashboard.State :=
  Dashboard.filterTeam formatDate groupByTimeFrame Date_getDay "x" loaded.

(** A week with its Saturday and Sunday, and the Monday after it. *)
Definition week_data : list CopilotUsageOutput :=
  [mkUsage "2024-01-02" [python_vscode] "2024-W01" "2024-01" "";
   mkUsage "2024-01-06" [go_vim] "2024-W01" "2024-01" "";
   mkUsage "2024-01-07" [go_vim] "2024-W01" "2024-01" "";
   mkUsage "2024-01-08" [python_vscode; go_vim] "2024-W02" "2024-01" ""].

(** Services behind the server actions: both up, and both down. *)
Definition getCopilotMetrics_up (f : Metrics.IFilter) :
    Promise (ServerActionResponse (list CopilotUsageOutput)) :=
  Fulfilled (OK feb_data).

Definition getCopilotMetrics_down (f : Metrics.IFilter) :
    Promise (ServerActionResponse (list CopilotUsageOutput)) :=
  Fulfilled (Failed ERROR [mkError "Bad credentials"]).

Definition getCopilotSeatsManagement_up (d : option Z) (e o : string) (t : list string) :
    Promise (ServerActionResponse SeatsValue) :=
  Fulfilled (OK (seats_doc page1)).

Definition getCopilotSeatsManagement_down (d : option Z) (e o : string) (t : list string) :
    Promise (ServerActionResponse SeatsValue) :=
  Rejected 3 "socket hang up".


(** The two calls as the client sees them, for the services above. *)
Definition refreshMetricsData_up := Dashboard.metrics_action getCopilotMetrics_up.
Definition refreshMetricsData_down := Dashboard.metrics_action getCopilotMetrics_down.
Definition refreshSeatsData_up := Dashboard.seats_action getCopilotSeatsManagement_up.
Definition refreshSeatsData_down := Dashboard.seats_action getCopilotSeatsManagement_down.

(** The refresh and the closing of the team dropdown, with both services up
    and with both down. *)
Definition refresh_up :=
  Dashboard.refreshDataWithTeams formatDate groupByTimeFrame Date_getDay localeCompare
    refreshMetricsData_up refreshSeatsData_up.


Definition close_dropdown_up :=
  Dashboard.refreshTeamDataIfNeeded formatDate groupByTimeFrame Date_getDay localeCompare
    refreshMetricsData_up refreshSeatsData_up.


(** The store after [initData]: the two arrays of the state share the
    objects of [jan_data]. *)
Definition shared : Store.RefState :=
  Dashboard.mkState [0; 1]%nat
    [Dashboard.mkItem "go" false; Dashboard.mkItem "python" false]
    [Dashboard.mkItem "vim" false; Dashboard.mkItem "vscode" false]
    [] Dashboard.daily false false empty_object [] [0; 1]%nat false
    (Dashboard.mkCurrentFilter None None None None).

Definition select_go : Store.RefState * Store.Heap :=
  Store.run formatDate groupByTimeFrame Date_getDay (Store.FilterLanguage "go")
    shared jan_data.

End Sample.

(** ** Further sample instances *)

Module Fixtures.

(** A refresh in which the metrics service is down and the seat service is
    up, and the other way round. *)
Definition refresh_metrics_down :=
  Dashboard.refreshDataWithTeams Sample.formatDate Sample.groupByTimeFrame
    Sample.Date_getDay Sample.localeCompare
    Sample.refreshMetricsData_down Sample.refreshSeatsData_up.

Definition refresh_seats_down :=
  Dashboard.refreshDataWithTeams Sample.formatDate Sample.groupByTimeFrame
    Sample.Date_getDay Sample.localeCompare
    Sample.refreshMetricsData_up Sample.refreshSeatsData_down.

(** The page of [Sample.loaded] with "go" selected. *)
Definition go_selected : Dashboard.State :=
  Dashboard.filterLanguage Sample.formatDate Sample.groupByTimeFrame Sample.Date_getDay
    "go" Sample.loaded.

(** The week of [Sample.week_data] by day, with the weekend hidden. *)
Definition weekdays_only : Dashboard.State :=
  Dashboard.toggleWeekendFilter Sample.formatDate Sample.groupByTimeFrame
    Sample.Date_getDay true
    (Sample.to_daily (Sample.load Sample.week_data (Dashboard.initial _))).

(** A network on which every team answers the records of "alpha", so that
    two teams report the same days. *)
Definition fetch_same_days (i : nat) (url token_ version_ : string) :
    Promise Metrics.HttpResponse :=
  Fulfilled (Metrics.mkResponse true 200 "alpha").

(** A seat listing of two pages for the organization "org": the first
    page links to the second. *)
Definition seat_a : Models.SeatAssignment :=
  mkSeat "a" (Some (mkTeam (Some 1) (Some "x"))) (Some "2024-02-19").
Definition seat_b : Models.SeatAssignment :=
  mkSeat "b" (Some (mkTeam (Some 2) (Some "y"))) (Some "2024-01-08").

Definition seats_page2_url : string :=
  "https://api.github.com/orgs/org/copilot/billing/seats?per_page=100&page=2".

Definition seats_response1 : SeatService.Response :=
  SeatService.mkResponse true 200
    (Some (LinkHeader.format_header [(seats_page2_url, "next"); (seats_page2_url, "last")]))
    (Fulfilled (SeatService.mkBody [seat_a; seat_b] 3)).

Definition seats_response2 : SeatService.Response :=
  SeatService.mkResponse true 200
    (Some (LinkHeader.format_header
             [("https://api.github.com/orgs/org/copilot/billing/seats?per_page=100&page=1",
               "prev")]))
    (Fulfilled (SeatService.mkBody [seat_a] 3)).

Definition seats_unauthorized : SeatService.Response :=
  SeatService.mkResponse false 401 None (Rejected 0 "no body").

Definition fetch_seats (url token_ version_ : string) : Promise SeatService.Response :=
  if String.eqb url (SeatService.seats_url false "org") then Fulfilled seats_response1
  else if String.eqb url seats_page2_url then Fulfilled seats_response2
  else Rejected 0 "unknown host".

(** The same listing with a second page that is answered 401. *)
Definition fetch_seats_broken (url token_ version_ : string) : Promise SeatService.Response :=
  if String.eqb url (SeatService.seats_url false "org") then Fulfilled seats_response1
  else Fulfilled seats_unauthorized.

Definition stringIsNullOrEmpty (s : string) : bool := String.eqb s "".

Definition seat_error (name : string) (r : SeatService.Response) :
    ErrorStatus * list ServerActionError :=
  (ERROR, [mkError ("Failed to fetch data for " ++ name)]).

Definition seat_env : SeatService.Env :=
  SeatService.mkEnv "token" "2022-11-28" "" "org".

Definition seat_filter : SeatService.IFilter :=
  SeatService.mkFilter None "" "org" [] 0.

(** Teams as the seat listing names them. *)
Definition team_x : Models.GitHubTeam := mkTeam (Some 1) (Some "x").
Definition team_y : Models.GitHubTeam := mkTeam (Some 2) (Some "y").
Definition team_x_renamed : Models.GitHubTeam := mkTeam (Some 1) (Some "x2").
Definition team_without_id : Models.GitHubTeam := mkTeam None (Some "x").

Definition no_database (f : SeatService.IFilter) :
    ServerActionResponse Models.CopilotSeatsData :=
  Failed ERROR [mkError "no database"].

Definition seat_filter_blank : SeatService.IFilter :=
  SeatService.mkFilter None "" "" [] 0.





(** A metrics service that answers "OK" with no record at all. *)
Definition getCopilotMetrics_empty (f : Metrics.IFilter) :
    Promise (ServerActionResponse (list CopilotUsageOutput)) :=
  Fulfilled (OK []).

Definition refresh_metrics_empty :=
  Dashboard.refreshDataWithTeams Sample.formatDate Sample.groupByTimeFrame
    Sample.Date_getDay Sample.localeCompare
    (Dashboard.metrics_action getCopilotMetrics_empty) Sample.refreshSeatsData_up.

(** A seats call that the transport rejects, beside metrics that succeed. *)
Definition refreshSeatsData_rejected (d : option Z) (e o : option string)
    (t : list string) : Promise (Actions.RefreshResult SeatsValue) :=
  Rejected 0 "fetch failed".

Definition refresh_seats_rejected :=
  Dashboard.refreshDataWithTeams Sample.formatDate Sample.groupByTimeFrame
    Sample.Date_getDay Sample.localeCompare
    Sample.refreshMetricsData_up refreshSeatsData_rejected.

End Fixtures.

(** * Properties *)

(** ** Lists *)

Lemma len_filter_le {A : Type} (p : A -> bool) (l : list A) :
  len (filter p l) <= len l.
Proof.
  unfold len. apply inj_le. induction l as [|x l IH]; simpl.
  - apply le_n.
  - destruct (p x); simpl; lia.
Qed.

Lemma len_nonneg {A : Type} (l : list A) : 0 <= len l.
Proof. unfold len. lia. Qed.

Lemma eqb_sym_str (a b : string) : String.eqb a b = String.eqb b a.
Proof.
  destruct (String.eqb_spec a b) as [->|Hab].
  - symmetry. apply String.eqb_refl.
  - symmetry. apply String.eqb_neq. congruence.
Qed.

(** ** Seat aggregation *)

Module SeatsProofs.

Import Seats.

Lemma map_has_keys (m : JsMap SeatAssignment) (k : string) :
  map_has m k = includes (map fst m) k.
Proof.
  unfold map_has, includes. induction m as [|[k' v] m IH]; simpl.
  - reflexivity.
  - rewrite IH. f_equal. apply eqb_sym_str.
Qed.

Lemma map_set_absent (m : JsMap SeatAssignment) (k : string) (v : SeatAssignment) :
  map_has m k = false -> map_set m k v = (m ++ [(k, v)])%list.
Proof.
  unfold map_has. induction m as [|[k' v'] m IH]; simpl; intros H.
  - reflexivity.
  - apply orb_false_iff in H as [Hk Hm]. rewrite Hk. f_equal. auto.
Qed.

Lemma fold_unique_step (l : list SeatAssignment) (m : JsMap SeatAssignment) :
  map_values (fold_left unique_step l m)
  = (map_values m ++ first_occurrences (map fst m) l)%list.
Proof.
  revert m. induction l as [|s l IH]; intros m; simpl.
  - now rewrite app_nil_r.
  - unfold unique_step at 2. rewrite <- map_has_keys.
    destruct (map_has m (assignee_login s)) eqn:Hhas.
    + apply IH.
    + rewrite map_set_absent by exact Hhas. rewrite IH.
      unfold map_values. rewrite !map_app. simpl. now rewrite <- app_assoc.
Qed.

(** [uniqueSeats] keeps the first seat of every login, in input order. *)
Lemma uniqueSeats_first_occurrences (l : list SeatAssignment) :
  uniqueSeats l = first_occurrences [] l.
Proof. unfold uniqueSeats. now rewrite fold_unique_step. Qed.

Section Facts.
Variable Date_parse : string -> option Z.
Variable thirtyDaysAgo0 thirtyDaysAgo : Z.

Lemma seats_compat_first (d0 : CopilotSeatsData) :
  seats (compat_first Date_parse thirtyDaysAgo0 d0) = seats d0.
Proof. unfold compat_first. now destruct (total_active_seats d0). Qed.

(** C1: whatever the pages and the team filter, the aggregated summary has
    a number of active seats, and it is at most the number of seats; this
    covers the answer for no page, for one page and for several. *)
Theorem aggregate_active_le_total (data : list CopilotSeatsData)
    (teamFilter : option (list string)) :
  exists active,
    total_active_seats
      (aggregateSeatsData Date_parse thirtyDaysAgo0 thirtyDaysAgo data teamFilter)
    = Some active /\
    0 <= active <=
    total_seats
      (aggregateSeatsData Date_parse thirtyDaysAgo0 thirtyDaysAgo data teamFilter).
Proof.
  destruct data as [|d0 [|d1 rest]]; simpl.
  - exists 0. split; [reflexivity | lia].
  - eexists. split; [reflexivity|]. split.
    + apply len_nonneg.
    + apply len_filter_le.
  - eexists. split; [reflexivity|]. split.
    + apply len_nonneg.
    + apply len_filter_le.
Qed.

(** C2, as amended: for two or more pages and a team filter that is not
    empty, the seats are flattened, then filtered by team, then
    deduplicated by login with the first surviving seat of a login winning,
    and the two totals are recomputed from the seats that remain. *)
Theorem aggregate_filter_then_dedup (data : list CopilotSeatsData)
    (tf : list string) :
  (2 <= List.length data)%nat ->
  tf <> [] ->
  let r := aggregateSeatsData Date_parse thirtyDaysAgo0 thirtyDaysAgo data (Some tf) in
  seats r = first_occurrences [] (filter (in_team_filter tf) (flat_map seats data)) /\
  total_seats r = len (seats r) /\
  total_active_seats r = Some (len (filter (is_active Date_parse thirtyDaysAgo) (seats r))).
Proof.
  intros Hlen Htf.
  destruct data as [|d0 [|d1 rest]]; simpl in Hlen; try lia.
  destruct tf as [|t tf]; [congruence|].
  cbn [aggregateSeatsData apply_team_filter seats total_seats total_active_seats].
  rewrite uniqueSeats_first_occurrences.
  cbn [flat_map]. rewrite seats_compat_first.
  repeat split.
Qed.

End Facts.

(** C2 fails as stated: deduplicating before filtering drops the login "a"
    altogether, while the code, which filters first, keeps its seat of the
    team "y". *)
Lemma dedup_before_filter_differs :
  (2 <= List.length [Sample.page1; Sample.page2])%nat /\
  ["y"] <> [] /\
  (let r := aggregateSeatsData Sample.Date_parse 19 19 [Sample.page1; Sample.page2] (Some ["y"]) in
   (seats r, total_seats r, active_count r))
  <> aggregate_dedup_then_filter Sample.Date_parse 19 [Sample.page1; Sample.page2] (Some ["y"]).
Proof.
  split; [simpl; lia|]. split; [discriminate|].
  vm_compute. discriminate.
Qed.

Lemma aggregate_filter_then_dedup_witness :
  let r := aggregateSeatsData Sample.Date_parse 19 19 [Sample.page1; Sample.page2] (Some ["y"]) in
  seats r
  = first_occurrences [] (filter (in_team_filter ["y"]) (flat_map seats [Sample.page1; Sample.page2])) /\
  total_seats r = len (seats r) /\
  total_active_seats r = Some (len (filter (is_active Sample.Date_parse 19) (seats r))).
Proof.
  apply (aggregate_filter_then_dedup Sample.Date_parse 19 19 [Sample.page1; Sample.page2] (tf := ["y"])).
  - simpl. lia.
  - discriminate.
Defined.

(** The scenario of the specification: "a" active now and "b" last active 40
    days ago on the first page, "a" again on the second. *)
Example aggregate_scenario :
  let a := mkSeat "a" None (Some "2024-02-19") in
  let b := mkSeat "b" None (Some "2024-01-08") in
  let p1 := mkSeatsData None (Some "org") [a; b] 2 None (Some 1) (Some true) None None None in
  let p2 := mkSeatsData None (Some "org") [a] 1 None (Some 2) (Some false) None None None in
  let r := aggregateSeatsData Sample.Date_parse 19 19 [p1; p2] None in
  seats r = [a; b] /\ total_seats r = 2 /\ total_active_seats r = Some 1.
Proof. vm_compute. repeat split. Qed.

End SeatsProofs.

(** ** The stable sort *)

Section SortFacts.
Variable A : Type.
Variable gt : A -> A -> bool.
Variable key : A -> Z.
(** The elements on which the comparator orders by key. *)
Variable good : A -> Prop.
Hypothesis gt_key : forall a b, good a -> good b -> gt a b = (key b <? key a).

Let le := key_le key.

Lemma sort_insert_perm (x : A) (l : list A) :
  Permutation (x :: l) (sort_insert gt x l).
Proof.
  induction l as [|y l IH]; simpl.
  - apply Permutation_refl.
  - destruct (gt x y).
    + eapply perm_trans; [apply perm_swap|]. now apply perm_skip.
    + apply Permutation_refl.
Qed.

Lemma js_sort_perm (l : list A) : Permutation l (js_sort gt l).
Proof.
  induction l as [|x l IH]; simpl.
  - apply perm_nil.
  - eapply perm_trans; [apply perm_skip, IH|]. apply sort_insert_perm.
Qed.

Lemma sort_insert_sorted (x : A) (l : list A) :
  good x -> Forall good l ->
  StronglySorted le l -> StronglySorted le (sort_insert gt x l).
Proof.
  intros Hx Hl Hs. unfold le, key_le in *. induction Hs as [|y l Hs IH Hy]; simpl.
  - constructor; constructor.
  - inversion Hl as [|? ? Hgy Hgl]; subst.
    rewrite (gt_key Hx Hgy).
    destruct (key y <? key x) eqn:Hcmp.
    + apply Z.ltb_lt in Hcmp. constructor.
      * now apply IH.
      * eapply Permutation_Forall; [apply sort_insert_perm|].
        constructor; [lia | exact Hy].
    + apply Z.ltb_ge in Hcmp. constructor.
      * now constructor.
      * constructor; [exact Hcmp|].
        eapply Forall_impl; [|exact Hy]. simpl. intros; lia.
Qed.

Lemma js_sort_sorted (l : list A) :
  Forall good l -> StronglySorted le (js_sort gt l).
Proof.
  induction l as [|x l IH]; simpl; intros Hl.
  - constructor.
  - inversion Hl; subst. apply sort_insert_sorted; auto.
    eapply Permutation_Forall; [apply js_sort_perm | assumption].
Qed.
End SortFacts.

(** ** [Promise.all] *)

Lemma first_rejection_none {A : Type} (ps : list (Promise A)) :
  first_rejection ps = None -> ps = map Fulfilled (fulfilled_values ps).
Proof.
  induction ps as [|[a|t e] ps IH]; simpl; intros H.
  - reflexivity.
  - f_equal. auto.
  - destruct (first_rejection ps) as [[t' e']|]; [destruct (Nat.leb t t')|]; discriminate.
Qed.

Lemma first_rejection_some {A : Type} (ps : list (Promise A)) (t : nat) (e : Exn) :
  first_rejection ps = Some (t, e) ->
  In (Rejected t e) ps /\
  forall t' e', In (Rejected t' e') ps -> (t <= t')%nat.
Proof.
  revert t e. induction ps as [|[a|t0 e0] ps IH]; simpl; intros t e H.
  - discriminate.
  - destruct (IH _ _ H) as [Hin Hmin]. split; [now right|].
    intros t' e' [Hd|Hin']; [discriminate | eauto].
  - destruct (first_rejection ps) as [[t1 e1]|] eqn:Hps.
    + destruct (IH _ _ eq_refl) as [Hin Hmin].
      destruct (Nat.leb t0 t1) eqn:Hle; inversion H; subst.
      * apply Nat.leb_le in Hle. split; [now left|].
        intros t' e' [Heq|Hin']; [inversion Heq; lia|].
        specialize (Hmin _ _ Hin'). lia.
      * apply Nat.leb_gt in Hle. split; [now right|].
        intros t' e' [Heq|Hin']; [inversion Heq; lia | eauto].
    + inversion H; subst. split; [now left|].
      intros t' e' [Heq|Hin']; [inversion Heq; lia|].
      apply first_rejection_none in Hps. rewrite Hps in Hin'.
      apply in_map_iff in Hin' as [? [? ?]]. discriminate.
Qed.

Lemma filter_first {A : Type} (p : A -> bool) (l : list A) (x : A) (r : list A) :
  filter p l = x :: r ->
  exists before after,
    l = (before ++ x :: after)%list /\ forallb (fun y => negb (p y)) before = true /\
    p x = true.
Proof.
  induction l as [|y l IH]; simpl; intros H.
  - discriminate.
  - destruct (p y) eqn:Hy.
    + inversion H; subst. exists [], l. auto.
    + destruct (IH H) as (before & after & -> & Hb & Hx).
      exists (y :: before), after. simpl. rewrite Hy. auto.
Qed.

Lemma filter_nil_forall {A : Type} (p : A -> bool) (l : list A) :
  filter p l = [] -> forallb (fun y => negb (p y)) l = true.
Proof.
  induction l as [|y l IH]; simpl; intros H; [reflexivity|].
  destruct (p y); [discriminate | simpl; auto].
Qed.

(** ** Metrics fetcher *)

Module MetricsProofs.

Import Metrics.

Lemma all_ok_responses {T : Type} (results : list (ServerActionResponse (list T))) :
  forallb (fun r => negb (negb (is_OK r))) results = true ->
  exists records, results = map OK records /\ combine_ok results = List.concat records.
Proof.
  induction results as [|[x|st errs] results IH]; simpl; intros H.
  - exists []. auto.
  - destruct (IH H) as (records & -> & Hc).
    exists (x :: records). simpl. unfold combine_ok in *. simpl. now rewrite Hc.
  - discriminate.
Qed.

Section Facts.
Variable RawMetrics : Type.
Variable fetch : nat -> string -> string -> string -> Promise HttpResponse.
Variable json : HttpResponse -> Promise RawMetrics.
Variable applyTimeFrameLabel : RawMetrics -> list CopilotUsageOutput.
Variable formatResponseError : string -> HttpResponse -> ErrorStatus * list ServerActionError.
Variable unknownResponseError : Exn -> ErrorStatus * list ServerActionError.
Variable format : Z -> string.
Variable Date_getTime : string -> option Z.

Let promises (cfg : GitHubConfig) (filter : IFilter) :=
  teamMetricsPromises fetch json applyTimeFrameLabel formatResponseError format cfg filter.
Let call (cfg : GitHubConfig) (filter : IFilter) :=
  getCopilotTeamsMetricsFromApi fetch json applyTimeFrameLabel formatResponseError
    unknownResponseError format Date_getTime (OK cfg) filter.

Lemma later_day_key (a b : CopilotUsageOutput) :
  valid_day Date_getTime a -> valid_day Date_getTime b ->
  later_day Date_getTime a b = (day_time Date_getTime b <? day_time Date_getTime a).
Proof.
  unfold valid_day, later_day, day_time. intros Ha Hb.
  destruct (Date_getTime (day a)) as [ta|]; [|congruence].
  destruct (Date_getTime (day b)) as [tb|]; [|congruence].
  destruct (Z.ltb_spec 0 (ta - tb)), (Z.ltb_spec tb ta); auto; lia.
Qed.

Lemma request_fails_fulfilled (ps : list (Promise (ServerActionResponse (list CopilotUsageOutput)))) :
  first_rejection ps = None ->
  existsb request_fails ps = existsb (fun r => negb (is_OK r)) (fulfilled_values ps).
Proof.
  induction ps as [|[a|t e] ps IH]; simpl; intros H.
  - reflexivity.
  - now rewrite IH.
  - destruct (first_rejection ps) as [[t' e']|]; [destruct (Nat.leb t t')|]; discriminate.
Qed.

(** C3: with at least one team, the call is all or nothing.  When a request
    fails (it throws, or it is answered with a failing status), the call
    answers a failure and merges nothing: the wrapped exception of the
    earliest throw when a request threw, otherwise the failing answer of
    the first team of the list that has one.  When every request succeeds,
    the answer is the concatenation of the records of all teams put through
    the stable sort by day, which is a permutation of it and, the days
    being valid dates, ascending. *)
Theorem teams_metrics_all_or_nothing (cfg : GitHubConfig) (filter : IFilter) :
  team filter <> [] ->
  if existsb request_fails (promises cfg filter) then
    is_OK (call cfg filter) = false /\
    match first_rejection (promises cfg filter) with
    | Some (_, e) => call cfg filter = failed (unknownResponseError e)
    | None =>
        exists before first_failed after,
          fulfilled_values (promises cfg filter)
          = (before ++ first_failed :: after)%list /\
          forallb is_OK before = true /\
          is_OK first_failed = false /\
          call cfg filter = first_failed
    end
  else
    exists records,
      promises cfg filter = map (fun r => Fulfilled (OK r)) records /\
      call cfg filter = OK (js_sort (later_day Date_getTime) (List.concat records)) /\
      Permutation (List.concat records) (js_sort (later_day Date_getTime) (List.concat records)) /\
      (Forall (valid_day Date_getTime) (List.concat records) ->
       StronglySorted (key_le (day_time Date_getTime))
         (js_sort (later_day Date_getTime) (List.concat records))).
Proof.
  intros Hteam. unfold call, getCopilotTeamsMetricsFromApi.
  destruct (team filter) as [|t0 ts] eqn:Ht; [congruence|].
  fold (promises cfg filter). unfold Promise_all.
  destruct (first_rejection (promises cfg filter)) as [[t e]|] eqn:Hrej.
  - assert (Hex : existsb request_fails (promises cfg filter) = true).
    { apply existsb_exists. exists (Rejected t e).
      split; [apply (first_rejection_some _ Hrej) | reflexivity]. }
    rewrite Hex. split; reflexivity.
  - rewrite (request_fails_fulfilled _ Hrej).
    destruct (List.filter (fun result => negb (is_OK result))
                (fulfilled_values (promises cfg filter)))
      as [|first_failed rest] eqn:Hfil.
    + pose proof (filter_nil_forall _ _ Hfil) as Hall.
      assert (Hnone : existsb (fun r => negb (is_OK r))
                        (fulfilled_values (promises cfg filter)) = false).
      { apply not_true_is_false. intros Hex.
        apply existsb_exists in Hex as (r & Hin & Hr).
        rewrite forallb_forall in Hall. specialize (Hall _ Hin).
        rewrite Hr in Hall. discriminate. }
      rewrite Hnone.
      destruct (all_ok_responses _ Hall) as (records & Hrec & Hcomb).
      exists records. rewrite Hcomb. repeat split.
      * rewrite (first_rejection_none _ Hrej), Hrec, map_map. reflexivity.
      * apply js_sort_perm.
      * intros Hvalid.
        apply js_sort_sorted with (good := valid_day Date_getTime).
        -- intros a b. apply later_day_key.
        -- exact Hvalid.
    + destruct (filter_first _ _ Hfil) as (before & after & Hsplit & Hb & Hx).
      assert (Hex : existsb (fun r => negb (is_OK r))
                      (fulfilled_values (promises cfg filter)) = true).
      { apply existsb_exists. exists first_failed. split; [|exact Hx].
        rewrite Hsplit. apply in_elt. }
      rewrite Hex. apply negb_true_iff in Hx. split; [exact Hx|].
      exists before, first_failed, after. repeat split; auto.
      rewrite <- Hb. clear. induction before as [|r before IH]; simpl; [reflexivity|].
      now rewrite negb_involutive, IH.
Qed.

End Facts.

(** The scenario of the specification: of two teams the second is answered
    with an error; the call answers that error. *)
Example second_team_fails :
  getCopilotTeamsMetricsFromApi Sample.fetch_second_fails Sample.json
    Sample.applyTimeFrameLabel Sample.formatResponseError Sample.unknownResponseError
    Sample.format Sample.Date_parse (OK Sample.config) Sample.two_teams
  = Failed ERROR [mkError "Failed to fetch data for org/team/beta"].
Proof. reflexivity. Qed.

Example both_teams_succeed :
  getCopilotTeamsMetricsFromApi Sample.fetch_ok Sample.json
    Sample.applyTimeFrameLabel Sample.formatResponseError Sample.unknownResponseError
    Sample.format Sample.Date_parse (OK Sample.config) Sample.two_teams
  = OK [Sample.usage "2024-01-01" [Sample.go_vim];
        Sample.usage "2024-01-02" [Sample.python_vscode];
        Sample.usage "2024-01-08" [Sample.go_vim]].
Proof. reflexivity. Qed.

Lemma teams_metrics_all_or_nothing_witness :
  team Sample.two_teams <> [] /\
  is_OK
    (getCopilotTeamsMetricsFromApi Sample.fetch_second_fails Sample.json
       Sample.applyTimeFrameLabel Sample.formatResponseError Sample.unknownResponseError
       Sample.format Sample.Date_parse (OK Sample.config) Sample.two_teams) = false /\
  StronglySorted (key_le (day_time Sample.Date_parse))
    [Sample.usage "2024-01-01" [Sample.go_vim];
     Sample.usage "2024-01-02" [Sample.python_vscode];
     Sample.usage "2024-01-08" [Sample.go_vim]].
Proof.
  assert (Hteam : team Sample.two_teams <> []) by discriminate.
  split; [exact Hteam|]. split.
  - exact (proj1 (teams_metrics_all_or_nothing Sample.fetch_second_fails Sample.json
                    Sample.applyTimeFrameLabel Sample.formatResponseError
                    Sample.unknownResponseError Sample.format Sample.Date_parse
                    Sample.config Sample.two_teams Hteam)).
  - pose proof (teams_metrics_all_or_nothing Sample.fetch_ok Sample.json
                  Sample.applyTimeFrameLabel Sample.formatResponseError
                  Sample.unknownResponseError Sample.format Sample.Date_parse
                  Sample.config Sample.two_teams Hteam) as H.
    simpl in H. destruct H as (records & Hp & _ & _ & Hsorted).
    destruct records as [|r1 [|r2 [|r3 records]]]; try discriminate.
    inversion Hp; subst r1 r2.
    apply Hsorted. simpl.
    repeat constructor; discriminate.
Defined.

End MetricsProofs.

(** ** Dashboard filter state *)

Module DashboardProofs.

Import Actions Dashboard.

Lemma item_eta (x : DropdownFilterItem) : mkItem (value x) (isSelected x) = x.
Proof. now destruct x. Qed.

Lemma toggle_first_twice (v : string) (items : list DropdownFilterItem) :
  toggle_first v (toggle_first v items) = items.
Proof.
  induction items as [|x items IH]; simpl.
  - reflexivity.
  - destruct (String.eqb (value x) v) eqn:Hx; simpl; rewrite Hx.
    + rewrite negb_involutive. now rewrite item_eta.
    + now rewrite IH.
Qed.

Lemma find_item_toggle_first (v : string) (items : list DropdownFilterItem) :
  find_item v items <> None -> find_item v (toggle_first v items) <> None.
Proof.
  unfold find_item. induction items as [|x items IH]; simpl.
  - auto.
  - destruct (String.eqb (value x) v) eqn:Hx; simpl; rewrite Hx.
    + discriminate.
    + exact IH.
Qed.

Lemma selected_clear_all (items : list DropdownFilterItem) :
  filter isSelected (clear_all items) = [].
Proof. induction items as [|x items IH]; simpl; auto. Qed.

Lemma clear_all_unselected (items : list DropdownFilterItem) :
  Forall (fun item => isSelected item = false) (clear_all items).
Proof. induction items as [|x items IH]; simpl; constructor; auto. Qed.

Lemma narrow_no_selection (languages_ editors_ : list DropdownFilterItem)
    (data_ : list CopilotUsageOutput) :
  filter isSelected languages_ = [] ->
  filter isSelected editors_ = [] ->
  narrow languages_ editors_ data_ = filter (fun item => 0 <? len (breakdown item)) data_.
Proof. unfold narrow. intros -> ->. reflexivity. Qed.

Section Sync.
Variable formatDate : string -> string.
Variable groupByTimeFrame :
  list (string * list CopilotUsageOutput) -> list CopilotUsageOutput.
Variable Date_getDay : string -> option Z.
Variable localeCompare : string -> string -> Z.

Let bucketed := aggregatedDataByTimeFrame formatDate groupByTimeFrame Date_getDay.
Let recompute := applyFilters formatDate groupByTimeFrame Date_getDay.

(** [applyFilters] reads the raw data, the time frame, the weekend flag and
    the selections, and writes [filteredData] only. *)
Lemma applyFilters_frame (st : State) :
  languages (recompute st) = languages st /\
  editors (recompute st) = editors st /\
  teams (recompute st) = teams st /\
  timeFrame (recompute st) = timeFrame st /\
  hideWeekends (recompute st) = hideWeekends st /\
  isLoading (recompute st) = isLoading st /\
  seatsData (recompute st) = seatsData st /\
  teamsData (recompute st) = teamsData st /\
  apiData (recompute st) = apiData st /\
  hasPendingTeamChanges (recompute st) = hasPendingTeamChanges st /\
  currentFilter (recompute st) = currentFilter st.
Proof. repeat split. Qed.

(** A recomputation does not read the filtered view it replaces. *)
Lemma applyFilters_forgets_filteredData (v : list CopilotUsageOutput) (st : State) :
  recompute (with_filteredData v st) = recompute st.
Proof. reflexivity. Qed.

(** The state is in step when its filtered view is what a recomputation
    gives; every filter operation and every refresh that takes new metrics
    leaves it so. *)
Lemma in_sync_after_applyFilters (st : State) :
  in_sync formatDate groupByTimeFrame Date_getDay (recompute st).
Proof. reflexivity. Qed.

(** The local filter operations keep the state in step. *)
Lemma in_sync_local_op (op : Store.LocalOp) (st : State) :
  in_sync formatDate groupByTimeFrame Date_getDay st ->
  in_sync formatDate groupByTimeFrame Date_getDay
    (Store.run_value formatDate groupByTimeFrame Date_getDay op st).
Proof.
  intros Hsync. destruct op; cbn [Store.run_value];
    unfold filterLanguage, filterEditor, filterTeam; try reflexivity.
  - destruct (find_item language_ (languages st)); [reflexivity | exact Hsync].
  - destruct (find_item editor_ (editors st)); [reflexivity | exact Hsync].
  - destruct (find_item team (teams st)); [reflexivity | exact Hsync].
Qed.

(** So does a refresh that takes new metrics. *)
Lemma in_sync_applyMetricsResult (d : list CopilotUsageOutput) (st : State) :
  in_sync formatDate groupByTimeFrame Date_getDay
    (applyMetricsResult formatDate groupByTimeFrame Date_getDay localeCompare d st).
Proof. reflexivity. Qed.

Lemma filterLanguage_found (st : State) (v : string) :
  find_item v (languages st) <> None ->
  filterLanguage formatDate groupByTimeFrame Date_getDay v st
  = recompute (with_languages (toggle_first v (languages st)) st).
Proof.
  intros Hin. unfold filterLanguage.
  destruct (find_item v (languages st)); [reflexivity | congruence].
Qed.

Lemma filterEditor_found (st : State) (v : string) :
  find_item v (editors st) <> None ->
  filterEditor formatDate groupByTimeFrame Date_getDay v st
  = recompute (with_editors (toggle_first v (editors st)) st).
Proof.
  intros Hin. unfold filterEditor.
  destruct (find_item v (editors st)); [reflexivity | congruence].
Qed.

(** In any state, toggling twice ends in the state that a recomputation
    gives. *)
Lemma filterLanguage_twice (st : State) (v : string) :
  find_item v (languages st) <> None ->
  filterLanguage formatDate groupByTimeFrame Date_getDay v
    (filterLanguage formatDate groupByTimeFrame Date_getDay v st)
  = recompute st.
Proof.
  intros Hin. rewrite filterLanguage_found with (st := st) by exact Hin.
  rewrite filterLanguage_found
    by (cbn [languages recompute applyFilters with_filteredData with_languages];
        now apply find_item_toggle_first).
  unfold recompute, applyFilters.
  cbn [languages editors hideWeekends with_filteredData with_languages].
  rewrite toggle_first_twice. reflexivity.
Qed.

Lemma filterEditor_twice (st : State) (v : string) :
  find_item v (editors st) <> None ->
  filterEditor formatDate groupByTimeFrame Date_getDay v
    (filterEditor formatDate groupByTimeFrame Date_getDay v st)
  = recompute st.
Proof.
  intros Hin. rewrite filterEditor_found with (st := st) by exact Hin.
  rewrite filterEditor_found
    by (cbn [editors recompute applyFilters with_filteredData with_editors];
        now apply find_item_toggle_first).
  unfold recompute, applyFilters.
  cbn [languages editors hideWeekends with_filteredData with_editors].
  rewrite toggle_first_twice. reflexivity.
Qed.

(** C8, as amended: in a state whose filtered view is in step with its
    selections, toggling a language (or an editor) that is in its collection
    and toggling it again gives back the filtered view and the selection
    flags. *)
Theorem toggle_twice_restores (st : State) (v : string) :
  in_sync formatDate groupByTimeFrame Date_getDay st ->
  (find_item v (languages st) <> None ->
   let st2 :=
     filterLanguage formatDate groupByTimeFrame Date_getDay v
       (filterLanguage formatDate groupByTimeFrame Date_getDay v st) in
   filteredData st2 = filteredData st /\ languages st2 = languages st) /\
  (find_item v (editors st) <> None ->
   let st2 :=
     filterEditor formatDate groupByTimeFrame Date_getDay v
       (filterEditor formatDate groupByTimeFrame Date_getDay v st) in
   filteredData st2 = filteredData st /\ editors st2 = editors st).
Proof.
  intros Hsync. split; intros Hin st2; subst st2.
  - rewrite filterLanguage_twice by exact Hin. split; [|reflexivity].
    symmetry. exact Hsync.
  - rewrite filterEditor_twice by exact Hin. split; [|reflexivity].
    symmetry. exact Hsync.
Qed.

End Sync.

(** *** The server actions *)

(** A server action never throws: it answers a result object, which reports
    success exactly when the service answered "OK". *)
Lemma action_result_success {A : Type} (service : Promise (ServerActionResponse A))
    (fallback : string) :
  success (action_result service fallback) = true <->
  exists response,
    service = Fulfilled (OK response) /\
    data (action_result service fallback) = Some response.
Proof.
  destruct service as [[response|st errs]|t e]; simpl; split.
  - intros _. now exists response.
  - reflexivity.
  - discriminate.
  - intros (r & H & _). discriminate.
  - discriminate.
  - intros (r & H & _). discriminate.
Qed.

(** An error of the seat backend does not reach the client as a failure:
    the seat service answers "OK" with the empty object, and the action
    reports success with it. *)
Lemma seat_backend_error_is_reported_as_success {Config : Type} (cfg : Config)
    (st : ErrorStatus) (errs : list ServerActionError) :
  action_result
    (Fulfilled (Actions.getCopilotSeatsManagement (OK cfg) (Failed st errs)))
    "Failed to fetch seats data"
  = mkResult true (Some empty_object) None.
Proof. reflexivity. Qed.

(** *** The refresh *)

Ltac run_async :=
  unfold refreshTeamDataIfNeeded, resetAllFilters, refreshDataWithTeams, refresh_try,
    setLoading, try_finally, try_catch, bind, modify, emit, get, await, ret;
  cbn [dash events fst snd];
  repeat match goal with
    | |- context [currentFilter (with_isLoading ?b ?x)] =>
        change (currentFilter (with_isLoading b x)) with (currentFilter x)
    end.

Lemma map_item_eta (items : list DropdownFilterItem) :
  map (fun t => mkItem (value t) (isSelected t)) items = items.
Proof.
  induction items as [|x items IH]; simpl; [reflexivity|].
  now rewrite item_eta, IH.
Qed.

Lemma value_restore_selection (previous : list DropdownFilterItem) (t : DropdownFilterItem) :
  value (restore_selection previous t) = value t.
Proof. unfold restore_selection. now destruct (find_item (value t) previous). Qed.

Lemma push_unique_unselected (items : list DropdownFilterItem) (v : string) :
  Forall (fun item => isSelected item = false) items ->
  Forall (fun item => isSelected item = false) (push_unique items v).
Proof.
  intros H. unfold push_unique.
  destruct (existsb _ items); [exact H|].
  apply Forall_app. split; [exact H | repeat constructor].
Qed.

Section Async.
Variable formatDate : string -> string.
Variable groupByTimeFrame :
  list (string * list CopilotUsageOutput) -> list CopilotUsageOutput.
Variable Date_getDay : string -> option Z.
Variable localeCompare : string -> string -> Z.
Variable refreshMetricsData :
  CurrentFilter -> list string -> Promise (RefreshResult (list CopilotUsageOutput)).
Variable refreshSeatsData :
  option Z -> option string -> option string -> list string ->
  Promise (RefreshResult SeatsValue).

Let refresh :=
  refreshDataWithTeams formatDate groupByTimeFrame Date_getDay localeCompare
    refreshMetricsData refreshSeatsData.
Let close_dropdown :=
  refreshTeamDataIfNeeded formatDate groupByTimeFrame Date_getDay localeCompare
    refreshMetricsData refreshSeatsData.
Let reset :=
  resetAllFilters formatDate groupByTimeFrame Date_getDay localeCompare
    refreshMetricsData refreshSeatsData.

Lemma sort_items_unselected (items : list DropdownFilterItem) :
  Forall (fun item => isSelected item = false) items ->
  Forall (fun item => isSelected item = false) (sort_items localeCompare items).
Proof. intros H. eapply Permutation_Forall; [apply js_sort_perm | exact H]. Qed.

Lemma extractUniqueTeams_unselected (st : State) :
  Forall (fun item => isSelected item = false) (extractUniqueTeams localeCompare st).
Proof.
  unfold extractUniqueTeams. apply sort_items_unselected.
  generalize (@nil DropdownFilterItem) (Forall_nil (fun item => isSelected item = false)).
  induction (teamsData st) as [|team l IH]; simpl; intros acc Hacc.
  - exact Hacc.
  - apply IH. destruct (team_name team) as [n|]; [|exact Hacc].
    destruct (truthy n); [|exact Hacc]. now apply push_unique_unselected.
Qed.


(** What a refresh shows: it resolves normally; it raises the loading flag
    first and clears it last; in between it calls the server once, with the
    teams it was given. *)
Lemma refresh_events (sel : list string) (w : World) :
  exists mid,
    refresh sel w
    = (Normal tt,
       mkWorld (dash (snd (refresh sel w)))
         (events w ++ LoadingSet true :: mid ++ [LoadingSet false])%list) /\
    loading_writes mid = [] /\
    refresh_calls mid = [sel] /\
    isLoading (dash (snd (refresh sel w))) = false.
Proof.
  unfold refresh. run_async.
  destruct (Promise_all2 _ _) as [[mr sr]|t e]; cbn [dash events fst snd].
  - exists [RefreshMetricsCalled (currentFilter (dash w)) sel;
            RefreshSeatsCalled (endDate (currentFilter (dash w)))
              (enterprise (currentFilter (dash w)))
              (organization (currentFilter (dash w))) sel].
    destruct (success mr), (data mr), (success sr), (data sr);
      cbn [dash events fst snd]; rewrite <- ?app_assoc; repeat split.
  - exists [RefreshMetricsCalled (currentFilter (dash w)) sel;
            RefreshSeatsCalled (endDate (currentFilter (dash w)))
              (enterprise (currentFilter (dash w)))
              (organization (currentFilter (dash w))) sel;
            ConsoleError "Failed to refresh data:" e].
    rewrite <- ?app_assoc. repeat split.
Qed.

Lemma refresh_resolves (sel : list string) (w : World) :
  fst (refresh sel w) = Normal tt.
Proof. destruct (refresh_events sel w) as (mid & H & _). now rewrite H. Qed.

(** C4, as amended: after the synchronous part of [resetAllFilters] no item
    of the three collections is selected, the weekend and pending flags are
    cleared, the raw data are untouched, and the filtered view is the
    unfiltered time-bucketed dataset of the raw data without the rows whose
    breakdown is empty; the method then goes on as a refresh with no team,
    which calls the server once, and it resolves normally. *)
Theorem resetAllFilters_clears (w : World) :
  let st := dash w in
  let st' := resetAllFilters_sync formatDate groupByTimeFrame Date_getDay st in
  Forall (fun item => isSelected item = false) (languages st') /\
  Forall (fun item => isSelected item = false) (editors st') /\
  Forall (fun item => isSelected item = false) (teams st') /\
  hideWeekends st' = false /\
  hasPendingTeamChanges st' = false /\
  apiData st' = apiData st /\
  filteredData st'
  = filter (fun item => 0 <? len (breakdown item))
      (aggregatedDataByTimeFrame formatDate groupByTimeFrame Date_getDay false st) /\
  reset w = refresh [] (mkWorld st' (events w)) /\
  fst (reset w) = Normal tt /\
  exists mid,
    events (snd (reset w)) = (events w ++ LoadingSet true :: mid ++ [LoadingSet false])%list /\
    refresh_calls mid = [[]].
Proof.
  intros st st'.
  assert (Hreset : reset w = refresh [] (mkWorld st' (events w))).
  { unfold reset, resetAllFilters, bind, modify, try_catch. fold refresh.
    cbn [dash events]. fold st. fold st'.
    pose proof (refresh_resolves [] (mkWorld st' (events w))) as Hn.
    destruct (refresh [] (mkWorld st' (events w))) as [[u|e] w']; simpl in Hn.
    - reflexivity.
    - discriminate. }
  repeat split.
  - apply clear_all_unselected.
  - apply clear_all_unselected.
  - apply clear_all_unselected.
  - unfold st', resetAllFilters_sync, applyFilters. cbn [filteredData with_filteredData].
    cbn [languages editors hideWeekends with_languages with_editors with_teams
         with_hideWeekends with_hasPendingTeamChanges].
    rewrite narrow_no_selection by apply selected_clear_all.
    reflexivity.
  - exact Hreset.
  - rewrite Hreset. apply refresh_resolves.
  - rewrite Hreset.
    destruct (refresh_events [] (mkWorld st' (events w))) as (mid & H & _ & Hcalls & _).
    exists mid. rewrite H. split; [reflexivity | exact Hcalls].
Qed.





(** C10: a team that is not in the collection leaves the state as it is: no
    flag flips, nothing is recomputed, the pending flag is not set.  With no
    change pending before, closing the dropdown afterwards then does
    nothing: no event, no call to the server, the same state. *)
Theorem filterTeam_absent_is_noop (team : string) (w : World) :
  find_item team (teams (dash w)) = None ->
  filterTeam formatDate groupByTimeFrame Date_getDay team (dash w) = dash w /\
  (hasPendingTeamChanges (dash w) = false ->
   close_dropdown
     (mkWorld (filterTeam formatDate groupByTimeFrame Date_getDay team (dash w)) (events w))
   = (Normal tt, w)).
Proof.
  intros Hnone.
  assert (Hsame : filterTeam formatDate groupByTimeFrame Date_getDay team (dash w) = dash w).
  { unfold filterTeam. now rewrite Hnone. }
  split; [exact Hsame|].
  intros Hpending. rewrite Hsame.
  unfold close_dropdown, refreshTeamDataIfNeeded, bind, get, ret.
  cbn [dash events]. rewrite Hpending. now destruct w.
Qed.

End Async.

(** The default view, by week: one row for each week label, in the order in
    which the labels first occur. *)
Example weekly_view :
  map time_frame_display (filteredData (Sample.load Sample.week_data (initial _)))
  = ["2024-W01"; "2024-W02"] /\
  map day (filteredData (Sample.load Sample.week_data (initial _)))
  = ["2024-01-07"; "2024-01-08"].
Proof. vm_compute. split; reflexivity. Qed.

(** Hiding the weekend leaves out Saturday and Sunday before the rows are
    made. *)
Example weekend_hidden :
  map day
    (filteredData
       (toggleWeekendFilter Sample.formatDate Sample.groupByTimeFrame Sample.Date_getDay
          true (Sample.to_daily (Sample.load Sample.week_data (initial _)))))
  = ["2024-01-02"; "2024-01-08"].
Proof. vm_compute. reflexivity. Qed.

(** C4 fails as stated: a day without breakdown entries is a row of the
    unfiltered bucketed dataset, and the filtered view after a reset leaves
    it out. *)
Lemma reset_drops_empty_rows :
  filteredData
    (resetAllFilters_sync Sample.formatDate Sample.groupByTimeFrame Sample.Date_getDay
       Sample.quiet)
  <> aggregatedDataByTimeFrame Sample.formatDate Sample.groupByTimeFrame
       Sample.Date_getDay false Sample.quiet.
Proof. vm_compute. discriminate. Qed.

(** C8 fails as stated: the store initialised again after "python" was
    selected shows the python rows with no language selected; toggling "go"
    twice then shows every row. *)
Lemma toggle_twice_changes_stale_view :
  find_item "go" (languages Sample.reloaded) <> None /\
  filteredData
    (filterLanguage Sample.formatDate Sample.groupByTimeFrame Sample.Date_getDay "go"
       (filterLanguage Sample.formatDate Sample.groupByTimeFrame Sample.Date_getDay "go"
          Sample.reloaded))
  <> filteredData Sample.reloaded.
Proof. split; vm_compute; discriminate. Qed.

Lemma toggle_twice_restores_witness :
  (let st2 :=
     filterLanguage Sample.formatDate Sample.groupByTimeFrame Sample.Date_getDay "go"
       (filterLanguage Sample.formatDate Sample.groupByTimeFrame Sample.Date_getDay "go"
          Sample.loaded) in
   filteredData st2 = filteredData Sample.loaded /\
   languages st2 = languages Sample.loaded) /\
  (let st2 :=
     filterEditor Sample.formatDate Sample.groupByTimeFrame Sample.Date_getDay "vim"
       (filterEditor Sample.formatDate Sample.groupByTimeFrame Sample.Date_getDay "vim"
          Sample.loaded) in
   filteredData st2 = filteredData Sample.loaded /\
   editors st2 = editors Sample.loaded).
Proof.
  assert (Hsync : in_sync Sample.formatDate Sample.groupByTimeFrame Sample.Date_getDay
                    Sample.loaded) by reflexivity.
  split.
  - apply (proj1 (toggle_twice_restores "go" Hsync)). vm_compute. discriminate.
  - apply (proj2 (toggle_twice_restores "vim" Hsync)). vm_compute. discriminate.
Defined.



(** The scenario of the specification: a team is toggled and the dropdown
    is closed; the server is called once with the selected team and the
    loading flag goes up and down again. *)
Example toggle_then_close :
  let r := Sample.close_dropdown_up (mkWorld Sample.team_x_selected []) in
  isLoading Sample.team_x_selected = false /\
  loading_writes (events (snd r)) = [true; false] /\
  refresh_calls (events (snd r)) = [["x"]] /\
  isLoading (dash (snd r)) = false /\
  teams (dash (snd r)) = [mkItem "x" true; mkItem "y" false].
Proof. vm_compute. repeat split. Qed.


Lemma filterTeam_absent_is_noop_witness :
  filterTeam Sample.formatDate Sample.groupByTimeFrame Sample.Date_getDay "z" Sample.loaded
  = Sample.loaded /\
  Sample.close_dropdown_up
    (mkWorld
       (filterTeam Sample.formatDate Sample.groupByTimeFrame Sample.Date_getDay "z"
          Sample.loaded) [])
  = (Normal tt, mkWorld Sample.loaded []).
Proof.
  destruct (filterTeam_absent_is_noop Sample.formatDate Sample.groupByTimeFrame
              Sample.Date_getDay Sample.localeCompare Sample.refreshMetricsData_up
              Sample.refreshSeatsData_up "z" (mkWorld Sample.loaded []))
    as (Hsame & Hclose).
  - reflexivity.
  - split; [exact Hsame|]. apply Hclose. reflexivity.
Defined.

End DashboardProofs.

(** ** The usage records as shared objects *)

Module StoreProofs.

Import Dashboard Store.
Local Open Scope list_scope.

Lemma read_app_old (h ext : Heap) (l : loc) :
  (l < List.length h)%nat -> read (h ++ ext) l = read h l.
Proof. intros H. unfold read. now apply nth_error_app1. Qed.

Lemma write_length (h : Heap) (l : loc) (o : CopilotUsageOutput) :
  List.length (write h l o) = List.length h.
Proof.
  revert l. induction h as [|x h IH]; intros [|l]; simpl; auto.
Qed.

Lemma read_write_same (h : Heap) (l : loc) (o : CopilotUsageOutput) :
  (l < List.length h)%nat -> read (write h l o) l = Some o.
Proof.
  unfold read. revert l. induction h as [|x h IH]; intros [|l]; simpl; intros H;
    try lia; auto.
  apply IH. lia.
Qed.

Lemma read_write_other (h : Heap) (l l' : loc) (o : CopilotUsageOutput) :
  l <> l' -> read (write h l o) l' = read h l'.
Proof.
  unfold read. revert l l'. induction h as [|x h IH]; intros [|l] [|l']; simpl; intros H;
    try congruence; auto.
Qed.

Lemma update_length (f : CopilotUsageOutput -> CopilotUsageOutput) (h : Heap) (l : loc) :
  List.length (update f h l) = List.length h.
Proof. unfold update. destruct (read h l); [apply write_length | reflexivity]. Qed.

Lemma read_update_other (f : CopilotUsageOutput -> CopilotUsageOutput) (h : Heap)
    (l l' : loc) :
  l <> l' -> read (update f h l) l' = read h l'.
Proof.
  intros H. unfold update. destruct (read h l); [now apply read_write_other | reflexivity].
Qed.

Lemma read_update_same (f : CopilotUsageOutput -> CopilotUsageOutput) (h : Heap) (l : loc) :
  read (update f h l) l = option_map f (read h l).
Proof.
  unfold update. destruct (read h l) as [o|] eqn:Hr; simpl.
  - apply read_write_same. apply nth_error_Some. unfold read in Hr. congruence.
  - exact Hr.
Qed.

Lemma forEach_update_length (f : CopilotUsageOutput -> CopilotUsageOutput)
    (items : list loc) (h : Heap) :
  List.length (forEach_update f items h) = List.length h.
Proof.
  unfold forEach_update. revert h. induction items as [|l items IH]; intros h; simpl.
  - reflexivity.
  - rewrite IH. apply update_length.
Qed.

(** A [forEach] that writes through the references [items] leaves every
    other object as it is. *)
Lemma forEach_update_frame (f : CopilotUsageOutput -> CopilotUsageOutput)
    (items : list loc) (h : Heap) (l' : loc) :
  ~ In l' items -> read (forEach_update f items h) l' = read h l'.
Proof.
  unfold forEach_update. revert h. induction items as [|l items IH]; intros h Hn; simpl.
  - reflexivity.
  - rewrite IH by (intros Hin; apply Hn; now right).
    apply read_update_other. intros ->. apply Hn. now left.
Qed.

Lemma alloc_all_spec (os : list CopilotUsageOutput) (h : Heap) :
  alloc_all os h = (seq (List.length h) (List.length os), (h ++ os)%list).
Proof.
  revert h. induction os as [|o os IH]; intros h; simpl.
  - now rewrite app_nil_r.
  - rewrite IH. rewrite length_app. simpl.
    rewrite Nat.add_1_r. now rewrite <- app_assoc.
Qed.

Lemma filter_refs_incl (p : CopilotUsageOutput -> bool) (h : Heap) (items : list loc) (l : loc) :
  In l (filter_refs p h items) -> In l items.
Proof. unfold filter_refs. intros H. now apply filter_In in H. Qed.

Lemma fresh_from_seq (n m k : nat) : (n <= m)%nat -> fresh_from n (seq m k).
Proof.
  intros H. apply Forall_forall. intros l Hl. apply in_seq in Hl. lia.
Qed.

Lemma fresh_from_filter_refs (n : nat) (p : CopilotUsageOutput -> bool) (h : Heap)
    (items : list loc) :
  fresh_from n items -> fresh_from n (filter_refs p h items).
Proof.
  unfold fresh_from. rewrite !Forall_forall. intros H l Hl.
  apply H. eapply filter_refs_incl. exact Hl.
Qed.

Lemma forEach_update_old (f : CopilotUsageOutput -> CopilotUsageOutput)
    (n : nat) (items : list loc) (h : Heap) (l : loc) :
  fresh_from n items -> (l < n)%nat -> read (forEach_update f items h) l = read h l.
Proof.
  intros Hfresh Hl. apply forEach_update_frame. intros Hin.
  unfold fresh_from in Hfresh. rewrite Forall_forall in Hfresh.
  specialize (Hfresh _ Hin). lia.
Qed.

Lemma read_app_new (pre post : Heap) (o : CopilotUsageOutput) :
  read (pre ++ o :: post) (List.length pre) = Some o.
Proof.
  unfold read. rewrite nth_error_app2 by lia. now rewrite Nat.sub_diag.
Qed.

(** Reading back a run of objects through the references of their
    allocation. *)
Lemma read_all_allocated (pre os post : Heap) :
  read_all (pre ++ os ++ post) (seq (List.length pre) (List.length os)) = os.
Proof.
  revert pre. induction os as [|o os IH]; intros pre; simpl.
  - reflexivity.
  - rewrite read_app_new. f_equal.
    specialize (IH (pre ++ [o])). rewrite length_app in IH. simpl in IH.
    rewrite Nat.add_1_r in IH. rewrite <- app_assoc in IH. exact IH.
Qed.

Lemma read_all_alloc (h os : Heap) :
  read_all (h ++ os) (seq (List.length h) (List.length os)) = os.
Proof.
  pose proof (read_all_allocated h os []) as H. now rewrite app_nil_r in H.
Qed.

(** All references point into a store of [n] objects. *)
Lemma read_valid (h : Heap) (l : loc) :
  (l < List.length h)%nat -> exists o, read h l = Some o.
Proof.
  intros H. unfold read. destruct (nth_error h l) as [o|] eqn:Hr; [now exists o|].
  apply nth_error_None in Hr. lia.
Qed.

Lemma read_all_filter_refs (p : CopilotUsageOutput -> bool) (h : Heap) (items : list loc) :
  Forall (fun l => (l < List.length h)%nat) items ->
  read_all h (filter_refs p h items) = filter p (read_all h items).
Proof.
  unfold filter_refs. induction 1 as [|l items Hl Hitems IH]; simpl.
  - reflexivity.
  - destruct (read_valid h Hl) as [o Ho]. rewrite Ho.
    destruct (p o) eqn:Hp; simpl; rewrite ?Ho, ?Hp, IH; reflexivity.
Qed.

Lemma read_all_ext (h h' : Heap) (items : list loc) :
  (forall l, In l items -> read h' l = read h l) ->
  read_all h' items = read_all h items.
Proof.
  induction items as [|l items IH]; simpl; intros H.
  - reflexivity.
  - rewrite H by now left. rewrite IH; [reflexivity|].
    intros l' Hl'. apply H. now right.
Qed.

(** A [forEach] over distinct references applies the write to each of the
    objects once. *)
Lemma read_all_forEach_update (f : CopilotUsageOutput -> CopilotUsageOutput)
    (items : list loc) (h : Heap) :
  NoDup items ->
  Forall (fun l => (l < List.length h)%nat) items ->
  read_all (forEach_update f items h) items = map f (read_all h items).
Proof.
  intros Hnd. revert h. induction Hnd as [|l items Hnotin Hnd IH]; intros h Hvalid.
  - reflexivity.
  - inversion Hvalid as [|? ? Hl Hitems]; subst.
    change (forEach_update f (l :: items) h) with (forEach_update f items (update f h l)).
    simpl. rewrite forEach_update_frame by exact Hnotin. rewrite read_update_same.
    destruct (read_valid h Hl) as [o Ho]. rewrite Ho. simpl. f_equal.
    rewrite IH.
    + f_equal. apply read_all_ext. intros l' Hl'. apply read_update_other.
      intros ->. contradiction.
    + rewrite update_length. exact Hitems.
Qed.

Lemma NoDup_filter_refs (p : CopilotUsageOutput -> bool) (h : Heap) (items : list loc) :
  NoDup items -> NoDup (filter_refs p h items).
Proof. intros H. unfold filter_refs. now apply NoDup_filter. Qed.

Lemma valid_filter_refs (n : nat) (p : CopilotUsageOutput -> bool) (h : Heap)
    (items : list loc) :
  Forall (fun l => (l < n)%nat) items ->
  Forall (fun l => (l < n)%nat) (filter_refs p h items).
Proof.
  rewrite !Forall_forall. intros H l Hl. apply H. eapply filter_refs_incl. exact Hl.
Qed.

Lemma valid_seq (n k : nat) : Forall (fun l => (l < n + k)%nat) (seq n k).
Proof. apply Forall_forall. intros l Hl. apply in_seq in Hl. lia. Qed.

(** Grouping references by the label of their objects is grouping the
    objects. *)
Lemma group_push_read (h : Heap) (acc : list (string * list loc)) (label : string)
    (l : loc) (o : CopilotUsageOutput) :
  read h l = Some o ->
  Forall (fun kv => Forall (fun l => (l < List.length h)%nat) (snd kv)) acc ->
  map (fun kv => (fst kv, read_all h (snd kv))) (group_push acc label l)
  = group_push (map (fun kv => (fst kv, read_all h (snd kv))) acc) label o.
Proof.
  intros Ho. induction 1 as [|[k v] acc Hv Hacc IH]; simpl.
  - now rewrite Ho.
  - destruct (String.eqb k label); simpl.
    + f_equal. f_equal. clear -Ho Hv. simpl in Hv.
      induction Hv as [|l' v Hl' Hv IH]; simpl.
      * now rewrite Ho.
      * destruct (read h l'); simpl; now rewrite IH.
    + now rewrite IH.
Qed.

Lemma group_push_valid (n : nat) (acc : list (string * list loc)) (label : string) (l : loc) :
  (l < n)%nat ->
  Forall (fun kv => Forall (fun l => (l < n)%nat) (snd kv)) acc ->
  Forall (fun kv => Forall (fun l => (l < n)%nat) (snd kv)) (group_push acc label l).
Proof.
  intros Hl. induction 1 as [|[k v] acc Hv Hacc IH]; simpl.
  - repeat constructor. exact Hl.
  - destruct (String.eqb k label); constructor; auto.
    simpl in *. apply Forall_app. split; [exact Hv | repeat constructor; exact Hl].
Qed.

Lemma grouped_read (h : Heap) (tf : TimeFrame) (items : list loc)
    (acc : list (string * list loc)) :
  Forall (fun l => (l < List.length h)%nat) items ->
  Forall (fun kv => Forall (fun l => (l < List.length h)%nat) (snd kv)) acc ->
  map (fun kv => (fst kv, read_all h (snd kv)))
    (fold_left (fun acc l => group_push acc (label_of h tf l) l) items acc)
  = fold_left (fun acc item => group_push acc (timeFrameLabel tf item) item)
      (read_all h items) (map (fun kv => (fst kv, read_all h (snd kv))) acc).
Proof.
  intros Hitems. revert acc. induction Hitems as [|l items Hl Hitems IH]; intros acc Hacc.
  - reflexivity.
  - simpl. destruct (read_valid h Hl) as [o Ho].
    rewrite Ho. simpl. rewrite IH by now apply group_push_valid.
    f_equal. unfold label_of. rewrite Ho. now apply group_push_read.
Qed.

Section Frame.
Variable formatDate : string -> string.
Variable groupByTimeFrame :
  list (string * list CopilotUsageOutput) -> list CopilotUsageOutput.
Variable Date_getDay : string -> option Z.

Let bucketed := Store.aggregatedDataByTimeFrame formatDate groupByTimeFrame Date_getDay.
Let recompute := Store.applyFilters formatDate groupByTimeFrame Date_getDay.

(** The bucketed rows are new objects, and no object that was there before
    is written. *)
Lemma bucketed_frame (hide : bool) (st : RefState) (h : Heap) :
  fresh_from (List.length h) (fst (bucketed hide st h)) /\
  (List.length h <= List.length (snd (bucketed hide st h)))%nat /\
  forall l, (l < List.length h)%nat -> read (snd (bucketed hide st h)) l = read h l.
Proof.
  unfold bucketed, Store.aggregatedDataByTimeFrame, deep_copy.
  rewrite alloc_all_spec.
  set (copies := read_all h (apiData st)).
  set (h1 := (h ++ copies)%list).
  set (items := if hide then _ else _).
  assert (Hitems : fresh_from (List.length h) items).
  { subst items. destruct hide.
    - apply fresh_from_filter_refs. now apply fresh_from_seq.
    - now apply fresh_from_seq. }
  assert (Hlen1 : (List.length h <= List.length h1)%nat).
  { subst h1. rewrite length_app. lia. }
  destruct (timeFrame st); cbn [fst snd].
  - split; [exact Hitems|]. split.
    + now rewrite forEach_update_length.
    + intros l Hl. rewrite (forEach_update_old _ _ Hitems Hl).
      now apply read_app_old.
  - rewrite alloc_all_spec. cbn [fst snd]. split; [now apply fresh_from_seq|]. split.
    + rewrite length_app. lia.
    + intros l Hl. rewrite read_app_old by lia. now apply read_app_old.
  - rewrite alloc_all_spec. cbn [fst snd]. split; [now apply fresh_from_seq|]. split.
    + rewrite length_app. lia.
    + intros l Hl. rewrite read_app_old by lia. now apply read_app_old.
Qed.

Lemma recompute_frame (st : RefState) (h : Heap) :
  apiData (fst (recompute st h)) = apiData st /\
  (List.length h <= List.length (snd (recompute st h)))%nat /\
  forall l, (l < List.length h)%nat -> read (snd (recompute st h)) l = read h l.
Proof.
  unfold recompute, Store.applyFilters.
  destruct (bucketed_frame (hideWeekends st) st h)
    as (Hfresh & Hlen & Hold).
  fold bucketed.
  destruct (bucketed (hideWeekends st) st h) as [data_ h1]. cbn [fst snd] in *.
  split; [reflexivity|]. split.
  - destruct (negb (len (filter isSelected (languages st)) =? 0)),
      (negb (len (filter isSelected (editors st)) =? 0));
      rewrite ?forEach_update_length; exact Hlen.
  - intros l Hl.
    destruct (negb (len (filter isSelected (languages st)) =? 0)),
      (negb (len (filter isSelected (editors st)) =? 0));
      rewrite ?(forEach_update_old _ _ Hfresh Hl); auto.
Qed.

Lemma run_frame (op : LocalOp) (st : RefState) (h : Heap) :
  let r := run formatDate groupByTimeFrame Date_getDay op st h in
  apiData (fst r) = apiData st /\
  (List.length h <= List.length (snd r))%nat /\
  forall l, (l < List.length h)%nat -> read (snd r) l = read h l.
Proof.
  destruct op; cbn [run];
    unfold Store.filterLanguage, Store.filterEditor, Store.filterTeam,
      Store.toggleWeekendFilter, Store.onTimeFrameChange, Store.resetAllFilters_sync.
  - destruct (find_item language_ (languages st)); [|cbn; auto].
    apply (recompute_frame (with_languages _ st) h).
  - destruct (find_item editor_ (editors st)); [|cbn; auto].
    apply (recompute_frame (with_editors _ st) h).
  - destruct (find_item team (teams st)); [|cbn; auto].
    pose proof (recompute_frame (with_teams (toggle_first team (teams st)) st) h) as H.
    fold recompute.
    destruct (recompute (with_teams (toggle_first team (teams st)) st) h) as [st' h'].
    exact H.
  - apply (recompute_frame (with_hideWeekends hide st) h).
  - apply (recompute_frame (with_timeFrame tf st) h).
  - apply (recompute_frame
             (with_hasPendingTeamChanges false
                (with_hideWeekends false
                   (with_teams (clear_all (teams st))
                      (with_editors (clear_all (editors st))
                         (with_languages (clear_all (languages st)) st)))))
             h).
Qed.

(** C9: each local filter operation leaves the array of raw data as it is
    and writes to no object that existed before it ran: every write of the
    recomputation goes to the copies it has made.  The stored records, which
    are among the objects that existed, are therefore what they were. *)
Theorem local_ops_keep_apiData (op : LocalOp) (st : RefState) (h : Heap) :
  let r := run formatDate groupByTimeFrame Date_getDay op st h in
  apiData (fst r) = apiData st /\
  (forall l, (l < List.length h)%nat -> read (snd r) l = read h l) /\
  (Forall (fun l => (l < List.length h)%nat) (apiData st) ->
   read_all (snd r) (apiData (fst r)) = read_all h (apiData st)).
Proof.
  intros r. destruct (run_frame op st h) as (Hapi & Hlen & Hold). fold r in Hapi, Hold.
  split; [exact Hapi|]. split; [exact Hold|].
  rewrite Hapi. generalize (apiData st). intros ls Hwf.
  induction Hwf as [|l ls Hl Hls IH]; simpl.
  - reflexivity.
  - rewrite (Hold _ Hl), IH. reflexivity.
Qed.

End Frame.

Section Refinement.
Variable formatDate : string -> string.
Variable groupByTimeFrame :
  list (string * list CopilotUsageOutput) -> list CopilotUsageOutput.
Variable Date_getDay : string -> option Z.

Let bucketed := Store.aggregatedDataByTimeFrame formatDate groupByTimeFrame Date_getDay.
Let recompute := Store.applyFilters formatDate groupByTimeFrame Date_getDay.

(** The bucketed rows in the store are the rows that the computation on
    records gives. *)
Lemma bucketed_refines (hide : bool) (st : RefState) (h : Heap) :
  well_formed st h ->
  read_all (snd (bucketed hide st h)) (fst (bucketed hide st h))
  = Dashboard.aggregatedDataByTimeFrame formatDate groupByTimeFrame Date_getDay hide
      (view h st) /\
  NoDup (fst (bucketed hide st h)) /\
  Forall (fun l => (l < List.length (snd (bucketed hide st h)))%nat)
    (fst (bucketed hide st h)).
Proof.
  intros Hwf.
  unfold bucketed, Store.aggregatedDataByTimeFrame, Dashboard.aggregatedDataByTimeFrame,
    deep_copy.
  rewrite alloc_all_spec. cbn [apiData timeFrame view].
  set (copies := read_all h (apiData st)).
  set (h1 := h ++ copies).
  set (all := seq (List.length h) (List.length copies)).
  assert (Hall : read_all h1 all = copies) by apply read_all_alloc.
  assert (Hvalid_all : Forall (fun l => (l < List.length h1)%nat) all).
  { subst h1 all. rewrite length_app. apply valid_seq. }
  assert (Hnd_all : NoDup all) by apply seq_NoDup.
  set (items := if hide then filter_refs (is_weekday Date_getDay) h1 all else all).
  assert (Hitems : read_all h1 items
                   = if hide then filter (is_weekday Date_getDay) copies else copies).
  { subst items. destruct hide; [|exact Hall].
    rewrite read_all_filter_refs by exact Hvalid_all. now rewrite Hall. }
  assert (Hvalid : Forall (fun l => (l < List.length h1)%nat) items).
  { subst items. destruct hide; [now apply valid_filter_refs | exact Hvalid_all]. }
  assert (Hnd : NoDup items).
  { subst items. destruct hide; [now apply NoDup_filter_refs | exact Hnd_all]. }
  destruct (timeFrame st); cbn [fst snd].
  - rewrite read_all_forEach_update by assumption. rewrite Hitems.
    split; [reflexivity|]. split; [exact Hnd|].
    now rewrite forEach_update_length.
  - rewrite alloc_all_spec. cbn [fst snd].
    rewrite read_all_alloc. rewrite grouped_read by (assumption || constructor).
    rewrite Hitems. split; [reflexivity|]. split; [apply seq_NoDup|].
    rewrite length_app. apply valid_seq.
  - rewrite alloc_all_spec. cbn [fst snd].
    rewrite read_all_alloc. rewrite grouped_read by (assumption || constructor).
    rewrite Hitems. split; [reflexivity|]. split; [apply seq_NoDup|].
    rewrite length_app. apply valid_seq.
Qed.

(** The two [forEach] and the last [filter] of [applyFilters], on rows in
    the store, are [narrow] on the rows. *)
Lemma narrow_refines (languages_ editors_ : list DropdownFilterItem)
    (data_ : list loc) (h1 : Heap) :
  NoDup data_ ->
  Forall (fun l => (l < List.length h1)%nat) data_ ->
  let selectedLanguages := filter isSelected languages_ in
  let selectedEditors := filter isSelected editors_ in
  let h2 :=
    if negb (len selectedLanguages =? 0) then
      forEach_update
        (fun o => with_breakdown (filter (keep_language selectedLanguages) (breakdown o)) o)
        data_ h1
    else h1 in
  let h3 :=
    if negb (len selectedEditors =? 0) then
      forEach_update
        (fun o => with_breakdown (filter (keep_editor selectedEditors) (breakdown o)) o)
        data_ h2
    else h2 in
  read_all h3 (filter_refs (fun o => 0 <? len (breakdown o)) h3 data_)
  = narrow languages_ editors_ (read_all h1 data_).
Proof.
  intros Hnd Hvalid sl se h2 h3. unfold narrow. fold sl. fold se.
  assert (Hlen2 : List.length h2 = List.length h1).
  { subst h2. destruct (negb (len sl =? 0)); [apply forEach_update_length | reflexivity]. }
  assert (Hlen3 : List.length h3 = List.length h1).
  { subst h3. destruct (negb (len se =? 0)); [rewrite forEach_update_length|]; exact Hlen2. }
  rewrite read_all_filter_refs by (rewrite Hlen3; exact Hvalid).
  f_equal. subst h3 h2.
  destruct (negb (len sl =? 0)), (negb (len se =? 0));
    rewrite ?read_all_forEach_update;
    rewrite ?forEach_update_length; try assumption; reflexivity.
Qed.

Lemma recompute_refines (st : RefState) (h : Heap) :
  well_formed st h ->
  view (snd (recompute st h)) (fst (recompute st h))
  = Dashboard.applyFilters formatDate groupByTimeFrame Date_getDay (view h st).
Proof.
  intros Hwf.
  destruct (recompute_frame formatDate groupByTimeFrame Date_getDay st h)
    as (_ & _ & Hold).
  fold recompute in Hold.
  assert (Hapi : read_all (snd (recompute st h)) (apiData st) = read_all h (apiData st)).
  { apply read_all_ext. intros l Hl. apply Hold.
    unfold well_formed in Hwf. rewrite Forall_forall in Hwf. now apply Hwf. }
  revert Hapi. clear Hold.
  unfold recompute, Store.applyFilters, Dashboard.applyFilters.
  destruct (bucketed_refines (hideWeekends st) Hwf)
    as (Hrows & Hnd & Hvalid).
  fold bucketed. cbn [hideWeekends languages editors view] in *.
  destruct (bucketed (hideWeekends st) st h) as [data_ h1]. cbn [fst snd] in *.
  intros Hapi. unfold view, with_filteredData.
  cbn [filteredData languages editors teams timeFrame hideWeekends isLoading seatsData
       teamsData apiData hasPendingTeamChanges currentFilter].
  rewrite Hapi.
  pose proof (@narrow_refines (languages st) (editors st) data_ h1 Hnd Hvalid) as Hn.
  cbv zeta in Hn. rewrite Hn.
  now rewrite Hrows.
Qed.

(** The operations on the store and the operations on records agree: the
    records behind the state that an operation leaves are the state that the
    same operation computes from the records. *)
Theorem run_refines (op : LocalOp) (st : RefState) (h : Heap) :
  well_formed st h ->
  let r := run formatDate groupByTimeFrame Date_getDay op st h in
  view (snd r) (fst r) = run_value formatDate groupByTimeFrame Date_getDay op (view h st).
Proof.
  intros Hwf. destruct op; cbn [run run_value];
    unfold Store.filterLanguage, Store.filterEditor, Store.filterTeam,
      Store.toggleWeekendFilter, Store.onTimeFrameChange, Store.resetAllFilters_sync,
      Dashboard.filterLanguage, Dashboard.filterEditor, Dashboard.filterTeam,
      Dashboard.toggleWeekendFilter, Dashboard.onTimeFrameChange,
      Dashboard.resetAllFilters_sync;
    cbn [languages editors teams view].
  - destruct (find_item language_ (languages st)); [|reflexivity].
    apply (recompute_refines (st := with_languages _ st) Hwf).
  - destruct (find_item editor_ (editors st)); [|reflexivity].
    apply (recompute_refines (st := with_editors _ st) Hwf).
  - destruct (find_item team (teams st)); [|reflexivity].
    pose proof (recompute_refines
                  (st := with_teams (toggle_first team (teams st)) st) Hwf) as H.
    fold recompute.
    destruct (recompute (with_teams (toggle_first team (teams st)) st) h) as [st' h'].
    cbn [fst snd] in *.
    change (view h' (with_hasPendingTeamChanges true st'))
      with (with_hasPendingTeamChanges true (view h' st')).
    now rewrite H.
  - apply (recompute_refines (st := with_hideWeekends hide st) Hwf).
  - apply (recompute_refines (st := with_timeFrame tf st) Hwf).
  - apply (recompute_refines
             (st := with_hasPendingTeamChanges false
                      (with_hideWeekends false
                         (with_teams (clear_all (teams st))
                            (with_editors (clear_all (editors st))
                               (with_languages (clear_all (languages st)) st)))))
             Hwf).
Qed.

End Refinement.

Lemma local_ops_keep_apiData_witness :
  apiData (fst Sample.select_go) = apiData Sample.shared /\
  (forall l, (l < List.length Sample.jan_data)%nat ->
             read (snd Sample.select_go) l = read Sample.jan_data l) /\
  read_all (snd Sample.select_go) (apiData (fst Sample.select_go))
  = read_all Sample.jan_data (apiData Sample.shared).
Proof.
  destruct (local_ops_keep_apiData Sample.formatDate Sample.groupByTimeFrame
              Sample.Date_getDay (FilterLanguage "go") Sample.shared Sample.jan_data)
    as (Hapi & Hold & Hrecords).
  split; [exact Hapi|]. split; [exact Hold|].
  apply Hrecords. repeat constructor.
Defined.

(** Selecting "go" in the store: the filtered view holds new objects with
    the go entries only, and the raw records are the ones loaded. *)
Example select_go_in_store :
  read_all (snd Sample.select_go) (filteredData (fst Sample.select_go))
  = [mkUsage "2024-01-01" [Sample.go_vim] "2024-W01" "2024-01" "2024-01-01";
     mkUsage "2024-01-02" [Sample.go_vim] "2024-W01" "2024-01" "2024-01-02"] /\
  filteredData (fst Sample.select_go) = [2; 3]%nat /\
  read_all (snd Sample.select_go) (apiData (fst Sample.select_go)) = Sample.jan_data.
Proof. vm_compute. repeat split. Qed.

(** The store does show a write in place: the same [forEach] run on the
    references of the raw data, without the copy, changes the raw records. *)
Example write_without_copy_is_seen :
  read_all
    (forEach_update
       (fun o => with_breakdown (filter (keep_language [mkItem "go" true]) (breakdown o)) o)
       (apiData Sample.shared) Sample.jan_data)
    (apiData Sample.shared)
  <> Sample.jan_data.
Proof. vm_compute. discriminate. Qed.

End StoreProofs.

(** * Further properties of the code *)

Unset Implicit Arguments.

(** ** Seat aggregation: what the summary holds *)

Module SeatsExtra.

Import Seats.

Lemma includes_In (l : list string) (x : string) :
  includes l x = true <-> In x l.
Proof.
  unfold includes. rewrite existsb_exists. split.
  - intros (y & Hin & Heq). apply String.eqb_eq in Heq. now subst.
  - intros Hin. exists x. split; [exact Hin | apply String.eqb_refl].
Qed.

Lemma filter_all {A : Type} (p : A -> bool) (l : list A) :
  Forall (fun x => p x = true) l -> filter p l = l.
Proof.
  induction 1 as [|x l Hx Hl IH]; simpl; [reflexivity|].
  now rewrite Hx, IH.
Qed.

Lemma filter_holds {A : Type} (p : A -> bool) (l : list A) :
  Forall (fun x => p x = true) (filter p l).
Proof.
  apply Forall_forall. intros x Hx. now apply filter_In in Hx.
Qed.

Lemma first_occurrences_In (seen : list string) (l : list SeatAssignment)
    (s : SeatAssignment) :
  In s (first_occurrences seen l) ->
  In s l /\ ~ In (assignee_login s) seen.
Proof.
  revert seen. induction l as [|x l IH]; intros seen; simpl.
  - intros [].
  - destruct (includes seen (assignee_login x)) eqn:Hseen.
    + intros H. destruct (IH _ H) as [Hin Hnot]. auto.
    + intros [->|H].
      * split; [now left|]. rewrite <- includes_In. congruence.
      * destruct (IH _ H) as [Hin Hnot]. split; [now right|].
        intros Hs. apply Hnot. apply in_or_app. now left.
Qed.

Lemma first_occurrences_NoDup (seen : list string) (l : list SeatAssignment) :
  NoDup (map assignee_login (first_occurrences seen l)).
Proof.
  revert seen. induction l as [|x l IH]; intros seen; simpl.
  - constructor.
  - destruct (includes seen (assignee_login x)); [apply IH|].
    simpl. constructor; [|apply IH].
    intros Hin. apply in_map_iff in Hin as (s & Hlogin & Hs).
    apply first_occurrences_In in Hs as [_ Hnot]. apply Hnot.
    rewrite Hlogin. apply in_or_app. right. now left.
Qed.

Lemma first_occurrences_covers (seen : list string) (l : list SeatAssignment)
    (s : SeatAssignment) :
  In s l ->
  In (assignee_login s) seen \/
  In (assignee_login s) (map assignee_login (first_occurrences seen l)).
Proof.
  revert seen. induction l as [|x l IH]; intros seen; simpl.
  - intros [].
  - intros [->|Hin].
    + destruct (includes seen (assignee_login s)) eqn:Hseen.
      * left. now apply includes_In.
      * right. now left.
    + destruct (includes seen (assignee_login x)) eqn:Hseen.
      * apply IH. exact Hin.
      * destruct (IH (seen ++ [assignee_login x])%list Hin) as [H|H].
        -- apply in_app_or in H as [H|[H|[]]].
           ++ now left.
           ++ right. left. exact H.
        -- right. right. exact H.
Qed.

Section Facts.
Variable Date_parse : string -> option Z.
Variable thirtyDaysAgo0 thirtyDaysAgo : Z.

Lemma apply_team_filter_twice (tf : option (list string)) (l : list SeatAssignment) :
  apply_team_filter tf (apply_team_filter tf l) = apply_team_filter tf l.
Proof.
  destruct tf as [[|t tf]|]; simpl; try reflexivity.
  apply filter_all, filter_holds.
Qed.

Lemma apply_team_filter_unique (tf : option (list string)) (l : list SeatAssignment) :
  apply_team_filter tf (uniqueSeats (apply_team_filter tf l))
  = uniqueSeats (apply_team_filter tf l).
Proof.
  destruct tf as [[|t tf]|]; simpl; try reflexivity.
  apply filter_all. rewrite SeatsProofs.uniqueSeats_first_occurrences.
  apply Forall_forall. intros s Hs.
  apply first_occurrences_In in Hs as [Hs _].
  now apply filter_In in Hs.
Qed.

Lemma is_active_later (t t' : Z) (s : SeatAssignment) :
  t <= t' -> is_active Date_parse t' s = true -> is_active Date_parse t s = true.
Proof.
  intros Hle. unfold is_active.
  destruct (last_activity_at s) as [a|]; [|discriminate].
  destruct (truthy a); [|discriminate].
  destruct (Date_parse a) as [at_|]; [|discriminate].
  rewrite !Z.leb_le. lia.
Qed.

Lemma len_filter_mono {A : Type} (p q : A -> bool) (l : list A) :
  (forall x, p x = true -> q x = true) ->
  len (filter p l) <= len (filter q l).
Proof.
  intros Hpq. unfold len. induction l as [|x l IH]; simpl; [lia|].
  destruct (p x) eqn:Hp.
  - rewrite (Hpq x Hp). simpl. lia.
  - destruct (q x); simpl; lia.
Qed.

(** X1: aggregating a summary again, as a single record and with the same team
    filter, at any later reading of the clock, changes nothing but the count
    of active seats, which is taken anew from the seats of the summary with
    the new clock: with the clock of the first run the summary comes back
    as it is, and with a later clock the count does not grow. *)
Theorem aggregate_again_recounts_active (thirtyDaysAgo0' thirtyDaysAgo' : Z)
    (data : list CopilotSeatsData) (teamFilter : option (list string)) :
  let r := aggregateSeatsData Date_parse thirtyDaysAgo0 thirtyDaysAgo data teamFilter in
  let r' := aggregateSeatsData Date_parse thirtyDaysAgo0' thirtyDaysAgo' [r] teamFilter in
  r' = mkSeatsData (enterprise r) (organization r) (seats r) (total_seats r)
         (Some (len (filter (is_active Date_parse thirtyDaysAgo') (seats r))))
         (page r) (has_next_page r) (last_update r) (date r) (id r) /\
  (thirtyDaysAgo' = thirtyDaysAgo -> r' = r) /\
  (thirtyDaysAgo <= thirtyDaysAgo' -> active_count r' <= active_count r).
Proof.
  intros r r'. subst r r'.
  destruct data as [|d0 [|d1 rest]].
  - assert (Hnone : apply_team_filter teamFilter [] = [])
      by (now destruct teamFilter as [[|t tf]|]).
    cbn [aggregateSeatsData compat_first total_active_seats seats enterprise organization
         page has_next_page last_update date id total_seats].
    rewrite Hnone. cbn [filter]. unfold len, active_count. simpl.
    repeat split; intros; lia.
  - cbn [aggregateSeatsData compat_first total_active_seats seats enterprise organization
         page has_next_page last_update date id total_seats].
    rewrite apply_team_filter_twice. split; [reflexivity|]. split.
    + intros ->. reflexivity.
    + intros Hle. cbn [active_count total_active_seats].
      apply len_filter_mono. intros s. now apply is_active_later.
  - cbn [aggregateSeatsData compat_first total_active_seats seats enterprise organization
         page has_next_page last_update date id total_seats].
    rewrite apply_team_filter_unique. split; [reflexivity|]. split.
    + intros ->. reflexivity.
    + intros Hle. cbn [active_count total_active_seats].
      apply len_filter_mono. intros s. now apply is_active_later.
Qed.

(** X2: for two or more pages the summary lists every login once: the logins of
    its seats are distinct, every seat is one of the seats that pass the team
    filter, every login that passes the filter is there, and the seat count
    is the number of these logins. *)
Theorem aggregate_distinct_logins (data : list CopilotSeatsData)
    (teamFilter : option (list string)) :
  (2 <= List.length data)%nat ->
  let r := aggregateSeatsData Date_parse thirtyDaysAgo0 thirtyDaysAgo data teamFilter in
  let passing := apply_team_filter teamFilter (flat_map seats data) in
  NoDup (map assignee_login (seats r)) /\
  (forall s, In s (seats r) -> In s passing) /\
  (forall s, In s passing ->
             In (assignee_login s) (map assignee_login (seats r))) /\
  total_seats r = len (map assignee_login (seats r)).
Proof.
  intros Hlen. destruct data as [|d0 [|d1 rest]]; simpl in Hlen; try lia.
  cbn [aggregateSeatsData seats total_seats]. cbn zeta.
  rewrite SeatsProofs.uniqueSeats_first_occurrences.
  cbn [flat_map]. rewrite SeatsProofs.seats_compat_first.
  split; [|split; [|split]].
  - apply first_occurrences_NoDup.
  - intros s Hs. now apply first_occurrences_In in Hs.
  - intros s Hs. destruct (first_occurrences_covers [] _ _ Hs) as [[]|H]. exact H.
  - unfold len. now rewrite length_map.
Qed.

(** X3: with a team filter that is not empty, every seat of the summary was
    assigned through a team whose name is in the filter, whatever the number
    of pages. *)
Theorem aggregate_respects_team_filter (data : list CopilotSeatsData)
    (tf : list string) :
  tf <> [] ->
  Forall
    (fun s =>
       exists t n,
         assigning_team s = Some t /\ team_name t = Some n /\ n <> "" /\ In n tf)
    (seats (aggregateSeatsData Date_parse thirtyDaysAgo0 thirtyDaysAgo data (Some tf))).
Proof.
  intros Htf. destruct tf as [|t0 tf]; [congruence|].
  assert (Hpass : forall s, in_team_filter (t0 :: tf) s = true ->
            exists t n,
              assigning_team s = Some t /\ team_name t = Some n /\ n <> "" /\
              In n (t0 :: tf)).
  { intros s. unfold in_team_filter.
    destruct (assigning_team s) as [t|]; [|discriminate].
    destruct (team_name t) as [n|] eqn:Hname; [|discriminate].
    intros H. apply andb_true_iff in H as [Hn Hin].
    exists t, n. split; [reflexivity|]. split; [exact Hname|]. split.
    - intros ->. discriminate.
    - now apply includes_In. }
  destruct data as [|d0 [|d1 rest]];
    cbn [aggregateSeatsData apply_team_filter seats]; cbn zeta.
  - constructor.
  - apply Forall_forall. intros s Hs. apply filter_In in Hs as [_ Hs]. auto.
  - rewrite SeatsProofs.uniqueSeats_first_occurrences.
    apply Forall_forall. intros s Hs.
    apply first_occurrences_In in Hs as [Hs _].
    apply filter_In in Hs as [_ Hs]. auto.
Qed.

End Facts.

Lemma aggregate_distinct_logins_witness :
  let r :=
    aggregateSeatsData Sample.Date_parse 19 19 [Sample.page1; Sample.page2] None in
  let passing := apply_team_filter None (flat_map seats [Sample.page1; Sample.page2]) in
  NoDup (map assignee_login (seats r)) /\
  (forall s, In s (seats r) -> In s passing) /\
  (forall s, In s passing ->
             In (assignee_login s) (map assignee_login (seats r))) /\
  total_seats r = len (map assignee_login (seats r)).
Proof.
  apply (aggregate_distinct_logins Sample.Date_parse 19 19 [Sample.page1; Sample.page2] None).
  simpl. lia.
Defined.

Lemma aggregate_respects_team_filter_witness :
  Forall
    (fun s =>
       exists t n,
         assigning_team s = Some t /\ team_name t = Some n /\ n <> "" /\ In n ["y"])
    (seats (aggregateSeatsData Sample.Date_parse 19 19 [Sample.page1; Sample.page2]
              (Some ["y"]))).
Proof.
  apply (aggregate_respects_team_filter Sample.Date_parse 19 19
           [Sample.page1; Sample.page2] ["y"]).
  discriminate.
Defined.

End SeatsExtra.

(** ** The dashboard filter state: collections, toggles and the view *)

Module DashboardExtra.

Import Actions Dashboard.

Lemma fold_left_nested {A B C : Type} (f : A -> C -> A) (g : B -> list C)
    (items : list B) (acc : A) :
  fold_left (fun acc item => fold_left f (g item) acc) items acc
  = fold_left f (flat_map g items) acc.
Proof.
  revert acc. induction items as [|x items IH]; intros acc; simpl.
  - reflexivity.
  - rewrite IH. now rewrite fold_left_app.
Qed.

Lemma push_unique_values (items : list DropdownFilterItem) (v : string) :
  NoDup (map value items) ->
  NoDup (map value (push_unique items v)) /\
  forall x, In x (map value (push_unique items v)) <-> In x (map value items) \/ x = v.
Proof.
  intros Hnd. unfold push_unique.
  destruct (existsb (fun item => String.eqb (value item) v) items) eqn:Hex.
  - split; [exact Hnd|]. intros x. split; [now left|].
    intros [H| ->]; [exact H|].
    apply existsb_exists in Hex as (item & Hin & Heq).
    apply String.eqb_eq in Heq. subst v. now apply in_map.
  - split.
    + rewrite map_app. simpl.
      apply NoDup_app; [exact Hnd | repeat constructor; intros [] |].
      intros x Hx [Hv|[]]. subst x.
      apply in_map_iff in Hx as (item & Hval & Hin).
      assert (Hc : existsb (fun item => String.eqb (value item) v) items = true).
      { apply existsb_exists. exists item. split; [exact Hin|].
        rewrite Hval. apply String.eqb_refl. }
      congruence.
    + intros x. rewrite map_app, in_app_iff. simpl. intuition.
Qed.

Lemma collect_values (vs : list string) (acc : list DropdownFilterItem) :
  NoDup (map value acc) ->
  NoDup (map value (fold_left push_unique vs acc)) /\
  forall x, In x (map value (fold_left push_unique vs acc))
            <-> In x (map value acc) \/ In x vs.
Proof.
  revert acc. induction vs as [|v vs IH]; intros acc Hnd; simpl.
  - split; [exact Hnd|]. intros x. intuition.
  - destruct (push_unique_values acc v Hnd) as [Hnd' Hin'].
    destruct (IH _ Hnd') as [Hnd'' Hin'']. split; [exact Hnd''|].
    intros x. rewrite Hin'', Hin'. intuition.
Qed.

Lemma collect_unselected (vs : list string) (acc : list DropdownFilterItem) :
  Forall (fun item => isSelected item = false) acc ->
  Forall (fun item => isSelected item = false) (fold_left push_unique vs acc).
Proof.
  revert acc. induction vs as [|v vs IH]; intros acc H; simpl; [exact H|].
  apply IH. now apply DashboardProofs.push_unique_unselected.
Qed.

Lemma unselected_no_selection (items : list DropdownFilterItem) :
  Forall (fun item => isSelected item = false) items ->
  filter isSelected items = [].
Proof.
  induction 1 as [|x items Hx Hitems IH]; simpl; [reflexivity|].
  now rewrite Hx.
Qed.

Lemma fold_left_map {A B C : Type} (f : A -> C -> A) (g : B -> C) (l : list B) (acc : A) :
  fold_left (fun a x => f a (g x)) l acc = fold_left f (map g l) acc.
Proof.
  revert acc. induction l as [|x l IH]; intros acc; simpl; [reflexivity | apply IH].
Qed.

Lemma keep_language_In (selected : list DropdownFilterItem) (b : Breakdown) :
  keep_language selected b = true -> In (language b) (map value selected).
Proof.
  unfold keep_language. intros H. apply existsb_exists in H as (x & Hin & Heq).
  apply String.eqb_eq in Heq. rewrite <- Heq. now apply in_map.
Qed.

Lemma keep_editor_In (selected : list DropdownFilterItem) (b : Breakdown) :
  keep_editor selected b = true -> In (editor b) (map value selected).
Proof.
  unfold keep_editor. intros H. apply existsb_exists in H as (x & Hin & Heq).
  apply String.eqb_eq in Heq. rewrite <- Heq. now apply in_map.
Qed.

Lemma len_zero {A : Type} (l : list A) : (len l =? 0) = true <-> l = [].
Proof.
  unfold len. rewrite Z.eqb_eq. destruct l; simpl; split; try reflexivity; try lia.
  discriminate.
Qed.

Lemma toggle_first_values (v : string) (items : list DropdownFilterItem) :
  map value (toggle_first v items) = map value items.
Proof.
  induction items as [|x items IH]; simpl; [reflexivity|].
  destruct (String.eqb (value x) v); simpl; [reflexivity | now rewrite IH].
Qed.

Lemma find_item_None_values (v : string) (items : list DropdownFilterItem) :
  find_item v items = None <-> ~ In v (map value items).
Proof.
  unfold find_item. induction items as [|x items IH]; simpl.
  - intuition.
  - destruct (String.eqb_spec (value x) v) as [Heq|Hne].
    + split; [discriminate|]. intros H. exfalso. apply H. now left.
    + rewrite IH. intuition.
Qed.

Lemma find_item_toggle_other (a b : string) (items : list DropdownFilterItem) :
  find_item a (toggle_first b items) = None <-> find_item a items = None.
Proof. now rewrite !find_item_None_values, toggle_first_values. Qed.

Lemma toggle_first_commute (a b : string) (items : list DropdownFilterItem) :
  toggle_first a (toggle_first b items) = toggle_first b (toggle_first a items).
Proof.
  destruct (String.eqb_spec a b) as [->|Hab]; [reflexivity|].
  induction items as [|x items IH]; simpl; [reflexivity|].
  destruct (String.eqb_spec (value x) a) as [Ha|Ha];
    destruct (String.eqb_spec (value x) b) as [Hb|Hb]; simpl.
  - congruence.
  - rewrite (proj2 (String.eqb_eq _ _) Ha).
    destruct (String.eqb_spec (value x) b); [contradiction | reflexivity].
  - rewrite (proj2 (String.eqb_eq _ _) Hb).
    destruct (String.eqb_spec (value x) a); [contradiction | reflexivity].
  - destruct (String.eqb_spec (value x) a); [contradiction|].
    destruct (String.eqb_spec (value x) b); [contradiction|].
    now rewrite IH.
Qed.

Section Collections.
Variable localeCompare : string -> string -> Z.

Lemma sort_items_values (items : list DropdownFilterItem) :
  Permutation (map value items) (map value (sort_items localeCompare items)).
Proof. apply Permutation_map. apply js_sort_perm. Qed.

Lemma extractUniqueLanguages_collect (st : State) :
  extractUniqueLanguages localeCompare st
  = sort_items localeCompare
      (fold_left push_unique (map language (flat_map breakdown (apiData st))) []).
Proof.
  unfold extractUniqueLanguages. f_equal.
  rewrite (fold_left_nested (fun acc b => push_unique acc (language b)) breakdown).
  apply fold_left_map.
Qed.

Lemma extractUniqueEditors_collect (st : State) :
  extractUniqueEditors localeCompare st
  = sort_items localeCompare
      (fold_left push_unique (map editor (flat_map breakdown (apiData st))) []).
Proof.
  unfold extractUniqueEditors. f_equal.
  rewrite (fold_left_nested (fun acc b => push_unique acc (editor b)) breakdown).
  apply fold_left_map.
Qed.

Lemma extractUniqueTeams_collect (st : State) :
  extractUniqueTeams localeCompare st
  = sort_items localeCompare
      (fold_left push_unique
         (flat_map
            (fun team =>
               match Models.team_name team with
               | Some n => if truthy n then [n] else []
               | None => []
               end)
            (teamsData st))
         []).
Proof.
  unfold extractUniqueTeams. f_equal.
  generalize (@nil DropdownFilterItem).
  induction (teamsData st) as [|team l IH]; intros acc; simpl; [reflexivity|].
  rewrite fold_left_app, IH.
  destruct (Models.team_name team) as [n|]; [|reflexivity].
  now destruct (truthy n).
Qed.

Lemma sorted_collection (vs : list string) :
  let items := sort_items localeCompare (fold_left push_unique vs []) in
  NoDup (map value items) /\
  Forall (fun item => isSelected item = false) items /\
  forall v, In v (map value items) <-> In v vs.
Proof.
  intros items. subst items.
  destruct (collect_values vs [] (NoDup_nil _)) as [Hnd Hin].
  split; [|split].
  - eapply Permutation_NoDup; [apply sort_items_values | exact Hnd].
  - apply DashboardProofs.sort_items_unselected. apply collect_unselected. constructor.
  - intros v. split.
    + intros H.
      assert (H' : In v (map value (fold_left push_unique vs []))).
      { eapply Permutation_in; [apply Permutation_sym, sort_items_values | exact H]. }
      apply Hin in H' as [[]|H']. exact H'.
    + intros H.
      eapply Permutation_in; [apply sort_items_values|]. apply Hin. now right.
Qed.

Lemma team_collection_values (st : State) :
  NoDup (map value (extractUniqueTeams localeCompare st)) /\
  Forall (fun item => isSelected item = false) (extractUniqueTeams localeCompare st) /\
  forall v,
    In v (map value (extractUniqueTeams localeCompare st)) <->
    exists team, In team (teamsData st) /\ Models.team_name team = Some v /\ v <> "".
Proof.
  rewrite extractUniqueTeams_collect.
  match goal with
  | |- context [fold_left push_unique ?vs []] =>
      destruct (sorted_collection vs) as (Hnd & Hun & Hin)
  end.
  split; [exact Hnd|]. split; [exact Hun|].
  intros v. rewrite Hin, in_flat_map. split.
  - intros (team & Hteam & Hv). exists team. split; [exact Hteam|].
    destruct (Models.team_name team) as [n|]; [|destruct Hv].
    destruct (truthy n) eqn:Hn; [|destruct Hv].
    destruct Hv as [->|[]]. split; [reflexivity|].
    intros ->. discriminate.
  - intros (team & Hteam & Hname & Hne). exists team. split; [exact Hteam|].
    rewrite Hname. unfold truthy.
    destruct (String.eqb_spec v ""); [contradiction | now left].
Qed.

(** X4: the three dropdown collections that the state derives hold every value
    once and unselected: the languages and the editors are those of the
    breakdown entries of the raw data, the teams are the names, other than
    the empty one, of the stored team list. *)
Theorem collections_distinct_and_complete (st : State) :
  (NoDup (map value (extractUniqueLanguages localeCompare st)) /\
   Forall (fun item => isSelected item = false) (extractUniqueLanguages localeCompare st) /\
   forall v,
     In v (map value (extractUniqueLanguages localeCompare st)) <->
     exists item b, In item (apiData st) /\ In b (breakdown item) /\ language b = v) /\
  (NoDup (map value (extractUniqueEditors localeCompare st)) /\
   Forall (fun item => isSelected item = false) (extractUniqueEditors localeCompare st) /\
   forall v,
     In v (map value (extractUniqueEditors localeCompare st)) <->
     exists item b, In item (apiData st) /\ In b (breakdown item) /\ editor b = v) /\
  (NoDup (map value (extractUniqueTeams localeCompare st)) /\
   Forall (fun item => isSelected item = false) (extractUniqueTeams localeCompare st) /\
   forall v,
     In v (map value (extractUniqueTeams localeCompare st)) <->
     exists team, In team (teamsData st) /\ Models.team_name team = Some v /\ v <> "").
Proof.
  split; [|split].
  - rewrite extractUniqueLanguages_collect.
    destruct (sorted_collection (map language (flat_map breakdown (apiData st))))
      as (Hnd & Hun & Hin).
    split; [exact Hnd|]. split; [exact Hun|].
    intros v. rewrite Hin, in_map_iff. split.
    + intros (b & Hb & Hbin). apply in_flat_map in Hbin as (item & Hitem & Hbi).
      now exists item, b.
    + intros (item & b & Hitem & Hbi & Hb). exists b. split; [exact Hb|].
      apply in_flat_map. now exists item.
  - rewrite extractUniqueEditors_collect.
    destruct (sorted_collection (map editor (flat_map breakdown (apiData st))))
      as (Hnd & Hun & Hin).
    split; [exact Hnd|]. split; [exact Hun|].
    intros v. rewrite Hin, in_map_iff. split.
    + intros (b & Hb & Hbin). apply in_flat_map in Hbin as (item & Hitem & Hbi).
      now exists item, b.
    + intros (item & b & Hitem & Hbi & Hb). exists b. split; [exact Hb|].
      apply in_flat_map. now exists item.
  - apply team_collection_values.
Qed.

End Collections.

Section View.
Variable formatDate : string -> string.
Variable groupByTimeFrame :
  list (string * list CopilotUsageOutput) -> list CopilotUsageOutput.
Variable Date_getDay : string -> option Z.
Variable localeCompare : string -> string -> Z.

Let recompute := applyFilters formatDate groupByTimeFrame Date_getDay.
Let toggleLanguage := filterLanguage formatDate groupByTimeFrame Date_getDay.
Let toggleEditor := filterEditor formatDate groupByTimeFrame Date_getDay.
Let toggleTeam := filterTeam formatDate groupByTimeFrame Date_getDay.
Let synced := in_sync formatDate groupByTimeFrame Date_getDay.

(** X5: a toggle of a team never changes the filtered view of a state that is
    in step, nor the raw data, nor the selected languages and editors: teams
    narrow nothing on the client.  A team that is in the collection marks
    the change as pending. *)
Theorem filterTeam_keeps_view (team : string) (st : State) :
  synced st ->
  filteredData (toggleTeam team st) = filteredData st /\
  apiData (toggleTeam team st) = apiData st /\
  languages (toggleTeam team st) = languages st /\
  editors (toggleTeam team st) = editors st /\
  map value (teams (toggleTeam team st)) = map value (teams st) /\
  (find_item team (teams st) <> None ->
   hasPendingTeamChanges (toggleTeam team st) = true).
Proof.
  intros Hsync. unfold toggleTeam, filterTeam.
  destruct (find_item team (teams st)) as [item|] eqn:Hfind.
  - repeat split.
    + symmetry. exact Hsync.
    + apply toggle_first_values.
  - repeat split. intros H. congruence.
Qed.

(** X6: toggles of languages and editors commute: two of them give the same
    state in either order, whether or not their values are in the
    collections. *)
Theorem toggles_commute (a b : string) (st : State) :
  toggleLanguage a (toggleLanguage b st) = toggleLanguage b (toggleLanguage a st) /\
  toggleEditor a (toggleEditor b st) = toggleEditor b (toggleEditor a st) /\
  toggleLanguage a (toggleEditor b st) = toggleEditor b (toggleLanguage a st).
Proof.
  split; [|split].
  - unfold toggleLanguage, filterLanguage.
    destruct (find_item b (languages st)) as [ib|] eqn:Hb;
      destruct (find_item a (languages st)) as [ia|] eqn:Ha;
      cbn [languages applyFilters with_filteredData with_languages].
    + destruct (find_item a (toggle_first b (languages st))) eqn:Ha'.
      2:{ apply find_item_toggle_other in Ha'. congruence. }
      destruct (find_item b (toggle_first a (languages st))) eqn:Hb'.
      2:{ apply find_item_toggle_other in Hb'. congruence. }
      cbn [languages editors hideWeekends with_filteredData with_languages].
      rewrite (toggle_first_commute a b). reflexivity.
    + destruct (find_item a (toggle_first b (languages st))) eqn:Ha'.
      1:{ apply (proj2 (find_item_toggle_other a b (languages st))) in Ha. congruence. }
      rewrite ?Hb. reflexivity.
    + rewrite ?Ha.
      destruct (find_item b (toggle_first a (languages st))) eqn:Hb'.
      1:{ apply (proj2 (find_item_toggle_other b a (languages st))) in Hb. congruence. }
      reflexivity.
    + rewrite ?Ha, ?Hb. reflexivity.
  - unfold toggleEditor, filterEditor.
    destruct (find_item b (editors st)) as [ib|] eqn:Hb;
      destruct (find_item a (editors st)) as [ia|] eqn:Ha;
      cbn [editors applyFilters with_filteredData with_editors].
    + destruct (find_item a (toggle_first b (editors st))) eqn:Ha'.
      2:{ apply find_item_toggle_other in Ha'. congruence. }
      destruct (find_item b (toggle_first a (editors st))) eqn:Hb'.
      2:{ apply find_item_toggle_other in Hb'. congruence. }
      cbn [languages editors hideWeekends with_filteredData with_editors].
      rewrite (toggle_first_commute a b). reflexivity.
    + destruct (find_item a (toggle_first b (editors st))) eqn:Ha'.
      1:{ apply (proj2 (find_item_toggle_other a b (editors st))) in Ha. congruence. }
      rewrite ?Hb. reflexivity.
    + rewrite ?Ha.
      destruct (find_item b (toggle_first a (editors st))) eqn:Hb'.
      1:{ apply (proj2 (find_item_toggle_other b a (editors st))) in Hb. congruence. }
      reflexivity.
    + rewrite ?Ha, ?Hb. reflexivity.
  - unfold toggleLanguage, toggleEditor, filterLanguage, filterEditor.
    destruct (find_item b (editors st)) as [ib|] eqn:Hb;
      destruct (find_item a (languages st)) as [ia|] eqn:Ha;
      cbn [languages editors applyFilters with_filteredData with_languages with_editors];
      rewrite ?Ha, ?Hb; reflexivity.
Qed.

(** X7: after a recomputation no row of the filtered view has an empty
    breakdown, and every breakdown entry of every row has a selected
    language, when languages are selected, and a selected editor, when
    editors are selected. *)
Theorem filtered_rows_respect_selection (st : State) :
  let selectedLanguages := filter isSelected (languages st) in
  let selectedEditors := filter isSelected (editors st) in
  Forall
    (fun row =>
       breakdown row <> [] /\
       Forall
         (fun b =>
            (selectedLanguages <> [] -> In (language b) (map value selectedLanguages)) /\
            (selectedEditors <> [] -> In (editor b) (map value selectedEditors)))
         (breakdown row))
    (filteredData (recompute st)).
Proof.
  intros sl se. unfold recompute, applyFilters. cbn [filteredData with_filteredData].
  unfold narrow. fold sl. fold se.
  generalize (aggregatedDataByTimeFrame formatDate groupByTimeFrame Date_getDay
                (hideWeekends st) st).
  intros rows. apply Forall_forall. intros row Hrow.
  apply filter_In in Hrow as [Hrow Hne]. split.
  { intros Hnil. rewrite Hnil in Hne. discriminate. }
  apply Forall_forall. intros b Hb.
  destruct (len sl =? 0) eqn:Hsl; destruct (len se =? 0) eqn:Hse; cbn [negb] in Hrow.
  - apply len_zero in Hsl, Hse. split; intros H; congruence.
  - apply len_zero in Hsl. apply in_map_iff in Hrow as (r0 & <- & _).
    cbn [breakdown with_breakdown] in Hb. apply filter_In in Hb as [_ Hb].
    split; [intros H; congruence | intros _; now apply keep_editor_In].
  - apply len_zero in Hse. apply in_map_iff in Hrow as (r0 & <- & _).
    cbn [breakdown with_breakdown] in Hb. apply filter_In in Hb as [_ Hb].
    split; [intros _; now apply keep_language_In | intros H; congruence].
  - apply in_map_iff in Hrow as (r1 & <- & Hr1).
    apply in_map_iff in Hr1 as (r0 & <- & _).
    cbn [breakdown with_breakdown] in Hb.
    apply filter_In in Hb as [Hb He]. apply filter_In in Hb as [_ Hl].
    split; intros _; [now apply keep_language_In | now apply keep_editor_In].
Qed.

(** X8: initialising a store in which no language and no editor is selected, as
    the first initialisation does, leaves the filtered view in step with
    the new data and collections. *)
Theorem initData_in_step (data_ : list CopilotUsageOutput) (seatsData_ : SeatsValue)
    (teamsData_ : list GitHubTeam) (filter_ : option CurrentFilter) (st : State) :
  filter isSelected (languages st) = [] ->
  filter isSelected (editors st) = [] ->
  synced
    (initData formatDate groupByTimeFrame Date_getDay localeCompare
       data_ seatsData_ teamsData_ filter_ st).
Proof.
  intros Hl He. unfold synced, in_sync, initData, onTimeFrameChange, applyFilters.
  destruct filter_ as [f|];
    cbn [filteredData languages editors hideWeekends timeFrame apiData
         with_filteredData with_languages with_editors with_teams with_seatsData
         with_teamsData with_apiData with_timeFrame with_currentFilter];
    rewrite (DashboardProofs.narrow_no_selection (languages st) (editors st) _ Hl He);
    rewrite DashboardProofs.narrow_no_selection;
    try reflexivity;
    apply unselected_no_selection.
  all: try (rewrite extractUniqueLanguages_collect; apply sorted_collection).
  all: try (rewrite extractUniqueEditors_collect; apply sorted_collection).
Qed.

(** X9: by day, every row of the filtered view is a raw record with its display
    label set and its breakdown narrowed: the days of the rows are days of
    the raw data, in the same order, each raw record giving at most one row,
    and with the weekend hidden every row passes the test of the code on its
    day: [getDay] of the date that the runtime makes of the day, in its own
    time zone, is neither 0 nor 6, or is no number.  Whether such a row is a
    weekday of the calendar depends on [getDay], which is outside the
    sources. *)
Theorem daily_rows (st : State) :
  timeFrame st = daily ->
  let rows := filteredData (recompute st) in
  (exists keep : CopilotUsageOutput -> bool,
     map day rows = map day (filter keep (apiData st))) /\
  Forall (fun row => time_frame_display row = formatDate (day row)) rows /\
  (hideWeekends st = true -> Forall (fun row => is_weekday Date_getDay row = true) rows).
Proof.
  intros Hdaily rows. subst rows.
  unfold recompute, applyFilters, aggregatedDataByTimeFrame.
  cbn [filteredData with_filteredData]. rewrite Hdaily.
  set (items := if hideWeekends st then filter (is_weekday Date_getDay) (apiData st)
                else apiData st).
  set (shown := fun item => with_display (formatDate (day item)) item).
  assert (Hnarrow :
    exists f : CopilotUsageOutput -> CopilotUsageOutput,
      (forall item, day (f item) = day item) /\
      (forall item, time_frame_display (f item) = time_frame_display item) /\
      narrow (languages st) (editors st) (map shown items)
      = filter (fun item => 0 <? len (breakdown item)) (map f (map shown items))).
  { unfold narrow.
    destruct (negb (len (filter isSelected (languages st)) =? 0)),
      (negb (len (filter isSelected (editors st)) =? 0)).
    - eexists (fun item =>
                 with_breakdown (filter (keep_editor _) (breakdown (with_breakdown _ item)))
                   (with_breakdown (filter (keep_language _) (breakdown item)) item)).
      split; [reflexivity|]. split; [reflexivity|].
      now rewrite map_map.
    - eexists (fun item => with_breakdown (filter (keep_language _) (breakdown item)) item).
      split; [reflexivity|]. split; reflexivity.
    - eexists (fun item => with_breakdown (filter (keep_editor _) (breakdown item)) item).
      split; [reflexivity|]. split; reflexivity.
    - exists (fun item => item).
      split; [reflexivity|]. split; [reflexivity|]. now rewrite map_id. }
  destruct Hnarrow as (f & Hday & Hdisplay & ->).
  assert (Hrow : forall row,
            In row (filter (fun item => 0 <? len (breakdown item)) (map f (map shown items))) ->
            exists item, In item items /\ row = f (shown item)).
  { intros row Hrow. apply filter_In in Hrow as [Hrow _].
    apply in_map_iff in Hrow as (x & <- & Hx).
    apply in_map_iff in Hx as (item & <- & Hitem). now exists item. }
  split; [|split].
  - exists (fun item =>
              (if hideWeekends st then is_weekday Date_getDay item else true)
              && (0 <? len (breakdown (f (shown item))))).
    rewrite map_map.
    assert (Hitems : items
                     = filter (fun item => if hideWeekends st
                                           then is_weekday Date_getDay item else true)
                         (apiData st)).
    { subst items. destruct (hideWeekends st); [reflexivity|].
      symmetry. apply SeatsExtra.filter_all. apply Forall_forall. reflexivity. }
    rewrite Hitems. clear Hitems Hrow items.
    induction (apiData st) as [|item l IH]; simpl; [reflexivity|].
    destruct (if hideWeekends st then is_weekday Date_getDay item else true); simpl;
      [|exact IH].
    destruct (0 <? len (breakdown (f (shown item)))); simpl; [|exact IH].
    rewrite Hday. unfold shown at 1. simpl. now rewrite IH.
  - apply Forall_forall. intros row Hin. destruct (Hrow row Hin) as (item & _ & ->).
    rewrite Hdisplay, Hday. reflexivity.
  - intros Hhide. apply Forall_forall. intros row Hin.
    destruct (Hrow row Hin) as (item & Hitem & ->).
    subst items. rewrite Hhide in Hitem. apply filter_In in Hitem as [_ Hwk].
    unfold is_weekday in *. rewrite Hday. exact Hwk.
Qed.

End View.

Section Refreshes.
Variable formatDate : string -> string.
Variable groupByTimeFrame :
  list (string * list CopilotUsageOutput) -> list CopilotUsageOutput.
Variable Date_getDay : string -> option Z.
Variable localeCompare : string -> string -> Z.
Variable refreshMetricsData :
  CurrentFilter -> list string -> Promise (RefreshResult (list CopilotUsageOutput)).
Variable refreshSeatsData :
  option Z -> option string -> option string -> list string ->
  Promise (RefreshResult SeatsValue).

Let refresh :=
  refreshDataWithTeams formatDate groupByTimeFrame Date_getDay localeCompare
    refreshMetricsData refreshSeatsData.
Let close_dropdown :=
  refreshTeamDataIfNeeded formatDate groupByTimeFrame Date_getDay localeCompare
    refreshMetricsData refreshSeatsData.

(** The view after a successful metrics result: no language and no editor
    is selected, so nothing is narrowed. *)
Lemma applyMetricsResult_view (d : list CopilotUsageOutput) (st : State) :
  Forall (fun item => isSelected item = false)
    (extractUniqueLanguages localeCompare (with_apiData d st)) /\
  Forall (fun item => isSelected item = false)
    (extractUniqueEditors localeCompare (with_apiData d st)) /\
  filteredData
    (applyMetricsResult formatDate groupByTimeFrame Date_getDay localeCompare d
       (with_isLoading true st))
  = filter (fun item => 0 <? len (breakdown item))
      (aggregatedDataByTimeFrame formatDate groupByTimeFrame Date_getDay
         (hideWeekends st) (with_apiData d st)).
Proof.
  assert (Hl : Forall (fun item => isSelected item = false)
                 (extractUniqueLanguages localeCompare (with_apiData d st))).
  { rewrite extractUniqueLanguages_collect. apply sorted_collection. }
  assert (He : Forall (fun item => isSelected item = false)
                 (extractUniqueEditors localeCompare (with_apiData d st))).
  { rewrite extractUniqueEditors_collect. apply sorted_collection. }
  split; [exact Hl|]. split; [exact He|].
  unfold applyMetricsResult, applyFilters.
  cbn [filteredData languages editors hideWeekends with_filteredData with_languages
       with_editors with_teams with_apiData with_isLoading].
  apply DashboardProofs.narrow_no_selection; apply unselected_no_selection.
  - exact Hl.
  - exact He.
Qed.

(** The team collection after a successful metrics result: the names of the
    stored team list, with the flags of the items that were there. *)
Lemma applyMetricsResult_teams (d : list CopilotUsageOutput) (st : State) :
  teams
    (applyMetricsResult formatDate groupByTimeFrame Date_getDay localeCompare d
       (with_isLoading true st))
  = map (restore_selection (teams st)) (extractUniqueTeams localeCompare st).
Proof.
  unfold applyMetricsResult, applyFilters.
  cbn [teams with_teams with_filteredData with_languages with_editors with_apiData
       with_isLoading].
  rewrite DashboardProofs.map_item_eta. reflexivity.
Qed.

Lemma restored_values (previous items : list DropdownFilterItem) :
  map value (map (restore_selection previous) items) = map value items.
Proof.
  rewrite map_map. apply map_ext. intros t. apply DashboardProofs.value_restore_selection.
Qed.

Lemma restored_flags (previous items : list DropdownFilterItem) :
  Forall (fun item => isSelected item = false) items ->
  Forall
    (fun t =>
       match find_item (value t) previous with
       | Some earlier => isSelected t = isSelected earlier
       | None => isSelected t = false
       end)
    (map (restore_selection previous) items).
Proof.
  intros Hitems. apply Forall_map.
  eapply Forall_impl; [|exact Hitems].
  intros t Ht. cbn beta. rewrite DashboardProofs.value_restore_selection.
  unfold restore_selection.
  destruct (find_item (value t) previous) as [p|]; [reflexivity | exact Ht].
Qed.

(** C7, as amended: when both calls deliver a result and the metrics result
    reports success with data, the raw data are replaced; the team
    collection is built anew from the stored team list, which the refresh
    leaves as it is, and not from the new data: it holds once every name,
    other than the empty one, of a stored team; every item of it whose value
    was in the collection before the refresh carries the selection flag of
    the first earlier item of that value, and every other item is
    unselected; and the filtered view is recomputed last, from the new
    data. *)
Theorem refresh_restores_team_selection (sel : list string) (w : World)
    (mr : RefreshResult (list CopilotUsageOutput)) (sr : RefreshResult SeatsValue)
    (d : list CopilotUsageOutput) :
  refreshMetricsData (currentFilter (dash w)) sel = Fulfilled mr ->
  refreshSeatsData (endDate (currentFilter (dash w))) (enterprise (currentFilter (dash w)))
    (organization (currentFilter (dash w))) sel = Fulfilled sr ->
  success mr = true ->
  data mr = Some d ->
  let st := dash w in
  let st' := dash (snd (refresh sel w)) in
  apiData st' = d /\
  teamsData st' = teamsData st /\
  map value (teams st') = map value (extractUniqueTeams localeCompare st) /\
  NoDup (map value (teams st')) /\
  (forall v,
     In v (map value (teams st')) <->
     exists team, In team (teamsData st) /\ Models.team_name team = Some v /\ v <> "") /\
  Forall
    (fun t =>
       match find_item (value t) (teams st) with
       | Some previous => isSelected t = isSelected previous
       | None => isSelected t = false
       end)
    (teams st') /\
  filteredData st'
  = filter (fun item => 0 <? len (breakdown item))
      (aggregatedDataByTimeFrame formatDate groupByTimeFrame Date_getDay
         (hideWeekends st) (with_apiData d st)) /\
  in_sync formatDate groupByTimeFrame Date_getDay st'.
Proof.
  intros Hm Hs Hsucc Hdata st st'. subst st st'. unfold refresh.
  DashboardProofs.run_async.
  rewrite Hm, Hs. cbn [Promise_all2]. rewrite Hsucc, Hdata.
  destruct (applyMetricsResult_view d (dash w)) as (_ & _ & Hview).
  pose proof (applyMetricsResult_teams d (dash w)) as Hteams.
  destruct (team_collection_values localeCompare (dash w)) as (Hnd & Hun & Hin).
  assert (Hvalues :
    map value
      (teams
         (applyMetricsResult formatDate groupByTimeFrame Date_getDay localeCompare d
            (with_isLoading true (dash w))))
    = map value (extractUniqueTeams localeCompare (dash w))).
  { rewrite Hteams. apply restored_values. }
  assert (Hflags :
    Forall
      (fun t =>
         match find_item (value t) (teams (dash w)) with
         | Some previous => isSelected t = isSelected previous
         | None => isSelected t = false
         end)
      (teams
         (applyMetricsResult formatDate groupByTimeFrame Date_getDay localeCompare d
            (with_isLoading true (dash w))))).
  { rewrite Hteams. apply restored_flags. exact Hun. }
  destruct (success sr), (data sr); cbn [dash events fst snd];
    (split; [reflexivity|]);
    (split; [reflexivity|]);
    (split; [exact Hvalues|]);
    (split; [cbn [teams with_isLoading with_seatsData]; rewrite Hvalues; exact Hnd|]);
    (split; [intros v; cbn [teams with_isLoading with_seatsData]; rewrite Hvalues;
             apply Hin|]);
    (split; [exact Hflags|]);
    (split; [exact Hview | reflexivity]).
Qed.

(** X10: when both calls of a refresh deliver a result and the metrics result
    reports success with data, every selection of a language or an editor
    is dropped: both collections come back unselected, and the filtered
    view is the bucketed new data without the rows of empty breakdown. *)
Theorem refresh_clears_language_and_editor_selection (sel : list string) (w : World)
    (mr : RefreshResult (list CopilotUsageOutput)) (sr : RefreshResult SeatsValue)
    (d : list CopilotUsageOutput) :
  refreshMetricsData (currentFilter (dash w)) sel = Fulfilled mr ->
  refreshSeatsData (endDate (currentFilter (dash w))) (enterprise (currentFilter (dash w)))
    (organization (currentFilter (dash w))) sel = Fulfilled sr ->
  success mr = true ->
  data mr = Some d ->
  let st := dash w in
  let st' := dash (snd (refresh sel w)) in
  Forall (fun item => isSelected item = false) (languages st') /\
  Forall (fun item => isSelected item = false) (editors st') /\
  filteredData st'
  = filter (fun item => 0 <? len (breakdown item))
      (aggregatedDataByTimeFrame formatDate groupByTimeFrame Date_getDay
         (hideWeekends st) (with_apiData d st)).
Proof.
  intros Hm Hs Hsucc Hdata st st'. subst st st'. unfold refresh.
  DashboardProofs.run_async.
  rewrite Hm, Hs. cbn [Promise_all2]. rewrite Hsucc, Hdata.
  destruct (applyMetricsResult_view d (dash w)) as (Hl & He & Hview).
  destruct (success sr), (data sr); cbn [dash events fst snd];
    (split; [exact Hl | split; [exact He | exact Hview]]).
Qed.

(** X11: closing the team dropdown a second time does nothing: whatever the
    first closing did, the pending flag is down after it, so the second one
    calls no server and leaves state and events as they are. *)
Theorem second_close_is_idle (w : World) :
  close_dropdown (snd (close_dropdown w)) = (Normal tt, snd (close_dropdown w)).
Proof.
  unfold close_dropdown at 2 3. unfold refreshTeamDataIfNeeded, bind, get, modify, ret.
  cbn [dash events].
  destruct (hasPendingTeamChanges (dash w)) eqn:Hpending.
  - fold refresh.
    destruct (DashboardProofs.refresh_events formatDate groupByTimeFrame Date_getDay
                localeCompare refreshMetricsData refreshSeatsData
                (map value (filter isSelected (teams (dash w)))) w)
      as (mid & H & _).
    fold refresh in H. rewrite H. cbn [fst snd dash events].
    unfold close_dropdown, refreshTeamDataIfNeeded, bind, get, ret. reflexivity.
  - cbn [snd]. unfold close_dropdown, refreshTeamDataIfNeeded, bind, get, ret.
    rewrite Hpending. reflexivity.
Qed.

(** X12: the two halves of a refresh are applied one without the other: when
    both calls deliver a result, a seat summary is taken although the
    metrics result reports a failure, and new metrics are taken although the
    seat result reports one. *)
Theorem refresh_takes_the_half_that_succeeds (sel : list string) (w : World)
    (mr : RefreshResult (list CopilotUsageOutput)) (sr : RefreshResult SeatsValue) :
  refreshMetricsData (currentFilter (dash w)) sel = Fulfilled mr ->
  refreshSeatsData (endDate (currentFilter (dash w))) (enterprise (currentFilter (dash w)))
    (organization (currentFilter (dash w))) sel = Fulfilled sr ->
  let st := dash w in
  let st' := dash (snd (refresh sel w)) in
  (forall seatsData_,
     success mr = false -> success sr = true -> data sr = Some seatsData_ ->
     seatsData st' = seatsData_ /\ apiData st' = apiData st /\
     filteredData st' = filteredData st) /\
  (forall d,
     success mr = true -> data mr = Some d -> success sr = false ->
     apiData st' = d /\ seatsData st' = seatsData st).
Proof.
  intros Hm Hs st st'. subst st st'. unfold refresh. DashboardProofs.run_async.
  rewrite Hm, Hs. cbn [Promise_all2]. split.
  - intros seatsData_ Hfail Hsucc Hdata. rewrite Hfail, Hsucc, Hdata.
    cbn [dash events fst snd]. repeat split.
  - intros d Hsucc Hdata Hfail. rewrite Hsucc, Hdata, Hfail.
    cbn [dash events fst snd]. repeat split.
Qed.

End Refreshes.

Lemma filterTeam_keeps_view_witness :
  let st' :=
    filterTeam Sample.formatDate Sample.groupByTimeFrame Sample.Date_getDay "x"
      Fixtures.go_selected in
  filteredData st' = filteredData Fixtures.go_selected /\
  apiData st' = apiData Fixtures.go_selected /\
  languages st' = languages Fixtures.go_selected /\
  editors st' = editors Fixtures.go_selected /\
  map value (teams st') = map value (teams Fixtures.go_selected) /\
  hasPendingTeamChanges st' = true.
Proof.
  destruct (filterTeam_keeps_view Sample.formatDate Sample.groupByTimeFrame
              Sample.Date_getDay "x" Fixtures.go_selected)
    as (H1 & H2 & H3 & H4 & H5 & H6).
  - reflexivity.
  - repeat (split; [assumption|]). apply H6. vm_compute. discriminate.
Defined.

Lemma initData_in_step_witness :
  in_sync Sample.formatDate Sample.groupByTimeFrame Sample.Date_getDay
    (initData Sample.formatDate Sample.groupByTimeFrame Sample.Date_getDay
       Sample.localeCompare Sample.jan_data empty_object Sample.teams_xy None
       (initial _)).
Proof.
  apply (initData_in_step Sample.formatDate Sample.groupByTimeFrame Sample.Date_getDay
           Sample.localeCompare Sample.jan_data empty_object Sample.teams_xy None
           (initial _)); reflexivity.
Defined.

Lemma daily_rows_witness :
  let rows :=
    filteredData
      (applyFilters Sample.formatDate Sample.groupByTimeFrame Sample.Date_getDay
         Fixtures.weekdays_only) in
  (exists keep : CopilotUsageOutput -> bool,
     map day rows = map day (filter keep (apiData Fixtures.weekdays_only))) /\
  Forall (fun row => time_frame_display row = Sample.formatDate (day row)) rows /\
  Forall (fun row => is_weekday Sample.Date_getDay row = true) rows.
Proof.
  destruct (daily_rows Sample.formatDate Sample.groupByTimeFrame Sample.Date_getDay
              Fixtures.weekdays_only)
    as (H1 & H2 & H3).
  - reflexivity.
  - split; [exact H1|]. split; [exact H2|]. apply H3. reflexivity.
Defined.

Lemma refresh_clears_language_and_editor_selection_witness :
  let st := Fixtures.go_selected in
  let st' := dash (snd (Sample.refresh_up ["x"] (mkWorld st []))) in
  Forall (fun item => isSelected item = false) (languages st') /\
  Forall (fun item => isSelected item = false) (editors st') /\
  filteredData st'
  = filter (fun item => 0 <? len (breakdown item))
      (aggregatedDataByTimeFrame Sample.formatDate Sample.groupByTimeFrame
         Sample.Date_getDay (hideWeekends st) (with_apiData Sample.feb_data st)).
Proof.
  apply (refresh_clears_language_and_editor_selection Sample.formatDate
           Sample.groupByTimeFrame Sample.Date_getDay Sample.localeCompare
           Sample.refreshMetricsData_up Sample.refreshSeatsData_up ["x"]
           (mkWorld Fixtures.go_selected [])
           (mkResult true (Some Sample.feb_data) None)
           (mkResult true (Some (seats_doc Sample.page1)) None)
           Sample.feb_data);
    reflexivity.
Defined.

Lemma refresh_restores_team_selection_witness :
  let st := Sample.team_x_selected in
  let st' := dash (snd (Sample.refresh_up ["x"] (mkWorld st []))) in
  apiData st' = Sample.feb_data /\
  teamsData st' = teamsData st /\
  map value (teams st') = map value (extractUniqueTeams Sample.localeCompare st) /\
  NoDup (map value (teams st')) /\
  (forall v,
     In v (map value (teams st')) <->
     exists team, In team (teamsData st) /\ Models.team_name team = Some v /\ v <> "") /\
  Forall
    (fun t =>
       match find_item (value t) (teams st) with
       | Some previous => isSelected t = isSelected previous
       | None => isSelected t = false
       end)
    (teams st') /\
  filteredData st'
  = filter (fun item => 0 <? len (breakdown item))
      (aggregatedDataByTimeFrame Sample.formatDate Sample.groupByTimeFrame
         Sample.Date_getDay (hideWeekends st) (with_apiData Sample.feb_data st)) /\
  in_sync Sample.formatDate Sample.groupByTimeFrame Sample.Date_getDay st'.
Proof.
  apply (refresh_restores_team_selection Sample.formatDate Sample.groupByTimeFrame
           Sample.Date_getDay Sample.localeCompare Sample.refreshMetricsData_up
           Sample.refreshSeatsData_up ["x"] (mkWorld Sample.team_x_selected [])
           (mkResult true (Some Sample.feb_data) None)
           (mkResult true (Some (seats_doc Sample.page1)) None)
           Sample.feb_data);
    reflexivity.
Defined.

(** C7 fails as stated.  The new data hold no record at all, and the
    languages and the editors, which are rebuilt from them, are empty; the
    team collection still lists "x" and "y", the names of the stored team
    list.  And when the metrics result reports success with data but the
    seats call is rejected, nothing is rebuilt: the raw data stay. *)
Lemma teams_are_not_rebuilt_from_new_data :
  (let st := Sample.team_x_selected in
   let st' := dash (snd (Fixtures.refresh_metrics_empty ["x"] (mkWorld st []))) in
   apiData st' = [] /\ languages st' = [] /\ editors st' = [] /\
   teams st' = [mkItem "x" true; mkItem "y" false] /\
   teamsData st' = Sample.teams_xy) /\
  (let st := Sample.team_x_selected in
   let st' := dash (snd (Fixtures.refresh_seats_rejected ["x"] (mkWorld st []))) in
   Sample.refreshMetricsData_up (currentFilter st) ["x"]
   = Fulfilled (mkResult true (Some Sample.feb_data) None) /\
   apiData st' = apiData st /\ apiData st' <> Sample.feb_data).
Proof. vm_compute. repeat split. discriminate. Qed.

Lemma refresh_takes_the_half_that_succeeds_witness :
  (let st := Sample.loaded in
   let st' := dash (snd (Fixtures.refresh_metrics_down [] (mkWorld st []))) in
   seatsData st' = seats_doc Sample.page1 /\ apiData st' = apiData st /\
   filteredData st' = filteredData st) /\
  (let st := Sample.loaded in
   let st' := dash (snd (Fixtures.refresh_seats_down [] (mkWorld st []))) in
   apiData st' = Sample.feb_data /\ seatsData st' = seatsData st).
Proof.
  split.
  - apply (proj1 (refresh_takes_the_half_that_succeeds Sample.formatDate
                    Sample.groupByTimeFrame Sample.Date_getDay Sample.localeCompare
                    Sample.refreshMetricsData_down Sample.refreshSeatsData_up []
                    (mkWorld Sample.loaded []) _ _ eq_refl eq_refl));
      reflexivity.
  - apply (proj2 (refresh_takes_the_half_that_succeeds Sample.formatDate
                    Sample.groupByTimeFrame Sample.Date_getDay Sample.localeCompare
                    Sample.refreshMetricsData_up Sample.refreshSeatsData_down []
                    (mkWorld Sample.loaded []) _ _ eq_refl eq_refl));
      reflexivity.
Defined.

End DashboardExtra.

(** ** The metrics fan-out: the order of records of one day *)

Section SortStability.
Variable A : Type.
Variable gt : A -> A -> bool.
Variable key : A -> Z.
Variable good : A -> Prop.
Hypothesis gt_key : forall a b, good a -> good b -> gt a b = (key b <? key a).

Lemma sort_insert_stable (k : Z) (x : A) (l : list A) :
  good x -> Forall good l ->
  filter (fun a => key a =? k) (sort_insert gt x l)
  = filter (fun a => key a =? k) (x :: l).
Proof.
  intros Hx Hl. induction Hl as [|y l Hy Hl IH]; [reflexivity|].
  cbn [sort_insert]. rewrite (gt_key x y Hx Hy).
  destruct (key y <? key x) eqn:Hlt; [|reflexivity].
  apply Z.ltb_lt in Hlt. cbn [filter] in *. rewrite IH.
  destruct (key y =? k) eqn:Hyk; destruct (key x =? k) eqn:Hxk; try reflexivity.
  apply Z.eqb_eq in Hyk, Hxk. lia.
Qed.

Lemma js_sort_stable (k : Z) (l : list A) :
  Forall good l ->
  filter (fun a => key a =? k) (js_sort gt l) = filter (fun a => key a =? k) l.
Proof.
  induction 1 as [|x l Hx Hl IH]; [reflexivity|].
  cbn [js_sort fold_right]. fold (js_sort gt l).
  rewrite sort_insert_stable.
  - cbn [filter]. now rewrite IH.
  - exact Hx.
  - eapply Permutation_Forall; [apply js_sort_perm | exact Hl].
Qed.
End SortStability.

Module MetricsExtra.

Import Metrics.

Lemma all_fulfilled_ok {T : Type} (records : list (list T)) :
  Promise_all (map (fun r => Fulfilled (OK r)) records) = Fulfilled (map OK records) /\
  filter (fun result => negb (is_OK result)) (map (@OK (list T)) records) = [] /\
  combine_ok (map OK records) = List.concat records.
Proof.
  unfold Promise_all, combine_ok.
  induction records as [|r records (IH1 & IH2 & IH3)]; simpl; [auto|].
  destruct (first_rejection (map (fun r => Fulfilled (OK r)) records)) as [[t e]|];
    [discriminate|].
  inversion IH1 as [Hvals]. rewrite Hvals. repeat split; [exact IH2|].
  now rewrite IH3.
Qed.

Section Facts.
Variable RawMetrics : Type.
Variable fetch : nat -> string -> string -> string -> Promise HttpResponse.
Variable json : HttpResponse -> Promise RawMetrics.
Variable applyTimeFrameLabel : RawMetrics -> list CopilotUsageOutput.
Variable formatResponseError : string -> HttpResponse -> ErrorStatus * list ServerActionError.
Variable unknownResponseError : Exn -> ErrorStatus * list ServerActionError.
Variable format : Z -> string.
Variable Date_getTime : string -> option Z.

(** X13: when every team request succeeds and the days are valid dates, the
    records of one day come out in the order in which the teams were asked
    and each team listed them: the final sort reorders only records of
    different days. *)
Theorem same_day_records_keep_team_order (cfg : GitHubConfig) (filter_ : IFilter)
    (records : list (list CopilotUsageOutput)) :
  team filter_ <> [] ->
  teamMetricsPromises fetch json applyTimeFrameLabel formatResponseError format cfg filter_
  = map (fun r => Fulfilled (OK r)) records ->
  Forall (valid_day Date_getTime) (List.concat records) ->
  exists sorted,
    getCopilotTeamsMetricsFromApi fetch json applyTimeFrameLabel formatResponseError
      unknownResponseError format Date_getTime (OK cfg) filter_ = OK sorted /\
    forall t,
      filter (fun r => day_time Date_getTime r =? t) sorted
      = filter (fun r => day_time Date_getTime r =? t) (List.concat records).
Proof.
  intros Hteam Hpromises Hvalid.
  unfold getCopilotTeamsMetricsFromApi.
  destruct (team filter_) as [|t0 ts] eqn:Ht; [congruence|].
  rewrite Hpromises.
  destruct (all_fulfilled_ok records) as (Hall & Hnone & Hconcat).
  rewrite Hall, Hnone, Hconcat.
  eexists. split; [reflexivity|].
  intros t.
  apply (js_sort_stable _ _ _ (valid_day Date_getTime)
           (fun a b => @MetricsProofs.later_day_key Date_getTime a b)).
  exact Hvalid.
Qed.

End Facts.

Lemma same_day_records_keep_team_order_witness :
  exists sorted,
    getCopilotTeamsMetricsFromApi Fixtures.fetch_same_days Sample.json
      Sample.applyTimeFrameLabel Sample.formatResponseError Sample.unknownResponseError
      Sample.format Sample.Date_parse (OK Sample.config) Sample.two_teams
    = OK sorted /\
    forall t,
      filter (fun r => day_time Sample.Date_parse r =? t) sorted
      = filter (fun r => day_time Sample.Date_parse r =? t)
          (List.concat
             [Sample.applyTimeFrameLabel "alpha"; Sample.applyTimeFrameLabel "alpha"]).
Proof.
  apply (same_day_records_keep_team_order string Fixtures.fetch_same_days Sample.json
           Sample.applyTimeFrameLabel Sample.formatResponseError
           Sample.unknownResponseError Sample.format Sample.Date_parse
           Sample.config Sample.two_teams).
  - discriminate.
  - reflexivity.
  - repeat constructor; discriminate.
Defined.

End MetricsExtra.

(** ** The filtered view and the raw data share no object *)

Module StoreExtra.

Import Dashboard Store.
Local Open Scope list_scope.

Section Facts.
Variable formatDate : string -> string.
Variable groupByTimeFrame :
  list (string * list CopilotUsageOutput) -> list CopilotUsageOutput.
Variable Date_getDay : string -> option Z.

(** X14: after a recomputation the filtered view holds distinct references to
    objects that were allocated by it: none of them existed before, and none
    of them is a reference of the raw data. *)
Theorem filtered_view_shares_no_object (st : RefState) (h : Heap) :
  well_formed st h ->
  let r := Store.applyFilters formatDate groupByTimeFrame Date_getDay st h in
  NoDup (filteredData (fst r)) /\
  Forall (fun l => (List.length h <= l < List.length (snd r))%nat) (filteredData (fst r)) /\
  forall l, In l (filteredData (fst r)) -> ~ In l (apiData (fst r)).
Proof.
  intros Hwf r.
  assert (Hmain :
    NoDup (filteredData (fst r)) /\
    Forall (fun l => (List.length h <= l < List.length (snd r))%nat) (filteredData (fst r))).
  { subst r. unfold Store.applyFilters.
    destruct (@StoreProofs.bucketed_refines formatDate groupByTimeFrame Date_getDay
                (hideWeekends st) st h Hwf) as (_ & Hnd & Hvalid).
    destruct (@StoreProofs.bucketed_frame formatDate groupByTimeFrame Date_getDay
                (hideWeekends st) st h) as (Hfresh & _ & _).
    destruct (Store.aggregatedDataByTimeFrame formatDate groupByTimeFrame Date_getDay
                (hideWeekends st) st h) as [data_ h1].
    cbn [fst snd filteredData with_filteredData] in *.
    split; [now apply @StoreProofs.NoDup_filter_refs|].
    apply Forall_forall. intros l Hl. apply @StoreProofs.filter_refs_incl in Hl.
    unfold fresh_from in Hfresh. rewrite Forall_forall in Hfresh, Hvalid.
    split; [now apply Hfresh|].
    destruct (negb (len (filter isSelected (languages st)) =? 0)),
      (negb (len (filter isSelected (editors st)) =? 0));
      rewrite ?StoreProofs.forEach_update_length; now apply Hvalid. }
  destruct Hmain as [Hnd Hfresh]. split; [exact Hnd|]. split; [exact Hfresh|].
  intros l Hl Hapi.
  rewrite Forall_forall in Hfresh. specialize (Hfresh l Hl).
  destruct (@StoreProofs.recompute_frame formatDate groupByTimeFrame Date_getDay st h)
    as (Heq & _ & _).
  fold r in Heq. rewrite Heq in Hapi.
  unfold well_formed in Hwf. rewrite Forall_forall in Hwf. specialize (Hwf l Hapi). lia.
Qed.

End Facts.

Lemma filtered_view_shares_no_object_witness :
  let r :=
    Store.applyFilters Sample.formatDate Sample.groupByTimeFrame Sample.Date_getDay
      Sample.shared Sample.jan_data in
  NoDup (filteredData (fst r)) /\
  Forall (fun l => (List.length Sample.jan_data <= l < List.length (snd r))%nat)
    (filteredData (fst r)) /\
  forall l, In l (filteredData (fst r)) -> ~ In l (apiData (fst r)).
Proof.
  apply (filtered_view_shares_no_object Sample.formatDate Sample.groupByTimeFrame
           Sample.Date_getDay Sample.shared Sample.jan_data).
  repeat constructor.
Defined.

End StoreExtra.

(** ** The Link header *)

Module LinkHeaderProofs.

Import LinkHeader.

Lemma string_app_assoc (a b c : string) : (a ++ b) ++ c = a ++ b ++ c.
Proof. induction a as [|d a IH]; simpl; [reflexivity | now rewrite IH]. Qed.

Lemma no_char_app (c : ascii) (a b : string) :
  no_char c (a ++ b) = no_char c a && no_char c b.
Proof.
  induction a as [|d a IH]; simpl; [reflexivity|].
  now rewrite IH, andb_assoc.
Qed.

Lemma span_until (c : ascii) (a b : string) :
  no_char c a = true ->
  span (is_not c) (a ++ String c b) = (a, String c b).
Proof.
  induction a as [|d a IH]; simpl; intros H.
  - unfold is_not. now rewrite Ascii.eqb_refl.
  - apply andb_true_iff in H as [Hd Ha]. unfold is_not at 1. rewrite Hd.
    now rewrite (IH Ha).
Qed.

Lemma span_spec (p : ascii -> bool) (s taken rest : string) :
  span p s = (taken, rest) -> s = taken ++ rest.
Proof.
  revert taken rest. induction s as [|c s IH]; simpl; intros taken rest H.
  - now inversion H.
  - destruct (p c).
    + destruct (span p s) as [t r]. inversion H; subst. simpl. f_equal. now apply IH.
    + now inversion H.
Qed.

Lemma span_is_not (c : ascii) (s taken rest : string) :
  span (is_not c) s = (taken, rest) -> no_char c taken = true.
Proof.
  revert taken rest. induction s as [|d s IH]; simpl; intros taken rest H.
  - now inversion H.
  - destruct (is_not c d) eqn:Hd.
    + destruct (span (is_not c) s) as [t r] eqn:Hs. inversion H; subst. simpl.
      unfold is_not in Hd. rewrite Hd. simpl. eapply IH. reflexivity.
    + now inversion H.
Qed.

Lemma strip_prefix_spec (prefix s rest : string) :
  strip_prefix prefix s = Some rest -> s = prefix ++ rest.
Proof.
  revert s. induction prefix as [|c prefix IH]; simpl; intros s H.
  - now inversion H.
  - destruct s as [|d s]; [discriminate|].
    destruct (Ascii.eqb_spec c d) as [->|]; [|discriminate].
    f_equal. now apply IH.
Qed.

Lemma truthy_nonempty (s : string) : truthy s = true <-> s <> "".
Proof.
  unfold truthy. destruct (String.eqb_spec s ""); simpl; split; congruence.
Qed.

(** *** What a match gives *)

Lemma match_here_groups (s url rel : string) :
  match_here s = Some (url, rel) ->
  url <> "" /\ no_char ">" url = true /\ exists before after, s = before ++ url ++ after.
Proof.
  unfold match_here. destruct s as [|c s1]; [discriminate|].
  destruct (Ascii.eqb c "<"); [|discriminate].
  destruct (span (is_not ">") s1) as [u s2] eqn:Hspan.
  destruct u as [|u0 u]; [discriminate|].
  destruct (strip_prefix ">;" s2) as [s3|]; [|discriminate].
  destruct (span is_space s3) as [sp s4].
  destruct (strip_prefix rel_open s4) as [s5|]; [|discriminate].
  destruct (span (is_not dquote) s5) as [r s6].
  destruct r as [|r0 r]; [discriminate|].
  destruct s6 as [|q s6]; [discriminate|].
  destruct (Ascii.eqb q dquote); [|discriminate].
  intros H. inversion H; subst. split; [discriminate|]. split.
  - eapply span_is_not. exact Hspan.
  - exists (String c EmptyString), s2. simpl. f_equal.
    now apply span_spec in Hspan.
Qed.

Lemma regex_match_unfold (s : string) :
  regex_match s
  = match match_here s with
    | Some groups => Some groups
    | None =>
        match s with
        | EmptyString => None
        | String _ s' => regex_match s'
        end
    end.
Proof. now destruct s. Qed.

Lemma regex_match_groups (s url rel : string) :
  regex_match s = Some (url, rel) ->
  url <> "" /\ no_char ">" url = true /\ exists before after, s = before ++ url ++ after.
Proof.
  induction s as [|c s IH]; rewrite regex_match_unfold.
  - discriminate.
  - destruct (match_here (String c s)) as [[u r]|] eqn:Hhere.
    + intros H. inversion H; subst. now apply match_here_groups in Hhere.
    + intros H. destruct (IH H) as (Hne & Hgt & before & after & ->).
      split; [exact Hne|]. split; [exact Hgt|].
      now exists (String c before), after.
Qed.

Lemma split_comma_pieces (s piece : string) :
  In piece (split_comma s) -> no_char "," piece = true.
Proof.
  revert piece. induction s as [|c s IH]; simpl; intros piece.
  - intros [<-|[]]. reflexivity.
  - destruct (Ascii.eqb c ",") eqn:Hc.
    + intros [<-|H]; [reflexivity | now apply IH].
    + destruct (split_comma s) as [|p rest].
      * intros [<-|[]]. simpl. now rewrite Hc.
      * intros [<-|H].
        -- simpl. rewrite Hc. simpl. apply IH. now left.
        -- apply IH. now right.
Qed.

Lemma first_next_found (links : list string) (url : string) :
  first_next links = Some url ->
  exists link, In link links /\ regex_match link = Some (url, "next").
Proof.
  induction links as [|link links IH]; simpl; [discriminate|].
  destruct (regex_match link) as [[u r]|] eqn:Hm.
  - destruct (String.eqb_spec r "next") as [->|].
    + intros H. inversion H; subst. exists link. auto.
    + intros H. destruct (IH H) as (l & Hl & Hr). exists l. auto.
  - intros H. destruct (IH H) as (l & Hl & Hr). exists l. auto.
Qed.

(** X15: the next target, when the header gives one, is never empty and holds
    no closing angle bracket and no comma: a target with a comma in it is cut
    by the split and is not found. *)
Theorem next_url_is_plain (linkHeader : option string) (url : string) :
  getNextUrlFromLinkHeader linkHeader = Some url ->
  url <> "" /\ no_char ">" url = true /\ no_char "," url = true.
Proof.
  unfold getNextUrlFromLinkHeader. destruct linkHeader as [h|]; [|discriminate].
  destruct (truthy h); [|discriminate].
  intros H. apply first_next_found in H as (link & Hlink & Hm).
  apply split_comma_pieces in Hlink.
  apply regex_match_groups in Hm as (Hne & Hgt & before & after & ->).
  split; [exact Hne|]. split; [exact Hgt|].
  rewrite !no_char_app in Hlink.
  apply andb_true_iff in Hlink as [_ Hlink].
  now apply andb_true_iff in Hlink as [Hlink _].
Qed.

(** *** Reading back a header *)

Lemma format_link_shape (url rel : string) :
  format_link (url, rel)
  = String "<"
      (url ++ String ">" (String ";" (String " "
         (String "r" (String "e" (String "l" (String "="
            (String dquote (rel ++ String dquote EmptyString))))))))).
Proof. reflexivity. Qed.

Lemma plain_link_parts (url rel : string) :
  plain_link (url, rel) = true ->
  (truthy url = true /\ no_char ">" url = true /\ no_char "," url = true) /\
  (truthy rel = true /\ no_char dquote rel = true /\ no_char "," rel = true).
Proof.
  unfold plain_link. cbn [fst snd]. intros H.
  apply andb_true_iff in H as [H Hrc]. apply andb_true_iff in H as [H Hrq].
  apply andb_true_iff in H as [H Hrt]. apply andb_true_iff in H as [H Huc].
  apply andb_true_iff in H as [Hut Hug]. repeat split; assumption.
Qed.

Lemma match_here_format_link (l : string * string) :
  plain_link l = true -> match_here (format_link l) = Some l.
Proof.
  destruct l as [url rel]. intros H.
  apply plain_link_parts in H as ((Hut & Hug & _) & (Hrt & Hrq & _)).
  rewrite format_link_shape. cbn [match_here].
  change (Ascii.eqb "<" "<") with true. cbv iota.
  rewrite span_until by assumption.
  destruct url as [|u0 url]; [discriminate|].
  cbn [strip_prefix]. change (Ascii.eqb ">" ">") with true.
  change (Ascii.eqb ";" ";") with true. cbv iota.
  cbn [span]. change (is_space " ") with true. change (is_space "r") with false.
  cbv iota.
  change (strip_prefix rel_open
            (String "r" (String "e" (String "l" (String "="
               (String dquote (rel ++ String dquote EmptyString)))))))
    with (Some (rel ++ String dquote EmptyString)).
  cbv iota beta. rewrite span_until by assumption.
  destruct rel as [|r0 rel]; [discriminate|].
  now rewrite Ascii.eqb_refl.
Qed.

Lemma regex_match_format_link (l : string * string) :
  plain_link l = true ->
  regex_match (format_link l) = Some l /\
  regex_match (String " " (format_link l)) = Some l.
Proof.
  intros H. pose proof (match_here_format_link l H) as Hm.
  assert (Hfirst : regex_match (format_link l) = Some l).
  { rewrite regex_match_unfold. now rewrite Hm. }
  split; [exact Hfirst|].
  rewrite regex_match_unfold.
  change (match_here (String " " (format_link l))) with (@None (string * string)).
  exact Hfirst.
Qed.

Lemma split_comma_single (piece : string) :
  no_char "," piece = true -> split_comma piece = [piece].
Proof.
  induction piece as [|c piece IH]; simpl; intros H; [reflexivity|].
  apply andb_true_iff in H as [Hc Hp]. apply negb_true_iff in Hc.
  rewrite Hc. now rewrite (IH Hp).
Qed.

Lemma split_comma_app (piece s : string) :
  no_char "," piece = true ->
  split_comma (piece ++ String "," s) = piece :: split_comma s.
Proof.
  induction piece as [|c piece IH]; simpl; intros H; [reflexivity|].
  apply andb_true_iff in H as [Hc Hp]. apply negb_true_iff in Hc.
  rewrite Hc. now rewrite (IH Hp).
Qed.

Lemma format_link_no_comma (l : string * string) :
  plain_link l = true -> no_char "," (format_link l) = true.
Proof.
  destruct l as [url rel]. intros H.
  apply plain_link_parts in H as ((_ & _ & Huc) & (_ & _ & Hrc)).
  rewrite format_link_shape. cbn [no_char].
  change (Ascii.eqb "<" ",") with false. cbn [negb andb].
  rewrite no_char_app, Huc. cbn [no_char andb].
  change (Ascii.eqb ">" ",") with false. change (Ascii.eqb ";" ",") with false.
  change (Ascii.eqb " " ",") with false. change (Ascii.eqb "r" ",") with false.
  change (Ascii.eqb "e" ",") with false. change (Ascii.eqb "l" ",") with false.
  change (Ascii.eqb "=" ",") with false. change (Ascii.eqb dquote ",") with false.
  cbn [negb andb]. rewrite no_char_app, Hrc. reflexivity.
Qed.

Lemma split_comma_header (prefix : string) (l : string * string)
    (links : list (string * string)) :
  no_char "," prefix = true ->
  forallb plain_link (l :: links) = true ->
  split_comma (prefix ++ format_header (l :: links))
  = (prefix ++ format_link l) :: map (fun l => String " " (format_link l)) links.
Proof.
  revert prefix l. induction links as [|l' links IH]; intros prefix l Hprefix Hplain.
  - cbn [forallb] in Hplain. apply andb_true_iff in Hplain as [Hl _].
    unfold format_header. cbn [map String.concat].
    apply split_comma_single. rewrite no_char_app, Hprefix.
    now rewrite format_link_no_comma.
  - cbn [forallb] in Hplain. apply andb_true_iff in Hplain as [Hl Hrest].
    assert (Hshape :
      prefix ++ format_header (l :: l' :: links)
      = (prefix ++ format_link l)
        ++ String "," (String " " EmptyString ++ format_header (l' :: links))).
    { unfold format_header. cbn [map String.concat].
      rewrite string_app_assoc. reflexivity. }
    rewrite Hshape, split_comma_app.
    + rewrite (IH (String " " EmptyString) l' eq_refl Hrest). reflexivity.
    + rewrite no_char_app, Hprefix. now rewrite format_link_no_comma.
Qed.

Lemma first_next_spaced (links : list (string * string)) :
  forallb plain_link links = true ->
  first_next (map (fun l => String " " (format_link l)) links)
  = option_map fst (find (fun l => String.eqb (snd l) "next") links).
Proof.
  induction links as [|l links IH]; intros Hplain; [reflexivity|].
  cbn [forallb] in Hplain. apply andb_true_iff in Hplain as [Hl Hrest].
  cbn [map first_next find].
  rewrite (proj2 (regex_match_format_link l Hl)).
  destruct l as [url rel]. cbn [snd].
  destruct (String.eqb rel "next"); [reflexivity | now apply IH].
Qed.

(** X16: a header written from a list of plain links reads back to the target
    of the first link whose relation is next, and to nothing when no link
    has that relation. *)
Theorem next_url_of_formatted_header (links : list (string * string)) :
  forallb plain_link links = true ->
  getNextUrlFromLinkHeader (Some (format_header links))
  = option_map fst (find (fun l => String.eqb (snd l) "next") links).
Proof.
  intros Hplain. destruct links as [|l links]; [reflexivity|].
  unfold getNextUrlFromLinkHeader.
  assert (Htruthy : truthy (format_header (l :: links)) = true).
  { unfold format_header. cbn [map String.concat].
    destruct l as [url rel]. rewrite format_link_shape. now destruct links. }
  rewrite Htruthy.
  pose proof (split_comma_header EmptyString l links eq_refl Hplain) as Hsplit.
  cbn [append] in Hsplit. rewrite Hsplit.
  cbn [forallb] in Hplain. apply andb_true_iff in Hplain as [Hl Hrest].
  cbn [first_next find].
  rewrite (proj1 (regex_match_format_link l Hl)).
  destruct l as [url rel]. cbn [snd].
  destruct (String.eqb rel "next"); [reflexivity | now apply first_next_spaced].
Qed.

Lemma next_url_of_formatted_header_witness :
  getNextUrlFromLinkHeader
    (Some (format_header [("https://api.github.com/x?page=1", "prev");
                          ("https://api.github.com/x?page=3", "next");
                          ("https://api.github.com/x?page=9", "last")]))
  = option_map fst
      (find (fun l => String.eqb (snd l) "next")
         [("https://api.github.com/x?page=1", "prev");
          ("https://api.github.com/x?page=3", "next");
          ("https://api.github.com/x?page=9", "last")]).
Proof.
  apply (next_url_of_formatted_header
           [("https://api.github.com/x?page=1", "prev");
            ("https://api.github.com/x?page=3", "next");
            ("https://api.github.com/x?page=9", "last")]).
  reflexivity.
Defined.

Lemma next_url_is_plain_witness :
  "https://api.github.com/x?page=3" <> "" /\
  no_char ">" "https://api.github.com/x?page=3" = true /\
  no_char "," "https://api.github.com/x?page=3" = true.
Proof.
  apply (next_url_is_plain
           (Some (format_header [("https://api.github.com/x?page=1", "prev");
                                 ("https://api.github.com/x?page=3", "next")]))).
  reflexivity.
Defined.

End LinkHeaderProofs.

(** ** The seat service: pages from the API *)

Module SeatServiceProofs.

Import Seats SeatService.
Local Open Scope list_scope.

Section Facts.
Variable fetch : string -> string -> string -> Promise Response.
Variable stringIsNullOrEmpty : string -> bool.
Variable formatResponseError : string -> Response -> ErrorStatus * list ServerActionError.
Variable unknownResponseError : Exn -> ErrorStatus * list ServerActionError.
Variable Date_parse : string -> option Z.
Variable thirtyDaysAgo thirtyDaysAgo0 thirtyDaysAgo1 : Z.

(** With enough requests allowed, the loop over a chain of pages ends with
    the records of all of them. *)
Lemma fetchSeatPages_chain (for_enterprise : bool) (name token_ version_ : string)
    (rs : list (Response * SeatsBody)) :
  forall (url : string) (pageCount : Z) (pages : list CopilotSeatsData) (fuel : nat),
    chain fetch stringIsNullOrEmpty token_ version_ url rs ->
    (List.length rs <= fuel)%nat ->
    fetchSeatPages fetch stringIsNullOrEmpty fuel for_enterprise name token_ version_ url pageCount pages
    = Some (Done (pages ++ chain_pages for_enterprise name pageCount rs)).
Proof.
  induction rs as [|[r body] rest IH]; intros url pageCount pages fuel Hchain Hfuel.
  - destruct Hchain.
  - destruct fuel as [|fuel]; [simpl in Hfuel; lia|].
    cbn [chain] in Hchain.
    destruct Hchain as (Hfetch & Hok & Hjson & Hrest).
    cbn [fetchSeatPages]. rewrite Hfetch, Hok, Hjson. cbn [negb].
    destruct rest as [|next rest].
    + rewrite Hrest. reflexivity.
    + destruct Hrest as [Hmore Hchain]. rewrite Hmore. cbn [negb].
      rewrite (IH _ _ _ fuel Hchain) by (simpl in *; lia).
      now rewrite <- app_assoc.
Qed.

Lemma fetchSeatPages_broken_chain (for_enterprise : bool) (name token_ version_ : string)
    (bad : Response) (rs : list (Response * SeatsBody)) :
  forall (url : string) (pageCount : Z) (pages : list CopilotSeatsData) (fuel : nat),
    broken_chain fetch stringIsNullOrEmpty token_ version_ url rs bad ->
    (List.length rs < fuel)%nat ->
    fetchSeatPages fetch stringIsNullOrEmpty fuel for_enterprise name token_ version_ url pageCount pages
    = Some (NotOk bad).
Proof.
  induction rs as [|[r body] rest IH]; intros url pageCount pages fuel Hchain Hfuel;
    (destruct fuel as [|fuel]; [simpl in Hfuel; lia|]);
    cbn [broken_chain] in Hchain.
  - destruct Hchain as [Hfetch Hok].
    cbn [fetchSeatPages]. now rewrite Hfetch, Hok.
  - destruct Hchain as (Hfetch & Hok & Hjson & Hmore & Hchain).
    cbn [fetchSeatPages]. rewrite Hfetch, Hok, Hjson, Hmore. cbn [negb].
    apply IH; [exact Hchain | simpl in *; lia].
Qed.

Lemma chain_pages_facts (for_enterprise : bool) (name : string)
    (rs : list (Response * SeatsBody)) (pageCount : Z) :
  map seats (chain_pages for_enterprise name pageCount rs)
  = map (fun rb => body_seats (snd rb)) rs /\
  map Models.page (chain_pages for_enterprise name pageCount rs)
  = map Some (page_numbers pageCount (List.length rs)) /\
  map has_next_page (chain_pages for_enterprise name pageCount rs)
  = map Some (next_flags (List.length rs)).
Proof.
  revert pageCount. induction rs as [|[r body] rest IH]; intros pageCount.
  - repeat split.
  - destruct (IH (pageCount + 1)) as (Hs & Hp & Hn).
    cbn [chain_pages map seats Models.page has_next_page seat_page snd List.length
         page_numbers].
    rewrite Hs, Hp. split; [reflexivity|]. split; [reflexivity|].
    rewrite Hn. now destruct rest.
Qed.

Lemma map_set_active (n : Z) (pages : list CopilotSeatsData) :
  map seats (map (set_active n) pages) = map seats pages /\
  map Models.page (map (set_active n) pages) = map Models.page pages /\
  map has_next_page (map (set_active n) pages) = map has_next_page pages /\
  Forall (fun d => total_active_seats d = Some n) (map (set_active n) pages).
Proof.
  rewrite !map_map. repeat split.
  apply Forall_forall. intros d Hd. apply in_map_iff in Hd as (d0 & <- & _). reflexivity.
Qed.

Lemma flat_map_seats (pages : list CopilotSeatsData) :
  flat_map seats pages = List.concat (map seats pages).
Proof. apply flat_map_concat_map. Qed.

(** X17: when the pages of a listing link on from the first url to a last page,
    [getDataFromApi] answers one record for every page, in order: the seats
    are those of the page, the pages are numbered from one, every record but
    the last says that a page follows, and every record carries the same
    count of active seats, that of all pages together. *)
Theorem pages_of_a_listing (cfg : Env) (filter_ : IFilter)
    (rs : list (Response * SeatsBody)) (fuel : nat) :
  let for_enterprise := truthy (enterprise filter_) in
  let name := if for_enterprise then enterprise filter_ else organization filter_ in
  chain fetch stringIsNullOrEmpty (token cfg) (version cfg) (seats_url for_enterprise name) rs ->
  (List.length rs <= fuel)%nat ->
  exists pages,
    getDataFromApi fetch stringIsNullOrEmpty formatResponseError unknownResponseError
      Date_parse thirtyDaysAgo fuel (OK cfg) filter_ = Some (OK pages) /\
    map seats pages = map (fun rb => body_seats (snd rb)) rs /\
    map Models.page pages = map Some (page_numbers 1 (List.length rs)) /\
    map has_next_page pages = map Some (next_flags (List.length rs)) /\
    Forall
      (fun d =>
         total_active_seats d
         = Some (len (filter (is_active Date_parse thirtyDaysAgo)
                        (List.concat (map (fun rb => body_seats (snd rb)) rs)))))
      pages.
Proof.
  intros for_enterprise name Hchain Hfuel.
  unfold getDataFromApi. fold for_enterprise. fold name.
  pose proof (fetchSeatPages_chain for_enterprise name (token cfg) (version cfg) rs
                _ 1 [] fuel Hchain Hfuel) as Hloop.
  rewrite Hloop. cbn [app].
  destruct (chain_pages_facts for_enterprise name rs 1) as (Hs & Hp & Hn).
  destruct (map_set_active
              (allActiveSeatsCount Date_parse thirtyDaysAgo
                 (chain_pages for_enterprise name 1 rs))
              (chain_pages for_enterprise name 1 rs)) as (Hs' & Hp' & Hn' & Hact).
  eexists. split; [reflexivity|].
  rewrite Hs', Hp', Hn', Hs, Hp, Hn. repeat split.
  assert (Hcount :
    allActiveSeatsCount Date_parse thirtyDaysAgo (chain_pages for_enterprise name 1 rs)
    = len (filter (is_active Date_parse thirtyDaysAgo)
             (List.concat (map (fun rb => body_seats (snd rb)) rs)))).
  { unfold allActiveSeatsCount. now rewrite flat_map_seats, Hs. }
  rewrite Hcount in Hact. rewrite Hcount. exact Hact.
Qed.

(** X18: when a page of the listing is answered with a status that is not ok,
    [getDataFromApi] answers the error made of that response and none of the
    pages fetched before it, and [getCopilotSeatsFromApi] answers "ERROR"
    with the one message [No data found], whatever the response was. *)
Theorem failing_page_discards_the_listing (cfg : Env) (filter_ : IFilter)
    (rs : list (Response * SeatsBody)) (bad : Response) (fuel : nat) :
  let for_enterprise := truthy (enterprise filter_) in
  let name := if for_enterprise then enterprise filter_ else organization filter_ in
  broken_chain fetch stringIsNullOrEmpty (token cfg) (version cfg) (seats_url for_enterprise name) rs bad ->
  (List.length rs < fuel)%nat ->
  getDataFromApi fetch stringIsNullOrEmpty formatResponseError unknownResponseError
    Date_parse thirtyDaysAgo fuel (OK cfg) filter_
  = Some (failed (formatResponseError name bad)) /\
  getCopilotSeatsFromApi fetch stringIsNullOrEmpty formatResponseError unknownResponseError
    Date_parse thirtyDaysAgo thirtyDaysAgo0 thirtyDaysAgo1 fuel (OK cfg) filter_
  = Some (Failed ERROR [mkError "No data found"]).
Proof.
  intros for_enterprise name Hchain Hfuel.
  assert (Hdata :
    getDataFromApi fetch stringIsNullOrEmpty formatResponseError unknownResponseError
      Date_parse thirtyDaysAgo fuel (OK cfg) filter_
    = Some (failed (formatResponseError name bad))).
  { unfold getDataFromApi. fold for_enterprise. fold name.
    pose proof (fetchSeatPages_broken_chain for_enterprise name (token cfg) (version cfg)
                  bad rs _ 1 [] fuel Hchain Hfuel) as Hloop.
    now rewrite Hloop. }
  split; [exact Hdata|].
  unfold getCopilotSeatsFromApi. rewrite Hdata. reflexivity.
Qed.

End Facts.

Lemma pages_of_a_listing_witness :
  exists pages,
    getDataFromApi Fixtures.fetch_seats Fixtures.stringIsNullOrEmpty Fixtures.seat_error
      Sample.unknownResponseError Sample.Date_parse 19 5 (OK Fixtures.seat_env)
      Fixtures.seat_filter = Some (OK pages) /\
    map seats pages = [[Fixtures.seat_a; Fixtures.seat_b]; [Fixtures.seat_a]] /\
    map Models.page pages = [Some 1; Some 2] /\
    map has_next_page pages = [Some true; Some false] /\
    Forall (fun d => total_active_seats d = Some 2) pages.
Proof.
  apply (pages_of_a_listing Fixtures.fetch_seats Fixtures.stringIsNullOrEmpty
           Fixtures.seat_error Sample.unknownResponseError Sample.Date_parse 19
           Fixtures.seat_env Fixtures.seat_filter
           [(Fixtures.seats_response1, mkBody [Fixtures.seat_a; Fixtures.seat_b] 3);
            (Fixtures.seats_response2, mkBody [Fixtures.seat_a] 3)]
           5).
  - vm_compute. repeat split.
  - simpl. lia.
Defined.

Lemma failing_page_discards_the_listing_witness :
  getDataFromApi Fixtures.fetch_seats_broken Fixtures.stringIsNullOrEmpty
    Fixtures.seat_error Sample.unknownResponseError Sample.Date_parse 19 5
    (OK Fixtures.seat_env) Fixtures.seat_filter
  = Some (failed (Fixtures.seat_error "org" Fixtures.seats_unauthorized)) /\
  getCopilotSeatsFromApi Fixtures.fetch_seats_broken Fixtures.stringIsNullOrEmpty
    Fixtures.seat_error Sample.unknownResponseError Sample.Date_parse 19 19 19 5
    (OK Fixtures.seat_env) Fixtures.seat_filter
  = Some (Failed ERROR [mkError "No data found"]).
Proof.
  apply (failing_page_discards_the_listing Fixtures.fetch_seats_broken
           Fixtures.stringIsNullOrEmpty Fixtures.seat_error Sample.unknownResponseError
           Sample.Date_parse 19 19 19 Fixtures.seat_env Fixtures.seat_filter
           [(Fixtures.seats_response1, mkBody [Fixtures.seat_a; Fixtures.seat_b] 3)]
           Fixtures.seats_unauthorized 5).
  - vm_compute. repeat split.
  - simpl. lia.
Defined.

Section Entry.
Variable fetch : string -> string -> string -> Promise Response.
Variable stringIsNullOrEmpty : string -> bool.
Variable formatResponseError : string -> Response -> ErrorStatus * list ServerActionError.
Variable unknownResponseError : Exn -> ErrorStatus * list ServerActionError.
Variable Date_parse : string -> option Z.
Variable thirtyDaysAgo thirtyDaysAgo0 thirtyDaysAgo1 : Z.
Variable GITHUB_API_SCOPE : option string.
Variable getCopilotSeatsFromDatabase : IFilter -> ServerActionResponse CopilotSeatsData.

(** X19: without a database, when a page of the seat listing is answered with a
    status that is not ok, [getCopilotSeats] answers "ERROR" with
    [No data found], and [getCopilotSeatsManagement] answers "OK" with the
    empty object: the caller of the second cannot tell the failure from a
    listing. *)
Theorem failed_listing_reads_as_empty_seats (cfg : Env) (filter_ : IFilter)
    (rs : list (Response * SeatsBody)) (bad : Response) (fuel : nat) :
  let asked := with_scope_defaults stringIsNullOrEmpty GITHUB_API_SCOPE cfg filter_ in
  let for_enterprise := truthy (enterprise asked) in
  let name := if for_enterprise then enterprise asked else organization asked in
  broken_chain fetch stringIsNullOrEmpty (token cfg) (version cfg)
    (seats_url for_enterprise name) rs bad ->
  (List.length rs < fuel)%nat ->
  getCopilotSeats fetch stringIsNullOrEmpty formatResponseError unknownResponseError
    Date_parse thirtyDaysAgo thirtyDaysAgo0 thirtyDaysAgo1 GITHUB_API_SCOPE false
    getCopilotSeatsFromDatabase fuel (OK cfg) filter_
  = Some (Failed ERROR [mkError "No data found"]) /\
  getCopilotSeatsManagement fetch stringIsNullOrEmpty formatResponseError
    unknownResponseError Date_parse thirtyDaysAgo thirtyDaysAgo0 thirtyDaysAgo1
    GITHUB_API_SCOPE false getCopilotSeatsFromDatabase fuel (OK cfg) filter_
  = Some (OK empty_object).
Proof.
  intros asked for_enterprise name Hchain Hfuel.
  assert (Hapi :
    getCopilotSeatsFromApi fetch stringIsNullOrEmpty formatResponseError
      unknownResponseError Date_parse thirtyDaysAgo thirtyDaysAgo0 thirtyDaysAgo1
      fuel (OK cfg) asked
    = Some (Failed ERROR [mkError "No data found"])).
  { unfold getCopilotSeatsFromApi, getDataFromApi.
    fold for_enterprise. fold name.
    now rewrite (fetchSeatPages_broken_chain fetch stringIsNullOrEmpty for_enterprise name
                   (token cfg) (version cfg) bad rs _ 1 [] fuel Hchain Hfuel). }
  unfold getCopilotSeats, getCopilotSeatsManagement, seats_backend.
  fold asked. now rewrite Hapi.
Qed.

End Entry.

Lemma failed_listing_reads_as_empty_seats_witness :
  getCopilotSeats Fixtures.fetch_seats_broken Fixtures.stringIsNullOrEmpty
    Fixtures.seat_error Sample.unknownResponseError Sample.Date_parse 19 19 19
    (Some "organization") false Fixtures.no_database 5 (OK Fixtures.seat_env)
    Fixtures.seat_filter_blank
  = Some (Failed ERROR [mkError "No data found"]) /\
  getCopilotSeatsManagement Fixtures.fetch_seats_broken Fixtures.stringIsNullOrEmpty
    Fixtures.seat_error Sample.unknownResponseError Sample.Date_parse 19 19 19
    (Some "organization") false Fixtures.no_database 5 (OK Fixtures.seat_env)
    Fixtures.seat_filter_blank
  = Some (OK empty_object).
Proof.
  apply (failed_listing_reads_as_empty_seats Fixtures.fetch_seats_broken
           Fixtures.stringIsNullOrEmpty Fixtures.seat_error Sample.unknownResponseError
           Sample.Date_parse 19 19 19 (Some "organization") Fixtures.no_database
           Fixtures.seat_env Fixtures.seat_filter_blank
           [(Fixtures.seats_response1, mkBody [Fixtures.seat_a; Fixtures.seat_b] 3)]
           Fixtures.seats_unauthorized 5).
  - vm_compute. repeat split.
  - simpl. lia.
Defined.

End SeatServiceProofs.

(** ** The teams of the seats *)

Module TeamServiceProofs.

Import TeamService.
Local Open Scope list_scope.

Lemma id_eq_iff (a b : option Z) : id_eq a b = true <-> a = b.
Proof.
  destruct a as [x|], b as [y|]; simpl; try (split; congruence).
  rewrite Z.eqb_eq. split; congruence.
Qed.

Lemma name_eq_refl (a : option string) : name_eq a a = true.
Proof. destruct a as [x|]; simpl; [apply String.eqb_refl | reflexivity]. Qed.

Lemma same_team_refl (t : GitHubTeam) : same_team t t = true.
Proof.
  unfold same_team. destruct (id_truthy (team_id t)).
  - now apply id_eq_iff.
  - apply name_eq_refl.
Qed.

Lemma findIndex_from_skip {A : Type} (p : A -> bool) (pre suf : list A) (i : Z) :
  existsb p pre = false ->
  findIndex_from i p (pre ++ suf) = findIndex_from (i + Z.of_nat (List.length pre)) p suf.
Proof.
  revert i. induction pre as [|x pre IH]; intros i Hpre.
  - simpl. now rewrite Z.add_0_r.
  - simpl in Hpre. apply orb_false_iff in Hpre as [Hx Hpre].
    cbn [app findIndex_from List.length]. rewrite Hx, (IH (i + 1) Hpre).
    f_equal. lia.
Qed.

Lemma findIndex_from_early {A : Type} (p : A -> bool) (pre suf : list A) (i : Z) :
  existsb p pre = true ->
  findIndex_from i p (pre ++ suf) < i + Z.of_nat (List.length pre).
Proof.
  revert i. induction pre as [|x pre IH]; intros i Hpre; [discriminate|].
  cbn [app findIndex_from List.length]. simpl in Hpre.
  destruct (p x); [lia|]. simpl in Hpre.
  specialize (IH (i + 1) Hpre). lia.
Qed.

(** The index test of the filter, at the place of [x]: [x] stays when no
    earlier team passes the test for it. *)
Lemma kept_at (seen rest : list GitHubTeam) (x : GitHubTeam) :
  (Z.of_nat (List.length seen) =? findIndex (same_team x) (seen ++ x :: rest))
  = negb (existsb (same_team x) seen).
Proof.
  unfold findIndex. destruct (existsb (same_team x) seen) eqn:Hseen; cbn [negb].
  - apply Z.eqb_neq.
    pose proof (findIndex_from_early (same_team x) seen (x :: rest) 0 Hseen). lia.
  - rewrite (findIndex_from_skip (same_team x) seen (x :: rest) 0 Hseen).
    cbn [findIndex_from]. rewrite same_team_refl. apply Z.eqb_eq. lia.
Qed.

Lemma filter_from_unique_after (seen rest : list GitHubTeam) :
  filter_from (Z.of_nat (List.length seen))
    (fun team index => index =? findIndex (same_team team) (seen ++ rest)) rest
  = unique_after seen rest.
Proof.
  revert seen. induction rest as [|x rest IH]; intros seen; [reflexivity|].
  cbn [filter_from unique_after]. rewrite kept_at.
  assert (Hnext : Z.of_nat (List.length seen) + 1 = Z.of_nat (List.length (seen ++ [x]))).
  { rewrite length_app. simpl. lia. }
  assert (Hlist : seen ++ x :: rest = (seen ++ [x]) ++ rest).
  { now rewrite <- app_assoc. }
  rewrite Hnext, Hlist, IH.
  now destruct (existsb (same_team x) seen).
Qed.

Lemma uniqueTeams_unique_after (teams : list GitHubTeam) :
  uniqueTeams teams = unique_after [] teams.
Proof. exact (filter_from_unique_after [] teams). Qed.

Lemma unique_after_In (rest seen : list GitHubTeam) (t : GitHubTeam) :
  In t (unique_after seen rest) ->
  In t rest /\ existsb (same_team t) seen = false.
Proof.
  revert seen. induction rest as [|x rest IH]; intros seen Hin; [destruct Hin|].
  cbn [unique_after] in Hin.
  assert (Hlater : In t (unique_after (seen ++ [x]) rest) ->
                   In t (x :: rest) /\ existsb (same_team t) seen = false).
  { intros H. apply IH in H as [Hrest Hseen].
    rewrite existsb_app in Hseen. apply orb_false_iff in Hseen as [Hseen _].
    split; [now right | exact Hseen]. }
  destruct (existsb (same_team x) seen) eqn:Hx.
  - now apply Hlater.
  - destruct Hin as [<-|Hin]; [split; [now left | exact Hx] | now apply Hlater].
Qed.

Lemma unique_after_later (rest seen : list GitHubTeam) (x t : GitHubTeam) :
  In t (unique_after (seen ++ [x]) rest) -> same_team t x = false.
Proof.
  intros Hin. apply unique_after_In in Hin as [_ Hseen].
  rewrite existsb_app in Hseen. apply orb_false_iff in Hseen as [_ Hx].
  simpl in Hx. now rewrite orb_false_r in Hx.
Qed.

Section ById.

(** When every team has an id that is truthy, the test is the equality of
    the ids. *)
Lemma same_team_by_id (team t : GitHubTeam) :
  id_truthy (team_id t) = true ->
  same_team team t = true <-> team_id t = team_id team.
Proof. intros Hid. unfold same_team. rewrite Hid. apply id_eq_iff. Qed.

Lemma seen_by_id (seen : list GitHubTeam) (x : GitHubTeam) :
  Forall (fun t => id_truthy (team_id t) = true) seen ->
  existsb (same_team x) seen = true <-> In (team_id x) (map team_id seen).
Proof.
  intros Hids. rewrite existsb_exists, in_map_iff. split.
  - intros (t & Hin & Hsame). exists t. split; [|exact Hin].
    rewrite Forall_forall in Hids. now apply same_team_by_id; [apply Hids|].
  - intros (t & Hid & Hin). exists t. split; [exact Hin|].
    rewrite Forall_forall in Hids. now apply same_team_by_id; [apply Hids|].
Qed.

Lemma unique_after_by_id (rest seen : list GitHubTeam) :
  Forall (fun t => id_truthy (team_id t) = true) seen ->
  Forall (fun t => id_truthy (team_id t) = true) rest ->
  NoDup (map team_id (unique_after seen rest)) /\
  (forall t, In t rest ->
     In (team_id t) (map team_id seen) \/
     In (team_id t) (map team_id (unique_after seen rest))).
Proof.
  revert seen. induction rest as [|x rest IH]; intros seen Hseen Hrest.
  - split; [constructor | intros t []].
  - inversion Hrest as [|? ? Hx Hrest']; subst.
    assert (Hseen' : Forall (fun t => id_truthy (team_id t) = true) (seen ++ [x])).
    { apply Forall_app. split; [exact Hseen | now constructor]. }
    destruct (IH (seen ++ [x]) Hseen' Hrest') as [Hnodup Hall].
    cbn [unique_after].
    destruct (existsb (same_team x) seen) eqn:Hdup.
    + split; [exact Hnodup|].
      intros t [<-|Hin]; [left; now apply seen_by_id|].
      destruct (Hall t Hin) as [Hs|Hr]; [|now right].
      rewrite map_app in Hs. apply in_app_or in Hs as [Hs|[Hs|[]]]; [now left|].
      left. rewrite <- Hs. now apply seen_by_id.
    + split.
      * cbn [map]. constructor; [|exact Hnodup].
        intros Hin. apply in_map_iff in Hin as (t & Hid & Hin).
        pose proof (unique_after_later rest seen x t Hin) as Hdiff.
        assert (Hsame : same_team t x = true)
          by (apply same_team_by_id; [exact Hx | now symmetry]).
        congruence.
      * intros t [<-|Hin]; [right; now left|].
        destruct (Hall t Hin) as [Hs|Hr]; [|right; now right].
        rewrite map_app in Hs. apply in_app_or in Hs as [Hs|[Hs|[]]]; [now left|].
        right. left. exact Hs.
Qed.

End ById.

(** X20: when every team of the pages has an id that is truthy, the teams that
    [getAllCopilotSeatsTeamsFromApi] answers have pairwise different ids,
    every id of the pages is among them, and each of them is a team of the
    pages. *)
Theorem unique_teams_by_id (teams : list GitHubTeam) :
  Forall (fun t => id_truthy (team_id t) = true) teams ->
  NoDup (map team_id (uniqueTeams teams)) /\
  (forall t, In t teams -> In (team_id t) (map team_id (uniqueTeams teams))) /\
  (forall t, In t (uniqueTeams teams) -> In t teams).
Proof.
  intros Hids. rewrite uniqueTeams_unique_after.
  destruct (unique_after_by_id teams [] (Forall_nil _) Hids) as [Hnodup Hall].
  split; [exact Hnodup|]. split.
  - intros t Hin. destruct (Hall t Hin) as [[]|H]; exact H.
  - intros t Hin. now apply unique_after_In in Hin.
Qed.

Lemma unique_teams_by_id_witness :
  NoDup (map team_id
           (uniqueTeams [Fixtures.team_x; Fixtures.team_y; Fixtures.team_x_renamed])) /\
  (forall t, In t [Fixtures.team_x; Fixtures.team_y; Fixtures.team_x_renamed] ->
     In (team_id t)
        (map team_id
           (uniqueTeams [Fixtures.team_x; Fixtures.team_y; Fixtures.team_x_renamed]))) /\
  (forall t,
     In t (uniqueTeams [Fixtures.team_x; Fixtures.team_y; Fixtures.team_x_renamed]) ->
     In t [Fixtures.team_x; Fixtures.team_y; Fixtures.team_x_renamed]).
Proof.
  apply (unique_teams_by_id [Fixtures.team_x; Fixtures.team_y; Fixtures.team_x_renamed]).
  repeat constructor.
Defined.

(** X21: a first team without a truthy id hides every later team of its name,
    whatever the id of the later team: the answer starts with the first
    team, and no other team of the answer has its name. *)
Theorem team_without_id_hides_its_name (t : GitHubTeam) (n : string)
    (rest : list GitHubTeam) :
  id_truthy (team_id t) = false ->
  team_name t = Some n ->
  exists kept,
    uniqueTeams (t :: rest) = t :: kept /\
    forall x, In x kept -> team_name x <> Some n.
Proof.
  intros Hid Hname. rewrite uniqueTeams_unique_after. cbn [unique_after existsb app].
  eexists. split; [reflexivity|].
  intros x Hin Hx.
  pose proof (unique_after_later rest [] t x Hin) as Hdiff.
  unfold same_team in Hdiff. rewrite Hid, Hname, Hx in Hdiff.
  simpl in Hdiff. now rewrite String.eqb_refl in Hdiff.
Qed.

Lemma team_without_id_hides_its_name_witness :
  exists kept,
    uniqueTeams [Fixtures.team_without_id; Fixtures.team_x; Fixtures.team_y]
    = Fixtures.team_without_id :: kept /\
    forall x, In x kept -> team_name x <> Some "x".
Proof.
  apply (team_without_id_hides_its_name Fixtures.team_without_id "x"
           [Fixtures.team_x; Fixtures.team_y]); reflexivity.
Defined.

End TeamServiceProofs.
